(** * PyInstaller bootloader: process roles, run-time options and
      interpreter configuration

    A shallow embedding of the parts of the bootloader that decide the
    process level ([pyi_main]), collect the run-time options of the PKG
    archive ([pyi_runtime_options_read]), fill the interpreter
    configuration under the two initialization protocols (PEP 587 and
    PEP 741) and start the interpreter ([pyi_python_start_interpreter],
    [pyi_python_install_pyz]).

    C strings are modelled by the [string] of their characters before the
    terminating NUL; C integers by [Z] with the conversions written out. *)

From Stdlib Require Import ZArith NArith String Ascii List Bool Lia.
From stdpp Require Import base option strings gmap.
Import ListNotations.

Local Open Scope string_scope.
Local Open Scope Z_scope.

(** ** C library helpers *)

Module CLib.

(** [strncmp(a, b, n) == 0]: the first [n] characters agree, a common end
    of both strings before that counting as agreement. *)
Fixpoint strncmp_eq (a b : string) (n : nat) {struct n} : bool :=
  match n with
  | O => true
  | S n' =>
      match a, b with
      | EmptyString, EmptyString => true
      | String x a', String y b' =>
          if Ascii.eqb x y then strncmp_eq a' b' n' else false
      | _, _ => false
      end
  end.

(** [strcmp(a, b) == 0]. *)
Definition strcmp_eq (a b : string) : bool := String.eqb a b.

(** [&s[n]] for [n] within the string (or at its terminator). *)
Fixpoint str_from (n : nat) (s : string) {struct n} : string :=
  match n, s with
  | O, _ => s
  | S n', String _ s' => str_from n' s'
  | S _, EmptyString => EmptyString
  end.

(** Wide-character strings: the values of their [wchar_t] elements
    before the terminator. *)
Definition wstring := list Z.

(** [p == NULL] *)
Definition is_null {A : Type} (p : option A) : bool :=
  match p with Some _ => false | None => true end.

(** Decimal digits of a natural number, most significant first, as printf
    prints them. *)
Definition digit_char (d : N) : ascii := ascii_of_N (48 + d).

Fixpoint fmt_digits (fuel : nat) (n : N) (acc : string) : string :=
  match fuel with
  | O => acc
  | S fuel' =>
      let acc' := String (digit_char (n mod 10)) acc in
      if (n / 10 =? 0)%N then acc' else fmt_digits fuel' (n / 10)%N acc'
  end.

(** [%llu] (and every unsigned conversion). *)
Definition fmt_u (n : N) : string :=
  fmt_digits (S (N.to_nat (N.log2 n))) n EmptyString.

(** [%d]. *)
Definition fmt_d (z : Z) : string :=
  match z with
  | Zneg p => String "-" (fmt_u (Npos p))
  | _ => fmt_u (Z.to_N z)
  end.

(** Conversion of a [long] to [signed char] (two's complement wrap). *)
Definition to_schar (z : Z) : Z := (z + 128) mod 256 - 128.

(** *** strtol

    [strtol(nptr, &endptr, 0)] after ISO C: white space is skipped, an
    optional sign is read, the base is 16 after [0x]/[0X] followed by a
    hexadecimal digit, 8 after a leading [0], 10 otherwise; the longest
    run of digits of that base is converted and the result is clamped to
    the range of [long]. Without any digit nothing is consumed. The model
    returns the value and the text [endptr] points at. *)

Definition isspace (c : ascii) : bool :=
  let n := Z.of_N (N_of_ascii c) in
  (n =? 32) || ((9 <=? n) && (n <=? 13)).

Definition digit_val (c : ascii) : option Z :=
  let n := Z.of_N (N_of_ascii c) in
  if (48 <=? n) && (n <=? 57) then Some (n - 48)
  else if (97 <=? n) && (n <=? 122) then Some (n - 87)
  else if (65 <=? n) && (n <=? 90) then Some (n - 55)
  else None.

Definition digit_in (base : Z) (c : ascii) : option Z :=
  match digit_val c with
  | Some d => if d <? base then Some d else None
  | None => None
  end.

Definition is_digit (base : Z) (c : ascii) : bool :=
  match digit_in base c with Some _ => true | None => false end.

Fixpoint skip_space (s : string) : string :=
  match s with
  | String c s' => if isspace c then skip_space s' else s
  | EmptyString => s
  end.

Fixpoint strtol_digits (base : Z) (s : string) (acc : Z) (seen : bool)
  : Z * bool * string :=
  match s with
  | String c s' =>
      match digit_in base c with
      | Some d => strtol_digits base s' (acc * base + d) true
      | None => (acc, seen, s)
      end
  | EmptyString => (acc, seen, s)
  end.

Definition strtol_sign (s : string) : bool * string :=
  match s with
  | String "-" s' => (true, s')
  | String "+" s' => (false, s')
  | _ => (false, s)
  end.

Definition strtol_base0 (s : string) : Z * string :=
  match s with
  | String "0" (String x (String h s')) =>
      if (Ascii.eqb x "x" || Ascii.eqb x "X") && is_digit 16 h
      then (16, String h s')
      else (8, s)
  | String "0" _ => (8, s)
  | _ => (10, s)
  end.

Definition clamp_long (LONG_MAX : Z) (z : Z) : Z :=
  Z.max (- LONG_MAX - 1) (Z.min LONG_MAX z).

Definition strtol (LONG_MAX : Z) (nptr : string) : Z * string :=
  let '(neg, s) := strtol_sign (skip_space nptr) in
  let '(base, s) := strtol_base0 s in
  let '(acc, seen, rest) := strtol_digits base s 0 false in
  if seen then (clamp_long LONG_MAX (if neg then - acc else acc), rest)
  else (0, nptr).

(** [strtoul(s, NULL, 10)]. *)
Definition strtoul10 (ULONG_MAX : Z) (s : string) : Z :=
  let '(neg, s) := strtol_sign (skip_space s) in
  let '(acc, _, _) := strtol_digits 10 s 0 false in
  if ULONG_MAX <? acc then ULONG_MAX
  else if neg : bool then (- acc) mod (ULONG_MAX + 1) else acc.

(** C's [!x]. *)
Definition lnot (x : Z) : Z := if x =? 0 then 1 else 0.

(** The first [n] strings of an array, as the runtime reads them when it
    copies a list; [None] when that reads through a NULL pointer or past
    the array. *)
Fixpoint read_items {A : Type} (slots : list (option A)) (n : nat)
  : option (list A) :=
  match n with
  | O => Some []
  | S n' =>
      match slots with
      | Some x :: slots' =>
          match read_items slots' n' with
          | Some l => Some (x :: l)
          | None => None
          end
      | _ => None
      end
  end.

Definition read_array {A : Type} (array : option (list (option A))) (n : nat)
  : option (list A) :=
  match n, array with
  | O, _ => Some []
  | _, Some slots => read_items slots n
  | _, None => None
  end.

(** [snprintf(buffer, size, ...) >= size]: the text does not fit. *)
Definition too_long (size : Z) (text : string) : bool :=
  size <=? Z.of_nat (String.length text).

(** Conversion of an [unsigned long] to [int64_t]. *)
Definition to_int64 (z : Z) : Z := (z + 2 ^ 63) mod 2 ^ 64 - 2 ^ 63.

(** The first [n] characters of [s]: what [readlink], [strncpy] and
    [snprintf] leave of a string that does not fit. *)
Fixpoint str_take (n : nat) (s : string) {struct n} : string :=
  match n, s with
  | S n', String c s' => String c (str_take n' s')
  | _, _ => EmptyString
  end.

(** [snprintf(buffer, size, "%s", text)]: the text, cut to fit. *)
Definition snprintf_s (size : Z) (text : string) : string :=
  str_take (Z.to_nat (size - 1)) text.

(** [strchr(s, c) != NULL] *)
Fixpoint strchr_found (s : string) (c : ascii) : bool :=
  match s with
  | EmptyString => false
  | String x s' => Ascii.eqb x c || strchr_found s' c
  end.

(** The tokens that successive calls of [strtok(s, delim)] yield: the
    longest runs of characters that are not in [delim]; [token] is the
    run being read. *)
Fixpoint strtok_tokens (delim : string) (s : string) (token : string)
  : list string :=
  match s with
  | EmptyString =>
      match token with EmptyString => [] | _ => [token] end
  | String c s' =>
      if strchr_found delim c then
        match token with
        | EmptyString => strtok_tokens delim s' EmptyString
        | _ => token :: strtok_tokens delim s' EmptyString
        end
      else strtok_tokens delim s' (token +:+ String c EmptyString)
  end.

(** The conversion [%64[^.]] of [sscanf]: the longest run of at most
    [width] characters other than the dot, and what follows it. *)
Fixpoint scan_not_dot (width : nat) (s : string) {struct width} : string * string :=
  match width, s with
  | S width', String c s' =>
      if Ascii.eqb c "." then (EmptyString, s)
      else let '(item, rest) := scan_not_dot width' s' in (String c item, rest)
  | _, _ => (EmptyString, s)
  end.

(** [sscanf(s, "ld-%64[^.].so.%d", loader_name, &soversion) == 2]. The
    ordinary characters of the format have to be there as they are, the
    run before [.so.] must not be empty, and [%d] skips white space and
    takes an optional sign and at least one digit. A number that an
    [int] cannot hold leaves the behaviour undefined ([None]). *)
Definition sscanf_ld_so (INT_MAX : Z) (s : string) : option bool :=
  if negb (strncmp_eq s "ld-" 3) then Some false
  else
    let '(loader_name, rest) := scan_not_dot 64 (str_from 3 s) in
    match loader_name with
    | EmptyString => Some false
    | String _ _ =>
        if negb (strncmp_eq rest ".so." 4) then Some false
        else
          let '(neg, digits) := strtol_sign (skip_space (str_from 4 rest)) in
          let '(acc, seen, _) := strtol_digits 10 digits 0 false in
          if negb seen then Some false
          else
            let soversion := if neg : bool then - acc else acc in
            if (- INT_MAX - 1 <=? soversion) && (soversion <=? INT_MAX)
            then Some true else None
    end.

(** The C string held by a sequence of [char] values: it ends at the
    first NUL. *)
Fixpoint c_string (chars : list Z) : string :=
  match chars with
  | [] => EmptyString
  | c :: chars' =>
      if c mod 256 =? 0 then EmptyString
      else String (ascii_of_N (Z.to_N (c mod 256))) (c_string chars')
  end.

End CLib.

(** ** Control flow of a C function body

    A statement either falls through to the next one, leaves the function
    with [return code], ends the process, or has no defined behaviour.
    [M S A] threads a state [S] through such statements. *)

Module Step.

Inductive outcome (A : Type) :=
| Next (a : A)
| Return (code : Z)
| Exit
| Undefined.
Arguments Next {A} a.
Arguments Return {A} code.
Arguments Exit {A}.
Arguments Undefined {A}.

Definition M (S A : Type) : Type := S -> outcome A * S.

Definition ret {S A} (a : A) : M S A := fun w => (Next a, w).

Definition bind {S A B} (m : M S A) (k : A -> M S B) : M S B :=
  fun w =>
    match m w with
    | (Next a, w') => k a w'
    | (Return c, w') => (Return c, w')
    | (Exit, w') => (Exit, w')
    | (Undefined, w') => (Undefined, w')
    end.

Definition c_return {S A} (code : Z) : M S A := fun w => (Return code, w).

Definition undefined {S A} : M S A := fun w => (Undefined, w).

Definition exit_process {S A} : M S A := fun w => (Exit, w).

(** A call: the callee's [return] gives the value of the call. *)
Definition call {S} (body : M S Z) : M S Z :=
  fun w =>
    match body w with
    | (Return c, w') => (Next c, w')
    | r => r
    end.

Declare Scope step_scope.
Delimit Scope step_scope with step.
Notation "x <- m ;; k" := (bind m (fun x => k))
  (at level 100, m at next level, right associativity) : step_scope.
Notation "m ;; k" := (bind m (fun _ => k))
  (at level 100, right associativity) : step_scope.

End Step.

(** ** Build targets *)

Module Target.

(** The build target, as far as the preprocessor conditions of the
    bootloader distinguish it. *)
Inductive platform := Win32 | Darwin | Cygwin | Linux | OtherUnix.

(** [defined(_WIN32)] *)
Definition is_win32 (p : platform) : bool :=
  match p with Win32 => true | _ => false end.

(** [defined(_WIN32) || defined(__APPLE__) || defined(__CYGWIN__)] *)
Definition win_mac_cygwin (p : platform) : bool :=
  match p with Win32 | Darwin | Cygwin => true | Linux | OtherUnix => false end.

(** [defined(__linux__)] *)
Definition is_linux (p : platform) : bool :=
  match p with Linux => true | _ => false end.

(** [PYI_SEPSTR] *)
Definition PYI_SEPSTR (p : platform) : string :=
  if is_win32 p then String (ascii_of_N 92) EmptyString else "/".

(** [PYI_SEP] and [PYI_PATHSEPSTR] *)
Definition PYI_SEP (p : platform) : ascii :=
  if is_win32 p then ascii_of_N 92 else "/"%char.

Definition PYI_PATHSEPSTR (p : platform) : string :=
  if is_win32 p then ";" else ":".

(** [PYI_PATH_MAX], given the [PATH_MAX] of [limits.h]. *)
Definition PYI_PATH_MAX (PATH_MAX : Z) (p : platform) : Z :=
  match p with
  | Win32 => 4096
  | Darwin => 1024
  | _ => PATH_MAX
  end.

End Target.

(** ** The PKG archive, as the bootloader sees it *)

Module Archive.

(** Modelled from the spec: the type codes of TOC entries (the header of
    the archive client is not part of the tree). Every code that the
    functions below do not single out is an [ARCHIVE_ITEM_OTHER]. *)
Inductive typecode :=
| ARCHIVE_ITEM_PYMODULE
| ARCHIVE_ITEM_PYPACKAGE
| ARCHIVE_ITEM_PYZ
| ARCHIVE_ITEM_RUNTIME_OPTION
| ARCHIVE_ITEM_OTHER (code : ascii).

Definition typecode_eqb (a b : typecode) : bool :=
  match a, b with
  | ARCHIVE_ITEM_PYMODULE, ARCHIVE_ITEM_PYMODULE => true
  | ARCHIVE_ITEM_PYPACKAGE, ARCHIVE_ITEM_PYPACKAGE => true
  | ARCHIVE_ITEM_PYZ, ARCHIVE_ITEM_PYZ => true
  | ARCHIVE_ITEM_RUNTIME_OPTION, ARCHIVE_ITEM_RUNTIME_OPTION => true
  | ARCHIVE_ITEM_OTHER x, ARCHIVE_ITEM_OTHER y => Ascii.eqb x y
  | _, _ => false
  end.

(** Modelled from the spec: the declaration of a TOC entry, of which the
    functions below read the type code, the name, the offset inside the
    archive and the length of the payload. *)
Record TOC_ENTRY := {
  entry_typecode : typecode;
  name : string;
  offset : Z;
  uncompressed_length : Z
}.

(** Modelled from the spec: the declaration of the archive handle. The
    loop
    [for (e = toc; e < toc_end; e = pyi_archive_next_toc_entry(archive, e))]
    visits the entries of [toc] in order; [pkg_offset] is the offset of
    the archive inside the executable; [toc_splash] is the splash entry,
    if any. *)
Record ARCHIVE := {
  toc : list TOC_ENTRY;
  pkg_offset : Z;
  contains_extractable_entries : bool;
  toc_splash : option TOC_ENTRY
}.

End Archive.

(** ** Configuration objects of the Python runtime *)

Module PyTypes.
Import CLib.

(** The fields of the PEP 587 [PyConfig] structure that the bootloader
    writes. Their offsets differ between the layouts [PyConfig_v38] ...
    [PyConfig_v313_GIL_DISABLED]; their names and meaning do not. *)
Record PyConfig := {
  program_name : option wstring;
  home : option wstring;
  module_search_paths_set : Z;
  module_search_paths : list wstring;
  argv : list wstring;
  site_import : Z;
  write_bytecode : Z;
  configure_c_stdio : Z;
  optimization_level : Z;
  buffered_stdio : Z;
  verbose : Z;
  use_hash_seed : Z;
  hash_seed : Z;
  dev_mode : Z;
  warnoptions : list wstring;
  xoptions : list wstring;
  install_signal_handlers : Z
}.

(** The structure after [calloc]. *)
Definition PyConfig_zero : PyConfig :=
  {| program_name := None; home := None; module_search_paths_set := 0;
     module_search_paths := []; argv := []; site_import := 0;
     write_bytecode := 0; configure_c_stdio := 0; optimization_level := 0;
     buffered_stdio := 0; verbose := 0; use_hash_seed := 0; hash_seed := 0;
     dev_mode := 0; warnoptions := []; xoptions := [];
     install_signal_handlers := 0 |}.

(** A PEP 741 [PyInitConfig] is opaque; its options are set by name. *)
Inductive pyvalue :=
| PyInt (value : Z)
| PyStr (value : string)
| PyStrList (items : list string).

End PyTypes.

(** ** The process context *)

Module Context.
Import CLib Archive PyTypes.

(** [struct DYLIB_PYTHON]: the version ([100 * major + minor]), the
    protocol that was bound, and the functions imported from the Python
    library. A function that only reports success is given by the
    condition under which it succeeds; one that yields a pointer by its
    value, [None] being NULL. *)
Record DYLIB_PYTHON := {
  version : Z;
  has_pep741 : bool;
  (* decoding of a byte string in the locale encoding *)
  Py_DecodeLocale : string -> option wstring;
  (* pre-initialization, by utf8_mode and dev_mode *)
  Py_PreInitialize_ok : Z -> Z -> bool;
  (* PEP 587: the value stored by PyConfig_SetBytesString, unless it fails *)
  PyConfig_SetBytesString_value : string -> option wstring;
  PyConfig_SetString_ok : wstring -> bool;
  PyConfig_SetWideStringList_ok : list wstring -> bool;
  Py_InitializeFromConfig_ok : PyConfig -> bool;
  (* the isolated defaults written by PyConfig_InitIsolatedConfig *)
  PyConfig_InitIsolatedConfig : PyConfig -> PyConfig;
  (* PEP 741: PyInitConfig_Create yields the isolated defaults, or NULL *)
  PyInitConfig_Create : option (gmap string pyvalue);
  PyInitConfig_SetInt_ok : string -> Z -> bool;
  PyInitConfig_SetStr_ok : string -> string -> bool;
  PyInitConfig_SetStrList_ok : string -> list string -> bool;
  Py_InitializeFromInitConfig_ok : gmap string pyvalue -> bool;
  (* objects *)
  PyUnicode_DecodeFSDefault : string -> option string;
  PyUnicode_Decode_utf8 : string -> option string;
  PyUnicode_FromFormat_ok : string -> bool;
  PySys_SetObject_ok : string -> string -> bool
}.

(** What the bootloader asks of the operating system, and of the parts
    of the repository whose source is not in the tree (the path helpers,
    the archive client, the Windows port), when it looks for its
    executable and its archive. A call that yields a pointer or a count
    is given by its value, [None] being NULL or the error result; one
    that only reports success by the condition under which it succeeds. *)
Record SYSTEM := {
  (* readlink on the /proc entry of the running executable: the target;
     the error result also stands for the builds without such an entry *)
  readlink_proc_exe : option string;
  realpath : string -> option string;
  (* macOS *)
  _NSGetExecutablePath : option string;
  (* Windows *)
  GetModuleFileNameW : option wstring;
  pyi_win32_is_symlink : wstring -> bool;
  pyi_win32_realpath : wstring -> option wstring;
  pyi_win32_wcs_to_utf8_path : wstring -> option string;
  (* the path helpers *)
  pyi_path_basename : string -> string;
  pyi_path_join : string -> string -> option string;
  pyi_path_exists : string -> bool;
  pyi_path_fopen_ok : string -> bool;
  (* the archive client: the archive in the file, unless it cannot be
     opened; the offset of a byte pattern in the file, 0 when absent *)
  pyi_archive_open : string -> option ARCHIVE;
  pyi_utils_find_magic_pattern : string -> list Z -> Z;
  MAGIC_BASE : list Z
}.

(** The fields of [struct PYI_CONTEXT] used below. The arguments are
    [argv_w] on Windows and [argv] elsewhere, [argc] being their number;
    [pyi_argv] is NULL unless the arguments were rewritten;
    [nogil_enabled] is an [unsigned char]; [dynamic_loader_filename] is
    empty unless the program was started through [ld.so]. *)
Record PYI_CONTEXT := {
  argv : list string;
  argv_w : list wstring;
  pyi_argv : option (list string);
  executable_filename : string;
  archive_filename : string;
  archive : ARCHIVE;
  has_splash : bool;
  suppress_splash : bool;
  is_onefile : bool;
  process_level : Z;
  parent_process_level : Z;
  application_home_dir : string;
  dylib_python : DYLIB_PYTHON;
  nogil_enabled : Z;
  dynamic_loader_filename : string
}.

Definition set_has_splash (b : bool) (c : PYI_CONTEXT) : PYI_CONTEXT :=
  {| argv := argv c; argv_w := argv_w c; pyi_argv := pyi_argv c;
     executable_filename := executable_filename c;
     archive_filename := archive_filename c; archive := archive c;
     has_splash := b; suppress_splash := suppress_splash c;
     is_onefile := is_onefile c; process_level := process_level c;
     parent_process_level := parent_process_level c;
     application_home_dir := application_home_dir c;
     dylib_python := dylib_python c; nogil_enabled := nogil_enabled c;
     dynamic_loader_filename := dynamic_loader_filename c |}.

Definition set_suppress_splash (b : bool) (c : PYI_CONTEXT) : PYI_CONTEXT :=
  {| argv := argv c; argv_w := argv_w c; pyi_argv := pyi_argv c;
     executable_filename := executable_filename c;
     archive_filename := archive_filename c; archive := archive c;
     has_splash := has_splash c; suppress_splash := b;
     is_onefile := is_onefile c; process_level := process_level c;
     parent_process_level := parent_process_level c;
     application_home_dir := application_home_dir c;
     dylib_python := dylib_python c; nogil_enabled := nogil_enabled c;
     dynamic_loader_filename := dynamic_loader_filename c |}.

Definition set_is_onefile (b : bool) (c : PYI_CONTEXT) : PYI_CONTEXT :=
  {| argv := argv c; argv_w := argv_w c; pyi_argv := pyi_argv c;
     executable_filename := executable_filename c;
     archive_filename := archive_filename c; archive := archive c;
     has_splash := has_splash c; suppress_splash := suppress_splash c;
     is_onefile := b; process_level := process_level c;
     parent_process_level := parent_process_level c;
     application_home_dir := application_home_dir c;
     dylib_python := dylib_python c; nogil_enabled := nogil_enabled c;
     dynamic_loader_filename := dynamic_loader_filename c |}.

Definition set_process_level (l : Z) (c : PYI_CONTEXT) : PYI_CONTEXT :=
  {| argv := argv c; argv_w := argv_w c; pyi_argv := pyi_argv c;
     executable_filename := executable_filename c;
     archive_filename := archive_filename c; archive := archive c;
     has_splash := has_splash c; suppress_splash := suppress_splash c;
     is_onefile := is_onefile c; process_level := l;
     parent_process_level := parent_process_level c;
     application_home_dir := application_home_dir c;
     dylib_python := dylib_python c; nogil_enabled := nogil_enabled c;
     dynamic_loader_filename := dynamic_loader_filename c |}.

Definition set_executable_filename (v : string) (c : PYI_CONTEXT) : PYI_CONTEXT :=
  {| argv := argv c; argv_w := argv_w c; pyi_argv := pyi_argv c;
     executable_filename := v;
     archive_filename := archive_filename c; archive := archive c;
     has_splash := has_splash c; suppress_splash := suppress_splash c;
     is_onefile := is_onefile c; process_level := process_level c;
     parent_process_level := parent_process_level c;
     application_home_dir := application_home_dir c;
     dylib_python := dylib_python c; nogil_enabled := nogil_enabled c;
     dynamic_loader_filename := dynamic_loader_filename c |}.

Definition set_dynamic_loader_filename (v : string) (c : PYI_CONTEXT)
  : PYI_CONTEXT :=
  {| argv := argv c; argv_w := argv_w c; pyi_argv := pyi_argv c;
     executable_filename := executable_filename c;
     archive_filename := archive_filename c; archive := archive c;
     has_splash := has_splash c; suppress_splash := suppress_splash c;
     is_onefile := is_onefile c; process_level := process_level c;
     parent_process_level := parent_process_level c;
     application_home_dir := application_home_dir c;
     dylib_python := dylib_python c; nogil_enabled := nogil_enabled c;
     dynamic_loader_filename := v |}.

Definition set_archive_filename (v : string) (c : PYI_CONTEXT) : PYI_CONTEXT :=
  {| argv := argv c; argv_w := argv_w c; pyi_argv := pyi_argv c;
     executable_filename := executable_filename c;
     archive_filename := v; archive := archive c;
     has_splash := has_splash c; suppress_splash := suppress_splash c;
     is_onefile := is_onefile c; process_level := process_level c;
     parent_process_level := parent_process_level c;
     application_home_dir := application_home_dir c;
     dylib_python := dylib_python c; nogil_enabled := nogil_enabled c;
     dynamic_loader_filename := dynamic_loader_filename c |}.

Definition set_archive (v : ARCHIVE) (c : PYI_CONTEXT) : PYI_CONTEXT :=
  {| argv := argv c; argv_w := argv_w c; pyi_argv := pyi_argv c;
     executable_filename := executable_filename c;
     archive_filename := archive_filename c; archive := v;
     has_splash := has_splash c; suppress_splash := suppress_splash c;
     is_onefile := is_onefile c; process_level := process_level c;
     parent_process_level := parent_process_level c;
     application_home_dir := application_home_dir c;
     dylib_python := dylib_python c; nogil_enabled := nogil_enabled c;
     dynamic_loader_filename := dynamic_loader_filename c |}.

Definition set_parent_process_level (l : Z) (c : PYI_CONTEXT) : PYI_CONTEXT :=
  {| argv := argv c; argv_w := argv_w c; pyi_argv := pyi_argv c;
     executable_filename := executable_filename c;
     archive_filename := archive_filename c; archive := archive c;
     has_splash := has_splash c; suppress_splash := suppress_splash c;
     is_onefile := is_onefile c; process_level := process_level c;
     parent_process_level := l;
     application_home_dir := application_home_dir c;
     dylib_python := dylib_python c; nogil_enabled := nogil_enabled c;
     dynamic_loader_filename := dynamic_loader_filename c |}.

End Context.

(** ** The orchestrator: [pyi_main] *)

Module Main.
Import CLib Step Target Archive Context.

(** Process levels ([enum PYI_PROCESS_LEVEL]); the context stores them in
    a [signed char]. *)
Definition PYI_PROCESS_LEVEL_UNKNOWN : Z := -2.
Definition PYI_PROCESS_LEVEL_PARENT_NEEDS_RESTART : Z := -1.
Definition PYI_PROCESS_LEVEL_PARENT : Z := 0.
Definition PYI_PROCESS_LEVEL_MAIN : Z := 1.
Definition PYI_PROCESS_LEVEL_SUBPROCESS : Z := 2.

(** What the process can observe and change: its environment block and
    the messages written through [PYI_ERROR]. *)
Record world := {
  env : gmap string string;
  errors : list string
}.

Definition with_env (e : gmap string string) (w : world) : world :=
  {| env := e; errors := errors w |}.

Definition PYI_ERROR (msg : string) : M world unit :=
  fun w => (Next tt, {| env := env w; errors := errors w ++ [msg] |}).

Local Open Scope step_scope.

Section PyiMain.

(** The build target and the width of [long] on it. *)
Variable target : platform.
Variable LONG_MAX : Z.

(** Whether the operating system accepts a given [setenv]. *)
Variable pyi_setenv_ok : string -> string -> bool.

(** [PATH_MAX] of [limits.h], the largest [int], and the operating
    system with the file system as it is when the process starts. *)
Variable PATH_MAX : Z.
Variable INT_MAX : Z.
Variable os : SYSTEM.

(** Modelled from the spec: the environment helpers [pyi_getenv],
    [pyi_setenv] and [pyi_unsetenv] of the platform port, whose source
    file is not part of the tree. The environment is a finite map from
    names to values; [pyi_getenv] yields the value or NULL, [pyi_setenv]
    yields a negative number and changes nothing when the system refuses. *)
Definition pyi_getenv (name : string) : M world (option string) :=
  fun w => (Next (env w !! name), w).

Definition pyi_setenv (name value : string) : M world Z :=
  fun w =>
    if pyi_setenv_ok name value
    then (Next 0, with_env (<[name := value]> (env w)) w)
    else (Next (-1), w).

Definition pyi_unsetenv (name : string) : M world unit :=
  fun w => (Next tt, with_env (delete name (env w)) w).

(** *** Finding the executable *)

(** [_pyi_resolve_executable_win32]. The functions that resolve the
    executable return their result together with the context as they
    leave it. *)
Definition _pyi_resolve_executable_win32 (pyi_ctx : PYI_CONTEXT)
  : M world (Z * PYI_CONTEXT) :=
  match GetModuleFileNameW os with
  | None =>
      PYI_ERROR "Failed to obtain executable path.";;
      ret (-1, pyi_ctx)
  | Some modulename_w =>
      if pyi_win32_is_symlink os modulename_w then
        match pyi_win32_realpath os modulename_w with
        | None =>
            PYI_ERROR "Failed to resolve full path to executable %ls.";;
            ret (-1, pyi_ctx)
        | Some executable_filename_w =>
            (* the extended path indicator, backslash backslash ? backslash *)
            let offset :=
              if bool_decide (take 4 executable_filename_w = [92; 92; 63; 92])
              then 4%nat else 0%nat in
            match pyi_win32_wcs_to_utf8_path os
                    (drop offset executable_filename_w) with
            | None =>
                PYI_ERROR "Failed to convert executable path to UTF-8.";;
                ret (-1, pyi_ctx)
            | Some filename => ret (0, set_executable_filename filename pyi_ctx)
            end
        end
      else
        match pyi_win32_wcs_to_utf8_path os modulename_w with
        | None =>
            PYI_ERROR "Failed to convert executable path to UTF-8.";;
            ret (-1, pyi_ctx)
        | Some filename => ret (0, set_executable_filename filename pyi_ctx)
        end
  end.

(** [_pyi_resolve_executable_macos] *)
Definition _pyi_resolve_executable_macos (pyi_ctx : PYI_CONTEXT)
  : M world (Z * PYI_CONTEXT) :=
  match _NSGetExecutablePath os with
  | None =>
      PYI_ERROR "Failed to obtain executable path via _NSGetExecutablePath!";;
      ret (-1, pyi_ctx)
  | Some program_path =>
      match realpath os program_path with
      | None => ret (-1, pyi_ctx)
      | Some filename => ret (0, set_executable_filename filename pyi_ctx)
      end
  end.

(** [_pyi_is_ld_linux_so]; [None] where [sscanf] is undefined. *)
Definition _pyi_is_ld_linux_so (filename : string) : option bool :=
  sscanf_ld_so INT_MAX (pyi_path_basename os filename).

(** The loop of [_pyi_find_progam_in_search_path] over the directories
    of [PATH]: the first in which the joined path exists. *)
Fixpoint search_program (search_paths : list string) (name : string)
  : option string :=
  match search_paths with
  | [] => None
  | search_path :: others =>
      match pyi_path_join os search_path name with
      | Some result_path =>
          if pyi_path_exists os result_path then Some result_path
          else search_program others name
      | None => search_program others name
      end
  end.

(** [_pyi_find_progam_in_search_path]: the path found, or [None] for
    [false]. *)
Definition _pyi_find_progam_in_search_path (name : string)
  : M world (option string) :=
  search_paths <- pyi_getenv "PATH";;
  match search_paths with
  | None => ret None
  | Some search_paths =>
      ret (search_program
             (strtok_tokens (PYI_PATHSEPSTR target) search_paths EmptyString) name)
  end.

(** [realpath(path, executable_filename)] and the result of the
    function that ends with it. *)
Definition resolve_realpath (path : string) (pyi_ctx : PYI_CONTEXT)
  : M world (Z * PYI_CONTEXT) :=
  match realpath os path with
  | None => ret (-1, pyi_ctx)
  | Some filename => ret (0, set_executable_filename filename pyi_ctx)
  end.

(** [_pyi_resolve_executable_posix], called with [argv[0]], which is
    NULL when the process was started without arguments. [readlink]
    places at most [PYI_PATH_MAX - 1] bytes; on Linux a name that is the
    dynamic loader is kept as [dynamic_loader_filename] and the
    executable is looked for through [argv[0]]. *)
Definition _pyi_resolve_executable_posix (pyi_ctx : PYI_CONTEXT)
  : M world (Z * PYI_CONTEXT) :=
  let size := PYI_PATH_MAX PATH_MAX target in
  let name_len := readlink_proc_exe os in
  let pyi_ctx :=
    match name_len with
    | Some link =>
        set_executable_filename (str_take (Z.to_nat (size - 1)) link) pyi_ctx
    | None => pyi_ctx
    end in
  match (if is_linux target
         then _pyi_is_ld_linux_so (executable_filename pyi_ctx)
         else Some false) with
  | None => undefined
  | Some is_loader =>
      let pyi_ctx :=
        if is_loader : bool
        then set_dynamic_loader_filename
               (str_take (Z.to_nat size) (executable_filename pyi_ctx)) pyi_ctx
        else pyi_ctx in
      if negb (is_null name_len) && negb is_loader then ret (0, pyi_ctx)
      else
        match Context.argv pyi_ctx with
        | [] => undefined
        | argv0 :: _ =>
            if strchr_found argv0 (PYI_SEP target) then
              resolve_realpath argv0 pyi_ctx
            else
              found <- _pyi_find_progam_in_search_path argv0;;
              match found with
              | Some program_path => resolve_realpath program_path pyi_ctx
              | None => resolve_realpath argv0 pyi_ctx
              end
        end
  end.

(** [_pyi_main_resolve_executable] *)
Definition _pyi_main_resolve_executable (pyi_ctx : PYI_CONTEXT)
  : M world (Z * PYI_CONTEXT) :=
  match target with
  | Win32 => _pyi_resolve_executable_win32 pyi_ctx
  | Darwin => _pyi_resolve_executable_macos pyi_ctx
  | _ => _pyi_resolve_executable_posix pyi_ctx
  end.

(** *** Finding the archive *)

(** [_pyi_allow_pkg_sideload]: the signature looked for is [MAGIC_BASE]
    with its fourth byte raised by 13. *)
Definition _pyi_allow_pkg_sideload (executable : string) : Z :=
  if negb (pyi_path_fopen_ok os executable) then -1
  else
    let magic :=
      alter (fun byte => (byte + 13) mod 256) 3%nat (take 8 (MAGIC_BASE os)) in
    if pyi_utils_find_magic_pattern os executable magic =? 0 then 1 else 0.

(** [_pyi_main_resolve_pkg_archive]. Where the embedded archive cannot
    be opened the pointer [archive] of the context is NULL until the
    side-loaded one is; the caller does not look at it after a negative
    result. On Windows the last three characters of the file name give
    way to [pkg]; a name shorter than that puts the copy before the
    buffer. *)
Definition _pyi_main_resolve_pkg_archive (pyi_ctx : PYI_CONTEXT)
  : M world (Z * PYI_CONTEXT) :=
  let size := PYI_PATH_MAX PATH_MAX target in
  let executable := executable_filename pyi_ctx in
  match pyi_archive_open os executable with
  | Some embedded =>
      ret (0, set_archive_filename (snprintf_s size executable)
                (set_archive embedded pyi_ctx))
  | None =>
      let status := _pyi_allow_pkg_sideload executable in
      if negb (status =? 0) then
        PYI_ERROR ("Could not load PyInstaller's embedded PKG archive from the executable ("
                   +:+ executable +:+ ")");;
        ret (-1, pyi_ctx)
      else
        let side_load (filename : string) : M world (Z * PYI_CONTEXT) :=
          let pyi_ctx := set_archive_filename filename pyi_ctx in
          match pyi_archive_open os filename with
          | None =>
              PYI_ERROR ("Could not side-load PyInstaller's PKG archive from external file ("
                         +:+ filename +:+ ")");;
              ret (-1, pyi_ctx)
          | Some external => ret (0, set_archive external pyi_ctx)
          end in
        if is_win32 target then
          let copied := snprintf_s size executable in
          if (String.length copied <? 3)%nat then undefined
          else side_load (str_take (String.length copied - 3) copied +:+ "pkg")
        else if too_long size (executable +:+ ".pkg") then
          ret (-1, set_archive_filename (snprintf_s size (executable +:+ ".pkg"))
                     pyi_ctx)
        else side_load (executable +:+ ".pkg")
  end.

(** [pyi_main], lines 414-424: both have to succeed. *)
Definition pyi_main_resolve (pyi_ctx : PYI_CONTEXT) : M world PYI_CONTEXT :=
  resolved <- _pyi_main_resolve_executable pyi_ctx;;
  if resolved.1 <? 0 then c_return (-1)
  else
    resolved <- _pyi_main_resolve_pkg_archive resolved.2;;
    if resolved.1 <? 0 then c_return (-1)
    else ret resolved.2.

(** *** The level of the process *)

(** [pyi_main], lines 429-444: onefile/onedir semantics and splash
    screen availability. *)
Definition pyi_main_archive_flags (ctx : PYI_CONTEXT) : M world PYI_CONTEXT :=
  let ctx := set_is_onefile (contains_extractable_entries (archive ctx)) ctx in
  let ctx :=
    set_has_splash
      (match toc_splash (archive ctx) with Some _ => true | None => false end) ctx in
  if has_splash ctx then
    env_var_value <- pyi_getenv "PYINSTALLER_SUPPRESS_SPLASH_SCREEN";;
    match env_var_value with
    | Some v => ret (set_suppress_splash (strcmp_eq v "1") ctx)
    | None => ret ctx
    end
  else ret ctx.

(** [pyi_main], lines 446-511: decide whether the inherited bootloader
    environment is kept, and wipe it otherwise. *)
Definition pyi_main_reset_environment (ctx : PYI_CONTEXT) : M world unit :=
  env_var_value <- pyi_getenv "PYINSTALLER_RESET_ENVIRONMENT";;
  reset_environment <-
    match env_var_value with
    | Some v => pyi_unsetenv "PYINSTALLER_RESET_ENVIRONMENT";; ret (strcmp_eq v "1")
    | None => ret false
    end;;
  reset_environment <-
    (if reset_environment : bool then ret true
     else
       env_var_value <- pyi_getenv "_PYI_ARCHIVE_FILE";;
       match env_var_value with
       | Some v => ret (negb (strcmp_eq (archive_filename ctx) v))
       | None => ret true
       end);;
  if reset_environment : bool then
    pyi_setenv "_PYI_ARCHIVE_FILE" (archive_filename ctx);;
    pyi_unsetenv "_PYI_APPLICATION_HOME_DIR";;
    pyi_unsetenv "_PYI_PARENT_PROCESS_LEVEL";;
    pyi_unsetenv "_PYI_SPLASH_IPC";;
    (if is_linux target then pyi_unsetenv "_PYI_LINUX_PROCESS_NAME" else ret tt)
  else ret tt.

(** [pyi_main], lines 513-532: the level of the parent process, from
    [_PYI_PARENT_PROCESS_LEVEL]. *)
Definition pyi_main_parent_process_level (ctx : PYI_CONTEXT) : M world PYI_CONTEXT :=
  env_var_value <- pyi_getenv "_PYI_PARENT_PROCESS_LEVEL";;
  match env_var_value with
  | None | Some EmptyString =>
      ret (set_parent_process_level PYI_PROCESS_LEVEL_UNKNOWN ctx)
  | Some v =>
      let '(value, endptr) := strtol LONG_MAX v in
      let ctx := set_parent_process_level (to_schar value) ctx in
      match endptr with
      | EmptyString => ret ctx
      | String _ _ =>
          PYI_ERROR ("Invalid value in _PYI_PARENT_PROCESS_LEVEL: " +:+ v);;
          c_return (-1)
      end
  end.

(** [pyi_main], lines 534-612: the [switch] over the parent level. *)
Definition pyi_main_process_level (ctx : PYI_CONTEXT) : M world PYI_CONTEXT :=
  let parent := parent_process_level ctx in
  if parent =? PYI_PROCESS_LEVEL_UNKNOWN then
    if is_onefile ctx then
      if win_mac_cygwin target then
        ret (set_process_level PYI_PROCESS_LEVEL_PARENT ctx)
      else if has_splash ctx && negb (suppress_splash ctx) then
        ret (set_process_level PYI_PROCESS_LEVEL_PARENT_NEEDS_RESTART ctx)
      else
        ret (set_process_level PYI_PROCESS_LEVEL_PARENT ctx)
    else
      if win_mac_cygwin target then
        ret (set_process_level PYI_PROCESS_LEVEL_MAIN ctx)
      else
        ret (set_process_level PYI_PROCESS_LEVEL_PARENT_NEEDS_RESTART ctx)
  else if negb (win_mac_cygwin target)
          && (parent =? PYI_PROCESS_LEVEL_PARENT_NEEDS_RESTART) then
    if is_onefile ctx then
      ret (set_process_level PYI_PROCESS_LEVEL_PARENT ctx)
    else
      ret (set_process_level PYI_PROCESS_LEVEL_MAIN ctx)
  else if parent =? PYI_PROCESS_LEVEL_PARENT then
    ret (set_process_level PYI_PROCESS_LEVEL_MAIN ctx)
  else if parent =? PYI_PROCESS_LEVEL_MAIN then
    ret (set_process_level PYI_PROCESS_LEVEL_SUBPROCESS ctx)
  else
    PYI_ERROR ("Invalid parent process level: " +:+ fmt_d parent);;
    c_return (-1).

(** [pyi_main], lines 616-627: hand the level on to child processes. *)
Definition pyi_main_publish_process_level (ctx : PYI_CONTEXT) : M world unit :=
  if process_level ctx <? PYI_PROCESS_LEVEL_SUBPROCESS then
    let process_level_str := fmt_d (process_level ctx) in
    rc <- pyi_setenv "_PYI_PARENT_PROCESS_LEVEL" process_level_str;;
    if rc <? 0 then
      PYI_ERROR "Failed to set _PYI_PARENT_PROCESS_LEVEL environment variable!";;
      c_return (-1)
    else ret tt
  else ret tt.

(** [pyi_main], lines 429-612: from the archive to the level of the
    process. *)
Definition pyi_main_assign_role (pyi_ctx : PYI_CONTEXT) : M world PYI_CONTEXT :=
  ctx <- pyi_main_archive_flags pyi_ctx;;
  pyi_main_reset_environment ctx;;
  ctx <- pyi_main_parent_process_level ctx;;
  pyi_main_process_level ctx.

(** [pyi_main]. Everything from line 629 on - reading the bootloader
    options, the application directory, the library search path, the
    restart through [execvp], the splash screen and the two code paths
    that spawn the child or start the interpreter - is the continuation
    [rest]. *)
Definition pyi_main (pyi_ctx : PYI_CONTEXT) (rest : PYI_CONTEXT -> M world Z) : M world Z :=
  ctx <- pyi_main_resolve pyi_ctx;;
  ctx <- pyi_main_assign_role ctx;;
  pyi_main_publish_process_level ctx;;
  rest ctx.

End PyiMain.

End Main.

(** ** Run-time options of the archive: [pyi_runtime_options_read] *)

Module RuntimeOptions.
Import CLib Archive Context.

(** [struct PyiRuntimeOptions]. A pointer to an array of strings is NULL
    ([None]) or an array whose slots are NULL or a string. *)
Record PyiRuntimeOptions := {
  verbose : Z;
  unbuffered : Z;
  optimize : Z;
  use_hash_seed : Z;
  hash_seed : Z;
  utf8_mode : Z;
  dev_mode : Z;
  num_wflags : nat;
  wflags : option (list (option string));
  wflags_w : option (list (option wstring));
  num_xflags : nat;
  xflags : option (list (option string));
  xflags_w : option (list (option wstring))
}.

(** The structure right after [calloc(1, sizeof(struct PyiRuntimeOptions))]. *)
Definition options_zero : PyiRuntimeOptions :=
  {| verbose := 0; unbuffered := 0; optimize := 0; use_hash_seed := 0;
     hash_seed := 0; utf8_mode := 0; dev_mode := 0;
     num_wflags := 0; wflags := None; wflags_w := None;
     num_xflags := 0; xflags := None; xflags_w := None |}.

(** The scalar fields, which the first pass over the TOC fills. *)
Definition with_scalars (v u o uhs hs utf8 dev : Z) (r : PyiRuntimeOptions)
  : PyiRuntimeOptions :=
  {| verbose := v; unbuffered := u; optimize := o; use_hash_seed := uhs;
     hash_seed := hs; utf8_mode := utf8; dev_mode := dev;
     num_wflags := num_wflags r; wflags := wflags r; wflags_w := wflags_w r;
     num_xflags := num_xflags r; xflags := xflags r; xflags_w := xflags_w r |}.

Definition set_verbose (v : Z) (r : PyiRuntimeOptions) :=
  with_scalars v (unbuffered r) (optimize r) (use_hash_seed r) (hash_seed r)
    (utf8_mode r) (dev_mode r) r.
Definition set_unbuffered (v : Z) (r : PyiRuntimeOptions) :=
  with_scalars (verbose r) v (optimize r) (use_hash_seed r) (hash_seed r)
    (utf8_mode r) (dev_mode r) r.
Definition set_optimize (v : Z) (r : PyiRuntimeOptions) :=
  with_scalars (verbose r) (unbuffered r) v (use_hash_seed r) (hash_seed r)
    (utf8_mode r) (dev_mode r) r.
Definition set_hash_seed (v : Z) (r : PyiRuntimeOptions) :=
  with_scalars (verbose r) (unbuffered r) (optimize r) 1 v
    (utf8_mode r) (dev_mode r) r.
Definition set_utf8_mode (v : Z) (r : PyiRuntimeOptions) :=
  with_scalars (verbose r) (unbuffered r) (optimize r) (use_hash_seed r)
    (hash_seed r) v (dev_mode r) r.
Definition set_dev_mode (v : Z) (r : PyiRuntimeOptions) :=
  with_scalars (verbose r) (unbuffered r) (optimize r) (use_hash_seed r)
    (hash_seed r) (utf8_mode r) v r.

(** The flag arrays and their counters, which the second pass fills. *)
Definition with_flags
    (nw : nat) (w : option (list (option string)))
    (ww : option (list (option wstring)))
    (nx : nat) (x : option (list (option string)))
    (xw : option (list (option wstring)))
    (r : PyiRuntimeOptions) : PyiRuntimeOptions :=
  {| verbose := verbose r; unbuffered := unbuffered r; optimize := optimize r;
     use_hash_seed := use_hash_seed r; hash_seed := hash_seed r;
     utf8_mode := utf8_mode r; dev_mode := dev_mode r;
     num_wflags := nw; wflags := w; wflags_w := ww;
     num_xflags := nx; xflags := x; xflags_w := xw |}.

(** [_pyi_match_key_value_flag]: the value of [name], [name=value] or
    [name value]; NULL when [name] is not the name of the flag. *)
Definition _pyi_match_key_value_flag (flag name : string) : option string :=
  let name_len := String.length name in
  if negb (strncmp_eq flag name name_len) then None
  else
    match str_from name_len flag with
    | EmptyString => Some EmptyString
    | String c value =>
        if Ascii.eqb c "=" || Ascii.eqb c " " then Some value else None
    end.

(** [_pyi_match_and_parse_xflag], as a function from the old to the new
    value of [*dest_var]. *)
Definition _pyi_match_and_parse_xflag (flag name : string) (dest_var : Z) : Z :=
  match _pyi_match_key_value_flag flag name with
  | None => dest_var
  | Some EmptyString => 1
  | Some value_str => if strcmp_eq value_str "0" then 0 else 1
  end.

Section Read.

(** The largest [unsigned long]. *)
Variable ULONG_MAX : Z.

(** Whether [calloc(0, size)] yields NULL on the platform (AIX). *)
Variable calloc_zero_is_null : bool.

(** [mbstowcs] in the current locale: the wide characters of the
    string, or [None] where the string holds an invalid multibyte
    sequence and the result is [(size_t)-1]. *)
Variable mbstowcs : string -> option wstring.

(** [PYI_PATH_MAX]: [flag_w] has one element more. *)
Variable PYI_PATH_MAX : Z.

(** What [wcsdup] finds in a [flag_w] that the conversion left without
    terminator. The copy then runs over elements that were never
    written, and on past the array if none of them is zero: the
    behaviour is undefined, and this is what an execution happens to
    copy (the characters converted so far, followed by what the stack
    held). *)
Variable flag_w_unterminated : string -> wstring.

(** The heap is the number of allocations that still succeed; every
    allocation after that yields NULL. *)
Definition heap := nat.

Definition calloc {A : Type} (num : nat) (h : heap)
  : option (list (option A)) * heap :=
  match h with
  | O => (None, O)
  | S h' =>
      if (num =? 0)%nat && calloc_zero_is_null then (None, h')
      else (Some (replicate num None), h')
  end.

Definition strdup (s : string) (h : heap) : option string * heap :=
  match h with
  | O => (None, O)
  | S h' => (Some s, h')
  end.

Definition wcsdup (s : wstring) (h : heap) : option wstring * heap :=
  match h with
  | O => (None, O)
  | S h' => (Some s, h')
  end.

(** Whether [mbstowcs(flag_w, flag, PYI_PATH_MAX)] leaves [flag_w]
    terminated: the sequence is valid and shorter than [PYI_PATH_MAX]
    wide characters, so that there is room for the terminator. *)
Definition converts (flag : string) : bool :=
  match mbstowcs flag with
  | Some converted => Z.of_nat (length converted) <? PYI_PATH_MAX
  | None => false
  end.

(** The wide string in [flag_w] after the conversion. The result of
    [mbstowcs] is a [size_t], so the test [mbstowcs(...) < 0] of
    [_pyi_copy_xwflag] never holds, and an array left without terminator
    is copied like any other. *)
Definition flag_w (flag : string) : wstring :=
  match mbstowcs flag with
  | Some converted =>
      if Z.of_nat (length converted) <? PYI_PATH_MAX then converted
      else flag_w_unterminated flag
  | None => flag_w_unterminated flag
  end.

(** [_pyi_copy_xwflag]: the copy stored into [*pdest_buf], NULL (and the
    result -1) when it cannot be allocated. *)
Definition _pyi_copy_xwflag (flag : string) (h : heap) : option wstring * heap :=
  wcsdup (flag_w flag) h.

(** [array[index] = value]. A store through a NULL pointer or past the
    allocated slots does not change the array; it is reported, so that
    its occurrence can be stated. *)
Definition store {A : Type} (array : option (list (option A))) (index : nat)
    (value : option A) : option (list (option A)) * bool :=
  match array with
  | Some slots =>
      if (index <? length slots)%nat then (Some (<[index := value]> slots), false)
      else (array, true)
  | None => (None, true)
  end.

(** The state of the collecting loop: the structure, the heap and the
    stores that went out of bounds (array name and index). *)
Record collecting := {
  options : PyiRuntimeOptions;
  memory : heap;
  stray_stores : list (string * nat)
}.

Definition note_stray (out_of_bounds : bool) (array : string) (index : nat)
    (log : list (string * nat)) : list (string * nat) :=
  if out_of_bounds then log ++ [(array, index)] else log.

(** First loop of [pyi_runtime_options_read] (lines 444-493): one entry.
    The state is the structure and the local counters [num_wflags] and
    [num_xflags]. *)
Definition scan_entry (e : TOC_ENTRY) (st : PyiRuntimeOptions * nat * nat)
  : PyiRuntimeOptions * nat * nat :=
  let '(opts, count_w, count_x) := st in
  if negb (typecode_eqb (entry_typecode e) ARCHIVE_ITEM_RUNTIME_OPTION) then st
  else if strncmp_eq (name e) "pyi-" 4 then st
  else if strcmp_eq (name e) "v" || strcmp_eq (name e) "verbose" then
    (set_verbose (verbose opts + 1) opts, count_w, count_x)
  else if strcmp_eq (name e) "u" || strcmp_eq (name e) "unbuffered" then
    (set_unbuffered 1 opts, count_w, count_x)
  else if strcmp_eq (name e) "O" || strcmp_eq (name e) "optimize" then
    (set_optimize (optimize opts + 1) opts, count_w, count_x)
  else if strncmp_eq (name e) "W " 2 then (opts, S count_w, count_x)
  else if strncmp_eq (name e) "X " 2 then (opts, count_w, S count_x)
  else
    match _pyi_match_key_value_flag (name e) "hash_seed" with
    | Some (String c v) =>
        (set_hash_seed (strtoul10 ULONG_MAX (String c v)) opts, count_w, count_x)
    | _ => st
    end.

Definition scan (entries : list TOC_ENTRY) (opts : PyiRuntimeOptions)
  : PyiRuntimeOptions * nat * nat :=
  fold_left (fun st e => scan_entry e st) entries (opts, O, O).

(** The loop is left through [goto end] with [failed = 1] as soon as a
    copy cannot be allocated. *)
Inductive collected :=
| Going (st : collecting)
| Failed (log : list (string * nat)).

Definition set_num_wflags (n : nat) (r : PyiRuntimeOptions) :=
  with_flags n (wflags r) (wflags_w r) (num_xflags r) (xflags r) (xflags_w r) r.
Definition set_wflags (a : option (list (option string))) (r : PyiRuntimeOptions) :=
  with_flags (num_wflags r) a (wflags_w r) (num_xflags r) (xflags r) (xflags_w r) r.
Definition set_wflags_w (a : option (list (option wstring))) (r : PyiRuntimeOptions) :=
  with_flags (num_wflags r) (wflags r) a (num_xflags r) (xflags r) (xflags_w r) r.
Definition set_num_xflags (n : nat) (r : PyiRuntimeOptions) :=
  with_flags (num_wflags r) (wflags r) (wflags_w r) n (xflags r) (xflags_w r) r.
Definition set_xflags (a : option (list (option string))) (r : PyiRuntimeOptions) :=
  with_flags (num_wflags r) (wflags r) (wflags_w r) (num_xflags r) a (xflags_w r) r.
Definition set_xflags_w (a : option (list (option wstring))) (r : PyiRuntimeOptions) :=
  with_flags (num_wflags r) (wflags r) (wflags_w r) (num_xflags r) (xflags r) a r.

(** Second loop (lines 526-575): one entry. *)
Definition collect_entry (use_pep741 : bool) (e : TOC_ENTRY) (st : collecting)
  : collected :=
  let opts := options st in
  if negb (typecode_eqb (entry_typecode e) ARCHIVE_ITEM_RUNTIME_OPTION) then Going st
  else if strncmp_eq (name e) "W " 2 then
    let flag := str_from 2 (name e) in
    if use_pep741 then
      match strdup flag (memory st) with
      | (None, _) => Failed (stray_stores st)
      | (Some flag_dup, h) =>
          (* options->wflags[options->num_wflags] = flag_dup; *)
          let '(arr, oob) := store (wflags opts) (num_wflags opts) (Some flag_dup) in
          let log := note_stray oob "wflags" (num_wflags opts) (stray_stores st) in
          let opts := set_wflags arr opts in
          let opts := set_num_wflags (S (num_wflags opts)) opts in
          Going {| options := opts; memory := h; stray_stores := log |}
      end
    else
      (* _pyi_copy_xwflag(flag, &options->wflags_w[options->num_wflags]) *)
      let '(flag_dup, h) := _pyi_copy_xwflag flag (memory st) in
      let '(arr, oob) := store (wflags_w opts) (num_wflags opts) flag_dup in
      let log := note_stray oob "wflags_w" (num_wflags opts) (stray_stores st) in
      if is_null flag_dup then Failed log
      else
        let opts := set_wflags_w arr opts in
        let opts := set_num_wflags (S (num_wflags opts)) opts in
        Going {| options := opts; memory := h; stray_stores := log |}
  else if strncmp_eq (name e) "X " 2 then
    let flag := str_from 2 (name e) in
    let stored :=
      if use_pep741 then
        match strdup flag (memory st) with
        | (None, _) => Failed (stray_stores st)
        | (Some flag_dup, h) =>
            (* options->xflags[options->num_wflags] = flag_dup; *)
            let '(arr, oob) := store (xflags opts) (num_wflags opts) (Some flag_dup) in
            let log := note_stray oob "xflags" (num_wflags opts) (stray_stores st) in
            Going {| options := set_xflags arr opts; memory := h; stray_stores := log |}
        end
      else
        (* _pyi_copy_xwflag(flag, &options->xflags_w[options->num_xflags]) *)
        let '(flag_dup, h) := _pyi_copy_xwflag flag (memory st) in
        let '(arr, oob) := store (xflags_w opts) (num_xflags opts) flag_dup in
        let log := note_stray oob "xflags_w" (num_xflags opts) (stray_stores st) in
        if is_null flag_dup then Failed log
        else Going {| options := set_xflags_w arr opts; memory := h; stray_stores := log |} in
    match stored with
    | Failed log => Failed log
    | Going st =>
        let opts := options st in
        let opts := set_num_xflags (S (num_xflags opts)) opts in
        let opts :=
          set_utf8_mode (_pyi_match_and_parse_xflag flag "utf8" (utf8_mode opts)) opts in
        let opts :=
          set_dev_mode (_pyi_match_and_parse_xflag flag "dev" (dev_mode opts)) opts in
        Going {| options := opts; memory := memory st; stray_stores := stray_stores st |}
    end
  else Going st.

Fixpoint collect (use_pep741 : bool) (entries : list TOC_ENTRY) (st : collecting)
  : collected :=
  match entries with
  | [] => Going st
  | e :: entries' =>
      match collect_entry use_pep741 e st with
      | Failed log => Failed log
      | Going st' => collect use_pep741 entries' st'
      end
  end.

(** The allocation of the two arrays (lines 509-523); [None] is
    [failed = 1]. *)
Definition allocate_flags (use_pep741 : bool) (count_w count_x : nat)
    (opts : PyiRuntimeOptions) (h : heap) : option (PyiRuntimeOptions * heap) :=
  if use_pep741 then
    let '(w, h) := calloc (A := string) count_w h in
    let '(x, h) := calloc (A := string) count_x h in
    let opts := set_xflags x (set_wflags w opts) in
    if (negb (count_w =? 0)%nat && is_null w) || (negb (count_x =? 0)%nat && is_null x)
    then None else Some (opts, h)
  else
    let '(w, h) := calloc (A := wstring) count_w h in
    let '(x, h) := calloc (A := wstring) count_x h in
    let opts := set_xflags_w x (set_wflags_w w opts) in
    if (negb (count_w =? 0)%nat && is_null w) || (negb (count_x =? 0)%nat && is_null x)
    then None else Some (opts, h).

(** [pyi_runtime_options_read]. The result is the returned pointer (NULL
    after a failed allocation) together with the out-of-bounds stores of
    the run. *)
Definition pyi_runtime_options_read (pyi_ctx : PYI_CONTEXT) (h : heap)
  : option PyiRuntimeOptions * list (string * nat) :=
  let entries := toc (archive pyi_ctx) in
  let use_pep741 := has_pep741 (dylib_python pyi_ctx) in
  match h with
  | O => (None, [])
  | S h =>
      let opts := set_utf8_mode (-1) options_zero in
      let '(opts, count_w, count_x) := scan entries opts in
      match allocate_flags use_pep741 count_w count_x opts h with
      | None => (None, [])
      | Some (opts, h) =>
          match collect use_pep741 entries
                  {| options := opts; memory := h; stray_stores := [] |} with
          | Failed log => (None, log)
          | Going st => (Some (options st), stray_stores st)
          end
      end
  end.

End Read.

End RuntimeOptions.

(** ** The PEP 587 configurator *)

Module Pep587.
Import CLib Step Target Archive Context.
Import PyTypes.

Local Open Scope step_scope.

(** The layouts of the configuration structure. *)
Inductive PYCONFIG_IMPL :=
| PyConfig_v38
| PyConfig_v39
| PyConfig_v310
| PyConfig_v311
| PyConfig_v312
| PyConfig_v313
| PyConfig_v313_GIL_DISABLED.

(** [#define _MAKE_VERSION_ID(version, flags) (version << 1 | flags)] *)
Definition _MAKE_VERSION_ID (version flags : Z) : Z :=
  Z.lor (Z.shiftl version 1) flags.

(** The [switch (version_id)] that every function of this file repeats:
    the layout of the case taken, [None] for [default]. *)
Definition select_layout (version_id : Z) : option PYCONFIG_IMPL :=
  if version_id =? _MAKE_VERSION_ID 308 0 then Some PyConfig_v38
  else if version_id =? _MAKE_VERSION_ID 309 0 then Some PyConfig_v39
  else if version_id =? _MAKE_VERSION_ID 310 0 then Some PyConfig_v310
  else if version_id =? _MAKE_VERSION_ID 311 0 then Some PyConfig_v311
  else if version_id =? _MAKE_VERSION_ID 312 0 then Some PyConfig_v312
  else if version_id =? _MAKE_VERSION_ID 313 0 then Some PyConfig_v313
  else if version_id =? _MAKE_VERSION_ID 313 1 then Some PyConfig_v313_GIL_DISABLED
  else None.

Definition version_id_of (pyi_ctx : PYI_CONTEXT) : Z :=
  _MAKE_VERSION_ID (version (dylib_python pyi_ctx)) (nogil_enabled pyi_ctx).

Definition set_program_name (v : option wstring) (c : PyConfig) : PyConfig :=
  {| program_name := v; home := home c;
     module_search_paths_set := module_search_paths_set c;
     module_search_paths := module_search_paths c; argv := PyTypes.argv c;
     site_import := site_import c; write_bytecode := write_bytecode c;
     configure_c_stdio := configure_c_stdio c;
     optimization_level := optimization_level c;
     buffered_stdio := buffered_stdio c; verbose := verbose c;
     use_hash_seed := use_hash_seed c; hash_seed := hash_seed c;
     dev_mode := dev_mode c; warnoptions := warnoptions c;
     xoptions := xoptions c;
     install_signal_handlers := install_signal_handlers c |}.

Definition set_home (v : option wstring) (c : PyConfig) : PyConfig :=
  {| program_name := program_name c; home := v;
     module_search_paths_set := module_search_paths_set c;
     module_search_paths := module_search_paths c; argv := PyTypes.argv c;
     site_import := site_import c; write_bytecode := write_bytecode c;
     configure_c_stdio := configure_c_stdio c;
     optimization_level := optimization_level c;
     buffered_stdio := buffered_stdio c; verbose := verbose c;
     use_hash_seed := use_hash_seed c; hash_seed := hash_seed c;
     dev_mode := dev_mode c; warnoptions := warnoptions c;
     xoptions := xoptions c;
     install_signal_handlers := install_signal_handlers c |}.

Definition set_module_search_paths (flag : Z) (v : list wstring) (c : PyConfig)
  : PyConfig :=
  {| program_name := program_name c; home := home c;
     module_search_paths_set := flag;
     module_search_paths := v; argv := PyTypes.argv c;
     site_import := site_import c; write_bytecode := write_bytecode c;
     configure_c_stdio := configure_c_stdio c;
     optimization_level := optimization_level c;
     buffered_stdio := buffered_stdio c; verbose := verbose c;
     use_hash_seed := use_hash_seed c; hash_seed := hash_seed c;
     dev_mode := dev_mode c; warnoptions := warnoptions c;
     xoptions := xoptions c;
     install_signal_handlers := install_signal_handlers c |}.

Definition set_argv (v : list wstring) (c : PyConfig) : PyConfig :=
  {| program_name := program_name c; home := home c;
     module_search_paths_set := module_search_paths_set c;
     module_search_paths := module_search_paths c; argv := v;
     site_import := site_import c; write_bytecode := write_bytecode c;
     configure_c_stdio := configure_c_stdio c;
     optimization_level := optimization_level c;
     buffered_stdio := buffered_stdio c; verbose := verbose c;
     use_hash_seed := use_hash_seed c; hash_seed := hash_seed c;
     dev_mode := dev_mode c; warnoptions := warnoptions c;
     xoptions := xoptions c;
     install_signal_handlers := install_signal_handlers c |}.

Definition set_warnoptions (v : list wstring) (c : PyConfig) : PyConfig :=
  {| program_name := program_name c; home := home c;
     module_search_paths_set := module_search_paths_set c;
     module_search_paths := module_search_paths c; argv := PyTypes.argv c;
     site_import := site_import c; write_bytecode := write_bytecode c;
     configure_c_stdio := configure_c_stdio c;
     optimization_level := optimization_level c;
     buffered_stdio := buffered_stdio c; verbose := verbose c;
     use_hash_seed := use_hash_seed c; hash_seed := hash_seed c;
     dev_mode := dev_mode c; warnoptions := v;
     xoptions := xoptions c;
     install_signal_handlers := install_signal_handlers c |}.

Definition set_xoptions (v : list wstring) (c : PyConfig) : PyConfig :=
  {| program_name := program_name c; home := home c;
     module_search_paths_set := module_search_paths_set c;
     module_search_paths := module_search_paths c; argv := PyTypes.argv c;
     site_import := site_import c; write_bytecode := write_bytecode c;
     configure_c_stdio := configure_c_stdio c;
     optimization_level := optimization_level c;
     buffered_stdio := buffered_stdio c; verbose := verbose c;
     use_hash_seed := use_hash_seed c; hash_seed := hash_seed c;
     dev_mode := dev_mode c; warnoptions := warnoptions c;
     xoptions := v;
     install_signal_handlers := install_signal_handlers c |}.

Definition set_install_signal_handlers (v : Z) (c : PyConfig) : PyConfig :=
  {| program_name := program_name c; home := home c;
     module_search_paths_set := module_search_paths_set c;
     module_search_paths := module_search_paths c; argv := PyTypes.argv c;
     site_import := site_import c; write_bytecode := write_bytecode c;
     configure_c_stdio := configure_c_stdio c;
     optimization_level := optimization_level c;
     buffered_stdio := buffered_stdio c; verbose := verbose c;
     use_hash_seed := use_hash_seed c; hash_seed := hash_seed c;
     dev_mode := dev_mode c; warnoptions := warnoptions c;
     xoptions := xoptions c;
     install_signal_handlers := v |}.

(** The scalar run-time options, in the order of the assignments. *)
Definition set_common_options
    (site bytecode stdio opt buffered verb use_seed seed dev : Z) (c : PyConfig)
  : PyConfig :=
  {| program_name := program_name c; home := home c;
     module_search_paths_set := module_search_paths_set c;
     module_search_paths := module_search_paths c; argv := PyTypes.argv c;
     site_import := site; write_bytecode := bytecode;
     configure_c_stdio := stdio;
     optimization_level := opt;
     buffered_stdio := buffered; verbose := verb;
     use_hash_seed := use_seed; hash_seed := seed;
     dev_mode := dev; warnoptions := warnoptions c;
     xoptions := xoptions c;
     install_signal_handlers := install_signal_handlers c |}.

Section Configurator.

Variable target : platform.
Variable PATH_MAX : Z.

(** Whether [calloc] of the configuration structure succeeds, and
    whether [calloc] of an array of that many pointers does. *)
Variable config_calloc_ok : bool.
Variable calloc_ok : nat -> bool.

(** Modelled from the spec: the conversion [pyi_win32_utf8_to_wcs] of the
    platform port (UTF-8 to wide characters; NULL on failure). *)
Variable pyi_win32_utf8_to_wcs : string -> option wstring.

(** [PyConfig_SetWideStringList(config, &field, length, items)]: the new
    value of the list, or the exception. Reading [items] is undefined
    when it is NULL or holds NULL among its first [length] slots. *)
Definition PyConfig_SetWideStringList (dylib : DYLIB_PYTHON)
    (length : nat) (items : option (list (option wstring)))
  : M PyConfig (option (list wstring)) :=
  match read_array items length with
  | None => undefined
  | Some l => ret (if PyConfig_SetWideStringList_ok dylib l then Some l else None)
  end.

(** [_pyi_pyconfig_set_string]: the string stored into the field, or
    [None] for -1. *)
Definition _pyi_pyconfig_set_string (dylib : DYLIB_PYTHON) (str : string)
  : option wstring :=
  if is_win32 target then
    match pyi_win32_utf8_to_wcs str with
    | None => None
    | Some str_w => if PyConfig_SetString_ok dylib str_w then Some str_w else None
    end
  else PyConfig_SetBytesString_value dylib str.

(** [pyi_pyconfig_pep587_create]: the zeroed structure, or NULL. *)
Definition pyi_pyconfig_pep587_create (pyi_ctx : PYI_CONTEXT) : option PyConfig :=
  match select_layout (version_id_of pyi_ctx) with
  | Some _ => if config_calloc_ok then Some PyConfig_zero else None
  | None => None
  end.

Definition pyi_pyconfig_pep587_set_program_name (pyi_ctx : PYI_CONTEXT)
  : M PyConfig Z :=
  fun config =>
    match select_layout (version_id_of pyi_ctx) with
    | Some _ =>
        match _pyi_pyconfig_set_string (dylib_python pyi_ctx)
                (executable_filename pyi_ctx) with
        | Some w => (Next 0, set_program_name (Some w) config)
        | None => (Next (-1), config)
        end
    | None => (Next (-1), config)
    end.

Definition pyi_pyconfig_pep587_set_python_home (pyi_ctx : PYI_CONTEXT)
  : M PyConfig Z :=
  fun config =>
    match select_layout (version_id_of pyi_ctx) with
    | Some _ =>
        match _pyi_pyconfig_set_string (dylib_python pyi_ctx)
                (application_home_dir pyi_ctx) with
        | Some w => (Next 0, set_home (Some w) config)
        | None => (Next (-1), config)
        end
    | None => (Next (-1), config)
    end.

(** [_pyi_pyconfig_set_module_search_paths] *)
Definition _pyi_pyconfig_set_module_search_paths (pyi_ctx : PYI_CONTEXT)
    (num_paths : nat) (paths : option (list (option wstring))) : M PyConfig Z :=
  match select_layout (version_id_of pyi_ctx) with
  | Some _ =>
      status <- PyConfig_SetWideStringList (dylib_python pyi_ctx) num_paths paths;;
      fun config =>
        match status with
        | Some l => (Next 0, set_module_search_paths 1 l config)
        | None =>
            (Next (-1), set_module_search_paths 1 (module_search_paths config) config)
        end
  | None => ret (-1)
  end.

(** The conversion of a path to wide characters in
    [pyi_pyconfig_pep587_set_module_search_paths]. *)
Definition path_to_wide (dylib : DYLIB_PYTHON) (path : string) : option wstring :=
  if is_win32 target then pyi_win32_utf8_to_wcs path else Py_DecodeLocale dylib path.

Definition pyi_pyconfig_pep587_set_module_search_paths (pyi_ctx : PYI_CONTEXT)
  : M PyConfig Z :=
  let dylib := dylib_python pyi_ctx in
  let python_major := Z.quot (version dylib) 100 in
  let python_minor := Z.rem (version dylib) 100 in
  let sep := PYI_SEPSTR target in
  let size := PYI_PATH_MAX PATH_MAX target in
  let base_library_path :=
    application_home_dir pyi_ctx +:+ sep +:+ "base_library.zip" in
  if too_long size base_library_path then ret (-1)
  else
    let lib_dynload_path :=
      application_home_dir pyi_ctx +:+ sep +:+ "python" +:+ fmt_d python_major
        +:+ "." +:+ fmt_d python_minor +:+ sep +:+ "lib-dynload" in
    if too_long size lib_dynload_path then ret (-1)
    else
      let module_search_paths :=
        [base_library_path; lib_dynload_path; application_home_dir pyi_ctx] in
      let module_search_paths_w := map (path_to_wide dylib) module_search_paths in
      if existsb is_null module_search_paths_w then ret (-1)
      else _pyi_pyconfig_set_module_search_paths pyi_ctx 3 (Some module_search_paths_w).

(** [_pyi_pyconfig_set_argv] *)
Definition _pyi_pyconfig_set_argv (pyi_ctx : PYI_CONTEXT)
    (argc : nat) (argv_w : option (list (option wstring))) : M PyConfig Z :=
  match select_layout (version_id_of pyi_ctx) with
  | Some _ =>
      status <- PyConfig_SetWideStringList (dylib_python pyi_ctx) argc argv_w;;
      fun config =>
        match status with
        | Some l => (Next 0, set_argv l config)
        | None => (Next (-1), config)
        end
  | None => ret (-1)
  end.

(** The conversion loop of the POSIX [pyi_pyconfig_pep587_set_argv]: it
    stops at the first argument that cannot be decoded. *)
Fixpoint decode_arguments (dylib : DYLIB_PYTHON) (args : list string)
  : option (list wstring) :=
  match args with
  | [] => Some []
  | a :: args' =>
      match Py_DecodeLocale dylib a with
      | None => None
      | Some w =>
          match decode_arguments dylib args' with
          | Some l => Some (w :: l)
          | None => None
          end
      end
  end.

Definition pyi_pyconfig_pep587_set_argv (pyi_ctx : PYI_CONTEXT) : M PyConfig Z :=
  if is_win32 target then
    _pyi_pyconfig_set_argv pyi_ctx (length (argv_w pyi_ctx))
      (Some (map Some (argv_w pyi_ctx)))
  else
    let args :=
      match pyi_argv pyi_ctx with
      | Some modified => modified
      | None => Context.argv pyi_ctx
      end in
    if negb (calloc_ok (length args)) then ret (-1)
    else
      match decode_arguments (dylib_python pyi_ctx) args with
      | None => ret (-1)
      | Some l => _pyi_pyconfig_set_argv pyi_ctx (length args) (Some (map Some l))
      end.

(** [pyi_pyconfig_pep587_set_runtime_options] *)
Definition pyi_pyconfig_pep587_set_runtime_options (pyi_ctx : PYI_CONTEXT)
    (runtime_options : RuntimeOptions.PyiRuntimeOptions) : M PyConfig Z :=
  let dylib := dylib_python pyi_ctx in
  match select_layout (version_id_of pyi_ctx) with
  | Some _ =>
      call (
        (fun config =>
           (Next tt,
            set_common_options 0 0 1
              (RuntimeOptions.optimize runtime_options)
              (lnot (RuntimeOptions.unbuffered runtime_options))
              (RuntimeOptions.verbose runtime_options)
              (RuntimeOptions.use_hash_seed runtime_options)
              (RuntimeOptions.hash_seed runtime_options)
              (RuntimeOptions.dev_mode runtime_options) config));;
        (if (RuntimeOptions.num_wflags runtime_options =? 0)%nat then ret tt
         else
           status <- PyConfig_SetWideStringList dylib
                       (RuntimeOptions.num_wflags runtime_options)
                       (RuntimeOptions.wflags_w runtime_options);;
           match status with
           | Some l => fun config => (Next tt, set_warnoptions l config)
           | None => c_return (-1)
           end);;
        (if (RuntimeOptions.num_xflags runtime_options =? 0)%nat then ret tt
         else
           status <- PyConfig_SetWideStringList dylib
                       (RuntimeOptions.num_xflags runtime_options)
                       (RuntimeOptions.xflags_w runtime_options);;
           match status with
           | Some l => fun config => (Next tt, set_xoptions l config)
           | None => c_return (-1)
           end);;
        (fun config => (Next tt, set_install_signal_handlers 1 config));;
        c_return 0)
  | None => ret (-1)
  end.

End Configurator.

End Pep587.

(** ** The PEP 741 configurator *)

Module Pep741.
Import CLib Step Target Archive Context.
Import PyTypes.

Local Open Scope step_scope.

(** The configuration object and the messages written by [PYI_ERROR]. *)
Record state := {
  config : gmap string pyvalue;
  messages : list string
}.

Definition PYI_ERROR (msg : string) : M state unit :=
  fun s => (Next tt, {| config := config s; messages := messages s ++ [msg] |}).

Definition put (name : string) (value : pyvalue) (s : state) : state :=
  {| config := <[name := value]> (config s); messages := messages s |}.

(** The setters of the runtime: zero and the option set, or a negative
    result and no change. *)
Definition PyInitConfig_SetInt (dylib : DYLIB_PYTHON) (name : string) (value : Z)
  : M state Z :=
  fun s =>
    if PyInitConfig_SetInt_ok dylib name value
    then (Next 0, put name (PyInt value) s)
    else (Next (-1), s).

Definition PyInitConfig_SetStr (dylib : DYLIB_PYTHON) (name value : string)
  : M state Z :=
  fun s =>
    if PyInitConfig_SetStr_ok dylib name value
    then (Next 0, put name (PyStr value) s)
    else (Next (-1), s).

(** Reading [items] is undefined when it is NULL or holds NULL among its
    first [length] slots. *)
Definition PyInitConfig_SetStrList (dylib : DYLIB_PYTHON) (name : string)
    (length : nat) (items : option (list (option string))) : M state Z :=
  match read_array items length with
  | None => undefined
  | Some l =>
      fun s =>
        if PyInitConfig_SetStrList_ok dylib name l
        then (Next 0, put name (PyStrList l) s)
        else (Next (-1), s)
  end.

(** The bytes that [_wchar_to_utf8] writes for one code point. *)
Definition utf8_bytes (ch : Z) : list Z :=
  if ch <? 128 then [ch]
  else if ch <? 2048 then
    [Z.lor 192 (Z.shiftr ch 6); Z.lor 128 (Z.land ch 63)]
  else if ch <? 65536 then
    [Z.lor 224 (Z.shiftr ch 12); Z.lor 128 (Z.land (Z.shiftr ch 6) 63);
     Z.lor 128 (Z.land ch 63)]
  else
    [Z.lor 240 (Z.shiftr ch 18); Z.lor 128 (Z.land (Z.shiftr ch 12) 63);
     Z.lor 128 (Z.land (Z.shiftr ch 6) 63); Z.lor 128 (Z.land ch 63)].

(** The loop of [_wchar_to_utf8]: a high surrogate followed by a low one
    is combined into one code point. *)
Fixpoint encode_wide (string_w : wstring) : list Z :=
  match string_w with
  | [] => []
  | ch :: rest =>
      match rest with
      | next_ch :: rest' =>
          if (55296 <=? ch) && (ch <=? 56319)
             && (56320 <=? next_ch) && (next_ch <=? 57343)
          then
            utf8_bytes (65536 + Z.lor (Z.shiftl (Z.land ch 1023) 10)
                                      (Z.land next_ch 1023))
              ++ encode_wide rest'
          else utf8_bytes ch ++ encode_wide rest
      | [] => utf8_bytes ch
      end
  end.

Section Configurator.

Variable target : platform.
Variable PATH_MAX : Z.
Variable SIZE_MAX : Z.

(** Whether [malloc] of that many bytes succeeds, and whether [calloc]
    of an array of that many pointers does. *)
Variable malloc_ok : Z -> bool.
Variable calloc_ok : nat -> bool.

(** Modelled from the spec: the conversion [pyi_win32_wcs_to_utf8] of the
    platform port (wide characters to UTF-8; NULL on failure). *)
Variable pyi_win32_wcs_to_utf8 : wstring -> option string.

Definition _wchar_to_utf8 (string_w : wstring) : option string :=
  let len := Z.of_nat (length string_w) in
  if SIZE_MAX / 4 <? len + 1 then None
  else if negb (malloc_ok ((len + 1) * 4)) then None
  else Some (c_string (encode_wide string_w)).

(** [_locale_encoding_to_utf8]. [output_buffer_size] is [None] when no
    output buffer is passed. Printing the NULL that a failed
    [_wchar_to_utf8] leaves with [%s] is undefined. *)
Definition _locale_encoding_to_utf8 (dylib : DYLIB_PYTHON) (str : string)
    (output_buffer_size : option Z) : M state (option string) :=
  match Py_DecodeLocale dylib str with
  | None => ret None
  | Some string_w =>
      let string_utf8 := _wchar_to_utf8 string_w in
      match output_buffer_size with
      | Some size =>
          match string_utf8 with
          | None => undefined
          | Some text => ret (if too_long size text then None else Some text)
          end
      | None => ret string_utf8
      end
  end.

Definition pyi_pyconfig_pep741_set_program_name (pyi_ctx : PYI_CONTEXT)
  : M state Z :=
  let dylib := dylib_python pyi_ctx in
  call (
    program_name_utf8 <-
      (if is_win32 target then ret (executable_filename pyi_ctx)
       else
         converted <- _locale_encoding_to_utf8 dylib (executable_filename pyi_ctx)
                        (Some (PYI_PATH_MAX PATH_MAX target));;
         match converted with
         | Some text => ret text
         | None =>
             PYI_ERROR "Failed to convert executable filename to UTF-8.";;
             c_return (-1)
         end);;
    rc <- PyInitConfig_SetStr dylib "program_name" program_name_utf8;;
    if rc <? 0 then
      PYI_ERROR "Failed to set program name: %s";; c_return (-1)
    else c_return 0).

Definition pyi_pyconfig_pep741_set_python_home (pyi_ctx : PYI_CONTEXT)
  : M state Z :=
  let dylib := dylib_python pyi_ctx in
  call (
    python_home_utf8 <-
      (if is_win32 target then ret (application_home_dir pyi_ctx)
       else
         converted <- _locale_encoding_to_utf8 dylib (application_home_dir pyi_ctx)
                        (Some (PYI_PATH_MAX PATH_MAX target));;
         match converted with
         | Some text => ret text
         | None =>
             PYI_ERROR "Failed to convert application home directory to UTF-8.";;
             c_return (-1)
         end);;
    rc <- PyInitConfig_SetStr dylib "home" python_home_utf8;;
    if rc <? 0 then
      PYI_ERROR "Failed to set python home path: %s";; c_return (-1)
    else c_return 0).

Definition pyi_pyconfig_pep741_set_module_search_paths (pyi_ctx : PYI_CONTEXT)
  : M state Z :=
  let dylib := dylib_python pyi_ctx in
  let python_major := Z.quot (version dylib) 100 in
  let python_minor := Z.rem (version dylib) 100 in
  let sep := PYI_SEPSTR target in
  let size := PYI_PATH_MAX PATH_MAX target in
  call (
    home_dir_utf8 <-
      (if is_win32 target then
         if too_long size (application_home_dir pyi_ctx) then
           PYI_ERROR "Failed to copy path to application home directory - path is too long!";;
           c_return (-1)
         else ret (application_home_dir pyi_ctx)
       else
         converted <- _locale_encoding_to_utf8 dylib (application_home_dir pyi_ctx)
                        (Some size);;
         match converted with
         | Some text => ret text
         | None =>
             PYI_ERROR "Failed to convert path to application home directory to UTF-8!";;
             c_return (-1)
         end);;
    let base_library_path_utf8 := home_dir_utf8 +:+ sep +:+ "base_library.zip" in
    if too_long size base_library_path_utf8 then
      PYI_ERROR "Failed to construct path to base_library.zip - path is too long!";;
      c_return (-1)
    else
      let lib_dynload_path_utf8 :=
        home_dir_utf8 +:+ sep +:+ "python" +:+ fmt_d python_major
          +:+ "." +:+ fmt_d python_minor +:+ sep +:+ "lib-dynload" in
      if too_long size lib_dynload_path_utf8 then
        PYI_ERROR "Failed to construct path to lib-dynload directory - path is too long!";;
        c_return (-1)
      else
        let module_search_paths_utf8 :=
          [base_library_path_utf8; lib_dynload_path_utf8; home_dir_utf8] in
        rc <- PyInitConfig_SetStrList dylib "module_search_paths" 3
                (Some (map Some module_search_paths_utf8));;
        if rc <? 0 then
          PYI_ERROR "Failed to set module search paths: %s";; c_return (-1)
        else c_return 0).

(** The conversion loop of [pyi_pyconfig_pep741_set_argv]: it stops at the
    first argument that cannot be converted. *)
Fixpoint convert_arguments {A : Type} (convert : A -> M state (option string))
    (args : list A) : M state (option (list string)) :=
  match args with
  | [] => ret (Some [])
  | a :: args' =>
      converted <- convert a;;
      match converted with
      | None => ret None
      | Some text =>
          others <- convert_arguments convert args';;
          ret (match others with Some l => Some (text :: l) | None => None end)
      end
  end.

Definition pyi_pyconfig_pep741_set_argv (pyi_ctx : PYI_CONTEXT) : M state Z :=
  let dylib := dylib_python pyi_ctx in
  let argc :=
    if is_win32 target then length (argv_w pyi_ctx)
    else match pyi_argv pyi_ctx with
         | Some modified => length modified
         | None => length (Context.argv pyi_ctx)
         end in
  call (
    if negb (calloc_ok argc) then c_return (-1)
    else
      argv_utf8 <-
        (if is_win32 target then
           convert_arguments (fun a => ret (pyi_win32_wcs_to_utf8 a)) (argv_w pyi_ctx)
         else
           convert_arguments (fun a => _locale_encoding_to_utf8 dylib a None)
             (match pyi_argv pyi_ctx with
              | Some modified => modified
              | None => Context.argv pyi_ctx
              end));;
      match argv_utf8 with
      | None => c_return (-1)
      | Some l =>
          rc <- PyInitConfig_SetStrList dylib "argv" argc (Some (map Some l));;
          if rc <? 0 then
            PYI_ERROR "Failed to set sys.argv: %s";; c_return (-1)
          else c_return 0
      end).

(** One integer option of [pyi_pyconfig_pep741_set_runtime_options]:
    set it, or report the failure and return -1. *)
Definition set_int_option (dylib : DYLIB_PYTHON) (name : string) (value : Z)
  : M state unit :=
  rc <- PyInitConfig_SetInt dylib name value;;
  if rc <? 0 then
    PYI_ERROR ("Failed to set '" +:+ name +:+ "': %s");; c_return (-1)
  else ret tt.

Definition set_list_option (dylib : DYLIB_PYTHON) (name : string)
    (length : nat) (items : option (list (option string))) : M state unit :=
  rc <- PyInitConfig_SetStrList dylib name length items;;
  if rc <? 0 then
    PYI_ERROR ("Failed to set '" +:+ name +:+ "': %s");; c_return (-1)
  else ret tt.

Definition pyi_pyconfig_pep741_set_runtime_options (pyi_ctx : PYI_CONTEXT)
    (runtime_options : RuntimeOptions.PyiRuntimeOptions) : M state Z :=
  let dylib := dylib_python pyi_ctx in
  call (
    set_int_option dylib "site_import" 0;;
    set_int_option dylib "write_bytecode" 0;;
    set_int_option dylib "configure_c_stdio" 0;;
    set_int_option dylib "optimization_level"
      (RuntimeOptions.optimize runtime_options);;
    set_int_option dylib "buffered_stdio"
      (lnot (RuntimeOptions.unbuffered runtime_options));;
    set_int_option dylib "verbose" (RuntimeOptions.verbose runtime_options);;
    set_int_option dylib "use_hash_seed"
      (RuntimeOptions.use_hash_seed runtime_options);;
    set_int_option dylib "hash_seed"
      (to_int64 (RuntimeOptions.hash_seed runtime_options));;
    set_int_option dylib "dev_mode" (RuntimeOptions.dev_mode runtime_options);;
    set_int_option dylib "install_signal_handlers" 1;;
    set_list_option dylib "warnoptions"
      (RuntimeOptions.num_wflags runtime_options)
      (RuntimeOptions.wflags runtime_options);;
    set_list_option dylib "xoptions"
      (RuntimeOptions.num_xflags runtime_options)
      (RuntimeOptions.xflags runtime_options);;
    c_return 0).

End Configurator.

End Pep741.

(** ** Starting the interpreter: [pyi_python_start_interpreter],
       [pyi_python_install_pyz] *)

Module Python.
Import CLib Step Target Archive Context.
Import PyTypes.

Local Open Scope step_scope.

(** What the launcher does to the outside: the messages it writes and
    the functions of the Python library that it calls to pre-initialize,
    create, initialize and release. *)
Inductive event :=
| Message (text : string)
| Called (function : string).

(** The state of the embedded interpreter as the launcher sees it: the
    history of events and the attributes of the [sys] module. *)
Record interp := {
  events : list event;
  sys : gmap string string
}.

Definition emit (e : event) : M interp unit :=
  fun s => (Next tt, {| events := events s ++ [e]; sys := sys s |}).

Definition PYI_ERROR (msg : string) : M interp unit := emit (Message msg).

(** [pyi_pyconfig_preinit_python] *)
Definition pyi_pyconfig_preinit_python
    (runtime_options : RuntimeOptions.PyiRuntimeOptions) (pyi_ctx : PYI_CONTEXT)
  : M interp Z :=
  emit (Called "PyPreConfig_InitIsolatedConfig");;
  emit (Called "Py_PreInitialize");;
  ret (if Py_PreInitialize_ok (dylib_python pyi_ctx)
            (RuntimeOptions.utf8_mode runtime_options)
            (RuntimeOptions.dev_mode runtime_options)
       then 0 else -1).

(** A call of a PEP 587 helper on the configuration structure. *)
Definition on_pep587 (helper : M PyConfig Z) (config : PyConfig)
  : M interp (Z * PyConfig) :=
  fun s =>
    match helper config with
    | (Next rc, config') | (Return rc, config') => (Next (rc, config'), s)
    | (Exit, _) => (Exit, s)
    | (Undefined, _) => (Undefined, s)
    end.

(** A call of a PEP 741 helper on the configuration object; its messages
    join the history. *)
Definition on_pep741 (helper : M Pep741.state Z) (config : gmap string pyvalue)
  : M interp (Z * gmap string pyvalue) :=
  fun s =>
    match helper {| Pep741.config := config; Pep741.messages := [] |} with
    | (outcome, st) =>
        let s' := {| events := events s ++ map Message (Pep741.messages st);
                     sys := sys s |} in
        match outcome with
        | Next rc | Return rc => (Next (rc, Pep741.config st), s')
        | Exit => (Exit, s')
        | Undefined => (Undefined, s')
        end
    end.

Section Launcher.

Variable target : platform.
Variable PATH_MAX : Z.
Variable SIZE_MAX : Z.
Variable ULONG_MAX : Z.
Variable calloc_zero_is_null : bool.
Variable mbstowcs : string -> option wstring.
Variable flag_w_unterminated : string -> wstring.
Variable config_calloc_ok : bool.
Variable calloc_ok : nat -> bool.
Variable malloc_ok : Z -> bool.
Variable pyi_win32_utf8_to_wcs : string -> option wstring.
Variable pyi_win32_wcs_to_utf8 : wstring -> option string.

(** The label [end:] of [pyi_python_start_interpreter]: release the
    configuration and the options, return [ret]. *)
Definition finish (pyi_ctx : PYI_CONTEXT) (config_pep587_allocated : bool)
    (ret_value : Z) : M interp Z :=
  (if has_pep741 (dylib_python pyi_ctx) then emit (Called "PyInitConfig_Free")
   else if config_pep587_allocated then emit (Called "PyConfig_Clear")
   else ret tt);;
  ret ret_value.

(** One configuration step: on a negative result, the message and
    [goto end]. *)
Definition step_pep741 (pyi_ctx : PYI_CONTEXT) (helper : M Pep741.state Z)
    (failure : string) (config : gmap string pyvalue)
    (next : gmap string pyvalue -> M interp Z) : M interp Z :=
  r <- on_pep741 helper config;;
  if r.1 <? 0 then PYI_ERROR failure;; finish pyi_ctx false (-1)
  else next r.2.

Definition step_pep587 (pyi_ctx : PYI_CONTEXT) (helper : M PyConfig Z)
    (failure : string) (config : PyConfig)
    (next : PyConfig -> M interp Z) : M interp Z :=
  r <- on_pep587 helper config;;
  if r.1 <? 0 then PYI_ERROR failure;; finish pyi_ctx true (-1)
  else next r.2.

(** [pyi_python_start_interpreter]. [h] is the heap that
    [pyi_runtime_options_read] allocates from. *)
Definition pyi_python_start_interpreter (pyi_ctx : PYI_CONTEXT)
    (h : RuntimeOptions.heap) : M interp Z :=
  let dylib := dylib_python pyi_ctx in
  match (RuntimeOptions.pyi_runtime_options_read ULONG_MAX calloc_zero_is_null
           mbstowcs (PYI_PATH_MAX PATH_MAX target) flag_w_unterminated
           pyi_ctx h).1 with
  | None =>
      PYI_ERROR "Failed to parse run-time options!";;
      finish pyi_ctx false (-1)
  | Some runtime_options =>
      rc <- pyi_pyconfig_preinit_python runtime_options pyi_ctx;;
      if rc <? 0 then
        PYI_ERROR "Failed to pre-initialize embedded python interpreter!";;
        finish pyi_ctx false (-1)
      else if has_pep741 dylib then
        (* PEP 741 codepath *)
        emit (Called "PyInitConfig_Create");;
        match PyInitConfig_Create dylib with
        | None =>
            PYI_ERROR "Failed to allocate PyInitConfig structure!";;
            finish pyi_ctx false (-1)
        | Some config_pep741 =>
            step_pep741 pyi_ctx
              (Pep741.pyi_pyconfig_pep741_set_program_name target PATH_MAX SIZE_MAX
                 malloc_ok pyi_ctx)
              "Failed to set program name!" config_pep741 (fun config_pep741 =>
            step_pep741 pyi_ctx
              (Pep741.pyi_pyconfig_pep741_set_python_home target PATH_MAX SIZE_MAX
                 malloc_ok pyi_ctx)
              "Failed to set python home path!" config_pep741 (fun config_pep741 =>
            step_pep741 pyi_ctx
              (Pep741.pyi_pyconfig_pep741_set_module_search_paths target PATH_MAX
                 SIZE_MAX malloc_ok pyi_ctx)
              "Failed to set module search paths!" config_pep741 (fun config_pep741 =>
            step_pep741 pyi_ctx
              (Pep741.pyi_pyconfig_pep741_set_argv target SIZE_MAX malloc_ok
                 calloc_ok pyi_win32_wcs_to_utf8 pyi_ctx)
              "Failed to set sys.argv!" config_pep741 (fun config_pep741 =>
            step_pep741 pyi_ctx
              (Pep741.pyi_pyconfig_pep741_set_runtime_options pyi_ctx runtime_options)
              "Failed to set run-time options!" config_pep741 (fun config_pep741 =>
            emit (Called "Py_InitializeFromInitConfig");;
            if Py_InitializeFromInitConfig_ok dylib config_pep741 then
              finish pyi_ctx false 0
            else
              PYI_ERROR "Failed to start embedded python interpreter: %s";;
              finish pyi_ctx false (-1))))))
        end
      else
        (* PEP 587 codepath *)
        match Pep587.pyi_pyconfig_pep587_create config_calloc_ok pyi_ctx with
        | None =>
            PYI_ERROR "Failed to allocate PyConfig structure! Unsupported python version?";;
            finish pyi_ctx false (-1)
        | Some config_pep587 =>
            emit (Called "PyConfig_InitIsolatedConfig");;
            let config_pep587 := PyConfig_InitIsolatedConfig dylib config_pep587 in
            step_pep587 pyi_ctx
              (Pep587.pyi_pyconfig_pep587_set_program_name target
                 pyi_win32_utf8_to_wcs pyi_ctx)
              "Failed to set program name!" config_pep587 (fun config_pep587 =>
            step_pep587 pyi_ctx
              (Pep587.pyi_pyconfig_pep587_set_python_home target
                 pyi_win32_utf8_to_wcs pyi_ctx)
              "Failed to set python home path!" config_pep587 (fun config_pep587 =>
            step_pep587 pyi_ctx
              (Pep587.pyi_pyconfig_pep587_set_module_search_paths target PATH_MAX
                 pyi_win32_utf8_to_wcs pyi_ctx)
              "Failed to set module search paths!" config_pep587 (fun config_pep587 =>
            step_pep587 pyi_ctx
              (Pep587.pyi_pyconfig_pep587_set_argv target calloc_ok pyi_ctx)
              "Failed to set sys.argv!" config_pep587 (fun config_pep587 =>
            step_pep587 pyi_ctx
              (Pep587.pyi_pyconfig_pep587_set_runtime_options pyi_ctx runtime_options)
              "Failed to set run-time options!" config_pep587 (fun config_pep587 =>
            emit (Called "Py_InitializeFromConfig");;
            if Py_InitializeFromConfig_ok dylib config_pep587 then
              finish pyi_ctx true 0
            else
              PYI_ERROR "Failed to start embedded python interpreter!";;
              emit (Called "Py_ExitStatusException");;
              exit_process)))))
        end
  end.

(** The first entry of type PYZ, as the search loop of
    [pyi_python_install_pyz] leaves it. *)
Fixpoint find_pyz (entries : list TOC_ENTRY) : option TOC_ENTRY :=
  match entries with
  | [] => None
  | e :: entries' =>
      if typecode_eqb (entry_typecode e) ARCHIVE_ITEM_PYZ then Some e
      else find_pyz entries'
  end.

(** [PySys_SetObject(name, value)]: zero and the attribute set, or a
    nonzero result. *)
Definition PySys_SetObject (dylib : DYLIB_PYTHON) (attr value : string)
  : M interp Z :=
  fun s =>
    if PySys_SetObject_ok dylib attr value
    then (Next 0, {| events := events s; sys := <[attr := value]> (sys s) |})
    else (Next (-1), s).

(** [pyi_python_install_pyz]. The offsets are unsigned and at most 64 bits
    wide; their sum is taken in [unsigned long long]. Formatting [%U] with
    the NULL of a failed decoding is undefined. *)
Definition pyi_python_install_pyz (pyi_ctx : PYI_CONTEXT) : M interp Z :=
  let dylib := dylib_python pyi_ctx in
  let attr_name := "_pyinstaller_pyz" in
  call (
    match find_pyz (toc (archive pyi_ctx)) with
    | None =>
        PYI_ERROR "PYZ archive entry not found in the TOC!";;
        c_return (-1)
    | Some toc_entry =>
        let archive_filename_obj :=
          if is_win32 target
          then PyUnicode_Decode_utf8 dylib (archive_filename pyi_ctx)
          else PyUnicode_DecodeFSDefault dylib (archive_filename pyi_ctx) in
        let pyz_offset :=
          (pkg_offset (archive pyi_ctx) + offset toc_entry) mod 2 ^ 64 in
        match archive_filename_obj with
        | None => undefined
        | Some path =>
            let text := path +:+ "?" +:+ fmt_u (Z.to_N pyz_offset) in
            if negb (PyUnicode_FromFormat_ok dylib text) then
              PYI_ERROR "Failed to format PYZ archive path and offset";;
              c_return (-1)
            else
              rc <- PySys_SetObject dylib attr_name text;;
              if negb (rc =? 0) then
                PYI_ERROR ("Failed to store path to PYZ archive into sys."
                           +:+ attr_name +:+ "!");;
                c_return (-1)
              else c_return 0
        end
    end).

End Launcher.

End Python.

(** ** Sample inputs *)

Module Examples.
Import CLib Step Target Archive Context PyTypes.

(** A Python library of the given version and protocol in which every
    call succeeds; characters are decoded one to one. *)
Definition widen (s : string) : wstring :=
  map (fun c => Z.of_N (N_of_ascii c)) (list_ascii_of_string s).

Definition narrow (w : wstring) : string := c_string w.

(** A locale in which every string converts, and a buffer that holds
    nothing where a conversion leaves it without terminator. *)
Definition sample_mbstowcs (s : string) : option wstring := Some (widen s).

Definition empty_flag_w (s : string) : wstring := [].

Definition sample_dylib (python_version : Z) (pep741 : bool) : DYLIB_PYTHON :=
  {| version := python_version;
     has_pep741 := pep741;
     Py_DecodeLocale := fun s => Some (widen s);
     Py_PreInitialize_ok := fun _ _ => true;
     PyConfig_SetBytesString_value := fun s => Some (widen s);
     PyConfig_SetString_ok := fun _ => true;
     PyConfig_SetWideStringList_ok := fun _ => true;
     Py_InitializeFromConfig_ok := fun _ => true;
     PyConfig_InitIsolatedConfig := fun c => c;
     PyInitConfig_Create := Some ∅;
     PyInitConfig_SetInt_ok := fun _ _ => true;
     PyInitConfig_SetStr_ok := fun _ _ => true;
     PyInitConfig_SetStrList_ok := fun _ _ => true;
     Py_InitializeFromInitConfig_ok := fun _ => true;
     PyUnicode_DecodeFSDefault := fun s => Some s;
     PyUnicode_Decode_utf8 := fun s => Some s;
     PyUnicode_FromFormat_ok := fun _ => true;
     PySys_SetObject_ok := fun _ _ => true |}.

Definition option_entry (text : string) : TOC_ENTRY :=
  {| entry_typecode := ARCHIVE_ITEM_RUNTIME_OPTION; name := text;
     offset := 0; uncompressed_length := 0 |}.

Definition pyz_entry (at_offset : Z) : TOC_ENTRY :=
  {| entry_typecode := ARCHIVE_ITEM_PYZ; name := "PYZ.pyz";
     offset := at_offset; uncompressed_length := 1000 |}.

Definition module_entry (text : string) : TOC_ENTRY :=
  {| entry_typecode := ARCHIVE_ITEM_PYMODULE; name := text;
     offset := 0; uncompressed_length := 10 |}.

(** A directory-mode application in [/opt/app] with the given library,
    GIL flag and TOC, the archive being embedded at offset 4096. *)
Definition sample_context (dylib : DYLIB_PYTHON) (gil_disabled : Z)
    (entries : list TOC_ENTRY) : PYI_CONTEXT :=
  {| Context.argv := ["/opt/app/run"];
     argv_w := [widen "/opt/app/run"];
     pyi_argv := None;
     executable_filename := "/opt/app/run";
     archive_filename := "/opt/app/run";
     archive := {| toc := entries; pkg_offset := 4096;
                   contains_extractable_entries := false;
                   toc_splash := None |};
     has_splash := false;
     suppress_splash := false;
     is_onefile := false;
     process_level := 0;
     parent_process_level := 0;
     application_home_dir := "/opt/app";
     dylib_python := dylib;
     nogil_enabled := gil_disabled;
     dynamic_loader_filename := "" |}.

(** A system on which the executable [/opt/app/run] is found through
    [/proc] and the archive [found] is embedded in it. *)
Definition sample_system (found : ARCHIVE) : SYSTEM :=
  {| readlink_proc_exe := Some "/opt/app/run";
     realpath := fun path => Some path;
     _NSGetExecutablePath := Some "/opt/app/run";
     GetModuleFileNameW := Some (widen "/opt/app/run");
     pyi_win32_is_symlink := fun _ => false;
     pyi_win32_realpath := fun path => Some path;
     pyi_win32_wcs_to_utf8_path := fun path => Some (narrow path);
     pyi_path_basename := fun _ => "run";
     pyi_path_join := fun directory name => Some (directory +:+ "/" +:+ name);
     pyi_path_exists := fun _ => true;
     pyi_path_fopen_ok := fun _ => true;
     pyi_archive_open := fun _ => Some found;
     pyi_utils_find_magic_pattern := fun _ _ => 0;
     MAGIC_BASE := [77; 69; 73; 12; 11; 10; 11; 14] |}.

(** The options record of an archive without option entries. *)
Definition default_options : RuntimeOptions.PyiRuntimeOptions :=
  RuntimeOptions.set_utf8_mode (-1) RuntimeOptions.options_zero.

End Examples.

(** ** The wording of the specification *)

Module Spec.
Import CLib Target Archive Context Main.

(** The role table: the level a process takes, given the level of its
    parent, single-file or directory mode, whether a splash screen is
    available and not suppressed, and the platform class. [None] stands
    for a rejected parent level. *)
Definition role_table (p : platform) (single_file splash_eligible : bool)
    (parent : Z) : option Z :=
  if parent =? PYI_PROCESS_LEVEL_UNKNOWN then
    Some (match single_file, win_mac_cygwin p, splash_eligible with
          | true, true, _ => PYI_PROCESS_LEVEL_PARENT
          | true, false, true => PYI_PROCESS_LEVEL_PARENT_NEEDS_RESTART
          | true, false, false => PYI_PROCESS_LEVEL_PARENT
          | false, true, _ => PYI_PROCESS_LEVEL_MAIN
          | false, false, _ => PYI_PROCESS_LEVEL_PARENT_NEEDS_RESTART
          end)
  else if parent =? PYI_PROCESS_LEVEL_PARENT_NEEDS_RESTART then
    if win_mac_cygwin p then None
    else Some (if single_file then PYI_PROCESS_LEVEL_PARENT else PYI_PROCESS_LEVEL_MAIN)
  else if parent =? PYI_PROCESS_LEVEL_PARENT then Some PYI_PROCESS_LEVEL_MAIN
  else if parent =? PYI_PROCESS_LEVEL_MAIN then Some PYI_PROCESS_LEVEL_SUBPROCESS
  else None.

(** Numerals: every character of [s] is a digit of the base, and the
    number they denote (continuing from [acc]). *)
Fixpoint all_digits (base : Z) (s : string) : bool :=
  match s with
  | EmptyString => true
  | String c s' => is_digit base c && all_digits base s'
  end.

Fixpoint digits_value (base : Z) (s : string) (acc : Z) : Z :=
  match s with
  | String c s' =>
      match digit_in base c with
      | Some d => digits_value base s' (acc * base + d)
      | None => acc
      end
  | EmptyString => acc
  end.

(** Run-time option entries whose name starts with [prefix] ("W " or
    "X "), and the arguments they carry, in TOC order. *)
Definition is_flag_entry (prefix : string) (e : TOC_ENTRY) : bool :=
  typecode_eqb (entry_typecode e) ARCHIVE_ITEM_RUNTIME_OPTION
  && strncmp_eq (name e) prefix 2.

Definition flag_arguments (prefix : string) (entries : list TOC_ENTRY)
  : list string :=
  map (fun e => str_from 2 (name e)) (List.filter (is_flag_entry prefix) entries).

Definition b2n (b : bool) : nat := if b then 1%nat else 0%nat.

(** What is left of [s] after the prefix [p], if it starts with [p]. *)
Fixpoint strip_prefix (p s : string) : option string :=
  match p with
  | EmptyString => Some s
  | String a p' =>
      match s with
      | String b s' => if Ascii.eqb b a then strip_prefix p' s' else None
      | EmptyString => None
      end
  end.

(** The value of the X-flag [flag] if its name is [name] and a value
    follows, after [=] or a blank. *)
Definition xflag_value (name flag : string) : option string :=
  match strip_prefix name flag with
  | Some (String c value) =>
      if Ascii.eqb c "=" || Ascii.eqb c " " then Some value else None
  | _ => None
  end.

(** The effect of one X-flag on the pre-init field called [name]: the
    bare name enables it, the value 0 disables it, any other value
    enables it, and a flag of another name leaves it alone. *)
Definition xflag_toggle (name flag : string) (field : Z) : Z :=
  if String.eqb flag name then 1
  else
    match xflag_value name flag with
    | Some value => if String.eqb value "0" then 0 else 1
    | None => field
    end.

(** The field after all X-flags of the TOC, starting from [initial]. *)
Definition xflag_mode (name : string) (initial : Z) (entries : list TOC_ENTRY)
  : Z :=
  fold_left (fun field flag => xflag_toggle name flag field)
    (flag_arguments "X " entries) initial.

(** The (version, GIL flag) pairs that have a layout of the legacy
    configuration structure. *)
Definition supported (version flags : Z) : Prop :=
  (308 <= version <= 313 /\ flags = 0) \/ (version = 313 /\ flags = 1).

(** The three module search paths below the application root [home],
    joined with the separator [sep]; major and minor are [version / 100]
    and [version % 100] of C. *)
Definition search_paths (sep home : string) (version : Z) : list string :=
  [ home +:+ sep +:+ "base_library.zip";
    home +:+ sep +:+ "python" +:+ fmt_d (Z.quot version 100) +:+ "."
      +:+ fmt_d (Z.rem version 100) +:+ sep +:+ "lib-dynload";
    home ].

(** TOC entries of type PYZ. *)
Definition is_pyz (e : TOC_ENTRY) : bool :=
  typecode_eqb (entry_typecode e) ARCHIVE_ITEM_PYZ.

End Spec.
(** ** Further wording: the process chain *)

Module Chain.
Import CLib Target Archive Context Main.

(** Whether a process keeps the bootloader environment it was started
    in: no reset was requested, and the archive named there is its own. *)
Definition inherits_environment (archive_name : string) (e : gmap string string)
  : bool :=
  negb (bool_decide (e !! "PYINSTALLER_RESET_ENVIRONMENT" = Some "1"))
  && bool_decide (e !! "_PYI_ARCHIVE_FILE" = Some archive_name).

(** The names that the reset of the environment clears. *)
Definition cleared_by_reset (p : platform) (name : string) : bool :=
  String.eqb name "_PYI_APPLICATION_HOME_DIR"
  || String.eqb name "_PYI_PARENT_PROCESS_LEVEL"
  || String.eqb name "_PYI_SPLASH_IPC"
  || (is_linux p && String.eqb name "_PYI_LINUX_PROCESS_NAME").

(** The values of [_PYI_PARENT_PROCESS_LEVEL] that a bootloader of the
    platform leaves to its children: none at all, or the decimal text of
    a level below SUBPROCESS that it can take itself. *)
Definition bootloader_level (p : platform) (value : option string) : bool :=
  match value with
  | None => true
  | Some s =>
      String.eqb s "0" || String.eqb s "1"
      || (negb (win_mac_cygwin p) && String.eqb s "-1")
  end.

End Chain.
(** ** Further wording: the options of an archive *)

Module OptionWords.
Import CLib Archive Context Spec.

(** Entries of type OPTION. *)
Definition is_option (e : TOC_ENTRY) : bool :=
  typecode_eqb (entry_typecode e) ARCHIVE_ITEM_RUNTIME_OPTION.

(** Option entries whose name is one of [names]. *)
Definition named (names : list string) (e : TOC_ENTRY) : bool :=
  is_option e && existsb (String.eqb (name e)) names.

Definition count_named (names : list string) (entries : list TOC_ENTRY) : Z :=
  Z.of_nat (length (List.filter (named names) entries)).

(** The text of a hash seed option: what follows [hash_seed=] (or
    [hash_seed] and a blank), unless nothing follows. *)
Definition hash_seed_text (e : TOC_ENTRY) : option string :=
  if is_option e then
    match xflag_value "hash_seed" (name e) with
    | Some (String c v) => Some (String c v)
    | _ => None
    end
  else None.

(** The number of flags to pass through. *)
Definition flag_count (entries : list TOC_ENTRY) : nat :=
  length (flag_arguments "W " entries) + length (flag_arguments "X " entries).

(** The stores of the collecting loop that went out of bounds between
    two points of a run are stores into [xflags] under PEP 741. *)
Definition only_xflags (pep : bool) (before after : list (string * nat)) : Prop :=
  forall a i, In (a, i) after -> In (a, i) before \/ (a = "xflags" /\ pep = true).

(** An array has room for the flags still to come: none is to come, or
    it is allocated with a slot for every flag stored and to come. *)
Definition fits {A : Type} (array : option (list (option A))) (used remaining : nat)
  : Prop :=
  remaining = O \/ exists slots, array = Some slots /\ length slots = (used + remaining)%nat.

(** The out-of-bounds stores when the loop is left. *)
Definition log_of (r : RuntimeOptions.collected) : list (string * nat) :=
  match r with
  | RuntimeOptions.Going st => RuntimeOptions.stray_stores st
  | RuntimeOptions.Failed log => log
  end.

(** The arrays that the protocol uses have room for the flags of the
    entries still to be visited. *)
Definition roomy (pep : bool) (entries : list TOC_ENTRY) (o : RuntimeOptions.PyiRuntimeOptions)
  : Prop :=
  let w := length (flag_arguments "W " entries) in
  let x := length (flag_arguments "X " entries) in
  if pep then fits (RuntimeOptions.wflags o) (RuntimeOptions.num_wflags o) w
  else fits (RuntimeOptions.wflags_w o) (RuntimeOptions.num_wflags o) w
       /\ fits (RuntimeOptions.xflags_w o) (RuntimeOptions.num_xflags o) x.

End OptionWords.
(** ** Further wording: UTF-16 and UTF-8 *)

Module Unicode.

(** The UTF-8 encoding of a code point, by the table of RFC 3629. *)
Definition utf8_encoding (cp : Z) : list Z :=
  if cp <? 128 then [cp]
  else if cp <? 2048 then [192 + cp / 64; 128 + cp mod 64]
  else if cp <? 65536 then
    [224 + cp / 4096; 128 + (cp / 64) mod 64; 128 + cp mod 64]
  else
    [240 + cp / 262144; 128 + (cp / 4096) mod 64; 128 + (cp / 64) mod 64;
     128 + cp mod 64].

Definition is_high_surrogate (u : Z) : bool := (55296 <=? u) && (u <=? 56319).
Definition is_low_surrogate (u : Z) : bool := (56320 <=? u) && (u <=? 57343).

(** The code points of a sequence of wide characters: a high surrogate
    followed by a low one stands for a code point above the basic plane,
    every other element for itself. *)
Fixpoint code_points (units : list Z) : list Z :=
  match units with
  | [] => []
  | u :: rest =>
      match rest with
      | next :: rest' =>
          if is_high_surrogate u && is_low_surrogate next
          then (65536 + (u - 55296) * 1024 + (next - 56320)) :: code_points rest'
          else u :: code_points rest
      | [] => [u]
      end
  end.

End Unicode.
(** ** What a function does to the process *)

Module Outcomes.
Import Step.

(** A computation that never ends the process. *)
Definition no_exit {S A : Type} (m : M S A) : Prop :=
  forall s, (m s).1 <> Exit.

(** A computation whose behaviour is defined unless [cause] holds. *)
Definition defined_unless {S A : Type} (cause : Prop) (m : M S A) : Prop :=
  forall s, (m s).1 = Undefined -> cause.

End Outcomes.

Module Reports.
Import Step Context Python.

Local Open Scope list_scope.

(** The function of the Python library that initializes the interpreter
    from the configuration. *)
Definition initializer (pyi_ctx : PYI_CONTEXT) : string :=
  if has_pep741 (dylib_python pyi_ctx) then "Py_InitializeFromInitConfig"
  else "Py_InitializeFromConfig".

(** [s'] continues the history of [s] by [new] and has the same [sys]. *)
Definition continues (s s' : interp) (new : list event) : Prop :=
  sys s' = sys s /\ events s' = events s ++ new.

(** A path that [Py_DecodeLocale] decodes and [_wchar_to_utf8] does not
    convert: the result is NULL. *)
Definition unconverted (SIZE_MAX : Z) (malloc_ok : Z -> bool)
    (dylib : DYLIB_PYTHON) (path : string) : Prop :=
  exists string_w,
    Py_DecodeLocale dylib path = Some string_w
    /\ Pep741._wchar_to_utf8 SIZE_MAX malloc_ok string_w = None.

(** Where what [pyi_python_start_interpreter] does is not defined, given
    the options it has read: under PEP 741 only, when the list of
    X-flags handed to [PyInitConfig_SetStrList] has a NULL among its
    [num_xflags] slots, or when, off Windows, the name of the executable
    or the home directory is decoded but not converted to UTF-8, and the
    NULL is formatted with [%s]. *)
Definition undefined_start (target : Target.platform) (SIZE_MAX : Z)
    (malloc_ok : Z -> bool) (pyi_ctx : PYI_CONTEXT)
    (read : option RuntimeOptions.PyiRuntimeOptions) : Prop :=
  has_pep741 (dylib_python pyi_ctx) = true
  /\ ((exists runtime_options,
         read = Some runtime_options
         /\ CLib.read_array (RuntimeOptions.xflags runtime_options)
              (RuntimeOptions.num_xflags runtime_options) = None)
      \/ (Target.is_win32 target = false
          /\ (unconverted SIZE_MAX malloc_ok (dylib_python pyi_ctx)
                (executable_filename pyi_ctx)
              \/ unconverted SIZE_MAX malloc_ok (dylib_python pyi_ctx)
                   (application_home_dir pyi_ctx)))).

(** What [pyi_python_start_interpreter] may leave behind when started in
    [s]: 0 after the initializer was called; -1 after a message was
    written; the end of the process only on the PEP 587 path, after the
    message of the failed start and [Py_ExitStatusException]; undefined
    behaviour only for [cause]. *)
Definition start_outcome (cause : Prop) (pyi_ctx : PYI_CONTEXT) (s : interp)
    (r : outcome Z * interp) : Prop :=
  match r with
  | (Next rc, s') =>
      exists new, continues s s' new
        /\ ((rc = 0 /\ In (Called (initializer pyi_ctx)) new)
            \/ (rc = -1 /\ exists text, In (Message text) new))
  | (Exit, s') =>
      has_pep741 (dylib_python pyi_ctx) = false
      /\ exists new, continues s s'
           (new ++ [Message "Failed to start embedded python interpreter!";
                    Called "Py_ExitStatusException"])
  | (Return _, _) => False
  | (Undefined, _) => cause
  end.

End Reports.

(** ** The options of the bootloader itself:
       [_pyi_main_read_runtime_options] *)

Module BootloaderOptions.
Import CLib Target Archive Context.

(** [enum PYI_HIDE_CONSOLE] *)
Definition PYI_HIDE_CONSOLE_UNUSED : Z := 0.
Definition PYI_HIDE_CONSOLE_HIDE_EARLY : Z := 1.
Definition PYI_HIDE_CONSOLE_HIDE_LATE : Z := 2.
Definition PYI_HIDE_CONSOLE_MINIMIZE_EARLY : Z := 3.
Definition PYI_HIDE_CONSOLE_MINIMIZE_LATE : Z := 4.

Definition HIDE_CONSOLE_OPTION_HIDE_EARLY : string := "hide-early".
Definition HIDE_CONSOLE_OPTION_HIDE_LATE : string := "hide-late".
Definition HIDE_CONSOLE_OPTION_MINIMIZE_EARLY : string := "minimize-early".
Definition HIDE_CONSOLE_OPTION_MINIMIZE_LATE : string := "minimize-late".

(** The fields of [struct PYI_CONTEXT] that the function writes, apart
    from [nogil_enabled]: two strings that point into the name of a TOC
    entry (NULL until set) and four [unsigned char] flags. *)
Record BOOTLOADER_OPTIONS := {
  runtime_tmpdir : option string;
  contents_subdirectory : option string;
  hide_console : Z;
  disable_windowed_traceback : Z;
  macos_argv_emulation : Z;
  ignore_signals : Z
}.

(** The fields in the zeroed context. *)
Definition BOOTLOADER_OPTIONS_zero : BOOTLOADER_OPTIONS :=
  {| runtime_tmpdir := None; contents_subdirectory := None;
     hide_console := 0; disable_windowed_traceback := 0;
     macos_argv_emulation := 0; ignore_signals := 0 |}.

Definition set_nogil_enabled (v : Z) (c : PYI_CONTEXT) : PYI_CONTEXT :=
  {| argv := argv c; argv_w := argv_w c; pyi_argv := pyi_argv c;
     executable_filename := executable_filename c;
     archive_filename := archive_filename c; archive := archive c;
     has_splash := has_splash c; suppress_splash := suppress_splash c;
     is_onefile := is_onefile c; process_level := process_level c;
     parent_process_level := parent_process_level c;
     application_home_dir := application_home_dir c;
     dylib_python := dylib_python c; nogil_enabled := v;
     dynamic_loader_filename := dynamic_loader_filename c |}.

Definition set_runtime_tmpdir (v : option string) (o : BOOTLOADER_OPTIONS) :=
  {| runtime_tmpdir := v; contents_subdirectory := contents_subdirectory o;
     hide_console := hide_console o;
     disable_windowed_traceback := disable_windowed_traceback o;
     macos_argv_emulation := macos_argv_emulation o;
     ignore_signals := ignore_signals o |}.

Definition set_contents_subdirectory (v : option string) (o : BOOTLOADER_OPTIONS) :=
  {| runtime_tmpdir := runtime_tmpdir o; contents_subdirectory := v;
     hide_console := hide_console o;
     disable_windowed_traceback := disable_windowed_traceback o;
     macos_argv_emulation := macos_argv_emulation o;
     ignore_signals := ignore_signals o |}.

Definition set_hide_console (v : Z) (o : BOOTLOADER_OPTIONS) :=
  {| runtime_tmpdir := runtime_tmpdir o;
     contents_subdirectory := contents_subdirectory o;
     hide_console := v;
     disable_windowed_traceback := disable_windowed_traceback o;
     macos_argv_emulation := macos_argv_emulation o;
     ignore_signals := ignore_signals o |}.

Definition set_disable_windowed_traceback (v : Z) (o : BOOTLOADER_OPTIONS) :=
  {| runtime_tmpdir := runtime_tmpdir o;
     contents_subdirectory := contents_subdirectory o;
     hide_console := hide_console o;
     disable_windowed_traceback := v;
     macos_argv_emulation := macos_argv_emulation o;
     ignore_signals := ignore_signals o |}.

Definition set_macos_argv_emulation (v : Z) (o : BOOTLOADER_OPTIONS) :=
  {| runtime_tmpdir := runtime_tmpdir o;
     contents_subdirectory := contents_subdirectory o;
     hide_console := hide_console o;
     disable_windowed_traceback := disable_windowed_traceback o;
     macos_argv_emulation := v;
     ignore_signals := ignore_signals o |}.

Definition set_ignore_signals (v : Z) (o : BOOTLOADER_OPTIONS) :=
  {| runtime_tmpdir := runtime_tmpdir o;
     contents_subdirectory := contents_subdirectory o;
     hide_console := hide_console o;
     disable_windowed_traceback := disable_windowed_traceback o;
     macos_argv_emulation := macos_argv_emulation o;
     ignore_signals := v |}.

Section Read.

(** The build: the platform, and whether the bootloader is built without
    a console ([WINDOWED]). *)
Variable target : platform.
Variable WINDOWED : bool.

(** The zero-terminated string that starts behind the terminator of the
    name of an entry: the padding of the entry, or what lies behind it in
    the buffer of the TOC. *)
Variable after_name : TOC_ENTRY -> string.

(** [toc_entry->name + n]: the rest of the name from its [n]-th character
    on. The function adds the length of an option name plus one after
    [strncmp] found the option name at the start, so [n] is at most one
    past the terminator; there the pointer is at the string behind the
    name. *)
Definition name_from (n : nat) (toc_entry : TOC_ENTRY) : string :=
  if (n <=? String.length (name toc_entry))%nat
  then str_from n (name toc_entry)
  else after_name toc_entry.

Definition is_darwin : bool :=
  match target with Darwin => true | _ => false end.

(** The value of [pyi-hide-console]. *)
Definition hide_console_value (option_value : string) : Z :=
  if strcmp_eq option_value HIDE_CONSOLE_OPTION_HIDE_EARLY then
    PYI_HIDE_CONSOLE_HIDE_EARLY
  else if strcmp_eq option_value HIDE_CONSOLE_OPTION_MINIMIZE_EARLY then
    PYI_HIDE_CONSOLE_MINIMIZE_EARLY
  else if strcmp_eq option_value HIDE_CONSOLE_OPTION_HIDE_LATE then
    PYI_HIDE_CONSOLE_HIDE_LATE
  else if strcmp_eq option_value HIDE_CONSOLE_OPTION_MINIMIZE_LATE then
    PYI_HIDE_CONSOLE_MINIMIZE_LATE
  else PYI_HIDE_CONSOLE_UNUSED.

(** The body of the loop for one TOC entry. Only [pyi-python-flag] and
    the options that exist on the build end the iteration with
    [continue]; the two string options fall through to the tests after
    them. *)
Definition read_entry (toc_entry : TOC_ENTRY)
    (st : PYI_CONTEXT * BOOTLOADER_OPTIONS)
  : PYI_CONTEXT * BOOTLOADER_OPTIONS :=
  let '(pyi_ctx, o) := st in
  if negb (typecode_eqb (entry_typecode toc_entry) ARCHIVE_ITEM_RUNTIME_OPTION)
  then st
  else if strncmp_eq (name toc_entry) "pyi-python-flag" 15 then
    let flag_name := name_from 16 toc_entry in
    if strncmp_eq flag_name "Py_GIL_DISABLED" 15
    then (set_nogil_enabled 1 pyi_ctx, o)
    else st
  else
    let o :=
      if strncmp_eq (name toc_entry) "pyi-runtime-tmpdir" 18
      then set_runtime_tmpdir (Some (name_from 19 toc_entry)) o
      else o in
    let o :=
      if strncmp_eq (name toc_entry) "pyi-contents-directory" 22
      then set_contents_subdirectory (Some (name_from 23 toc_entry)) o
      else o in
    if is_darwin && WINDOWED
       && strncmp_eq (name toc_entry) "pyi-macos-argv-emulation" 24
    then (pyi_ctx, set_macos_argv_emulation 1 o)
    else if is_win32 target && negb WINDOWED
            && strncmp_eq (name toc_entry) "pyi-hide-console" 16
    then
      let option_value := name_from 17 toc_entry in
      (pyi_ctx, set_hide_console (hide_console_value option_value) o)
    else if WINDOWED
            && strncmp_eq (name toc_entry) "pyi-disable-windowed-traceback" 30
    then (pyi_ctx, set_disable_windowed_traceback 1 o)
    else if negb (is_win32 target)
            && strncmp_eq (name toc_entry) "pyi-bootloader-ignore-signals" 29
    then (pyi_ctx, set_ignore_signals 1 o)
    else (pyi_ctx, o).

Fixpoint read_entries (entries : list TOC_ENTRY)
    (st : PYI_CONTEXT * BOOTLOADER_OPTIONS)
  : PYI_CONTEXT * BOOTLOADER_OPTIONS :=
  match entries with
  | [] => st
  | e :: entries' => read_entries entries' (read_entry e st)
  end.

(** [_pyi_main_read_runtime_options] *)
Definition _pyi_main_read_runtime_options (pyi_ctx : PYI_CONTEXT)
    (o : BOOTLOADER_OPTIONS) : PYI_CONTEXT * BOOTLOADER_OPTIONS :=
  read_entries (toc (archive pyi_ctx)) (pyi_ctx, o).

End Read.

End BootloaderOptions.

Module BootloaderOptionWords.
Import CLib Target Archive Context BootloaderOptions.

(** A run-time option entry whose name starts with the [n] characters of
    [prefix]. *)
Definition names_option (prefix : string) (n : nat) (e : TOC_ENTRY) : bool :=
  typecode_eqb (entry_typecode e) ARCHIVE_ITEM_RUNTIME_OPTION
  && strncmp_eq (name e) prefix n.

(** An entry [pyi-python-flag Py_GIL_DISABLED]. *)
Definition names_gil_flag (after_name : TOC_ENTRY -> string) (e : TOC_ENTRY)
  : bool :=
  names_option "pyi-python-flag" 15 e
  && strncmp_eq (name_from after_name 16 e) "Py_GIL_DISABLED" 15.

(** The last entry of the TOC that names the option. *)
Definition last_option (prefix : string) (n : nat) (entries : list TOC_ENTRY)
  : option TOC_ENTRY :=
  last (List.filter (names_option prefix n) entries).

End BootloaderOptionWords.

(** ** What a process prepares: the decisions of [pyi_main] after the
       level is known *)

Module Preparation.
Import CLib Target Archive Context Main.

(** [pyi_main], lines 678-700: whether a process of a onefile
    application creates the temporary directory ([create_temp_dir]) or
    takes it from [_PYI_APPLICATION_HOME_DIR]. *)
Definition create_temp_dir (pyi_ctx : PYI_CONTEXT) : bool :=
  if process_level pyi_ctx =? PYI_PROCESS_LEVEL_PARENT_NEEDS_RESTART then true
  else if (process_level pyi_ctx =? PYI_PROCESS_LEVEL_PARENT)
          && (parent_process_level pyi_ctx =? PYI_PROCESS_LEVEL_PARENT_NEEDS_RESTART)
  then false
  else if process_level pyi_ctx =? PYI_PROCESS_LEVEL_PARENT then true
  else false.

(** [pyi_main], lines 898-901 (Cygwin) and 934-941 (the other POSIX
    systems): whether the process modifies [LD_LIBRARY_PATH] or its
    equivalent ([modify_ld_library_path]). The Windows and macOS builds
    have no such step. *)
Definition modify_ld_library_path (target : platform) (pyi_ctx : PYI_CONTEXT)
  : bool :=
  match target with
  | Win32 | Darwin => false
  | Cygwin =>
      (is_onefile pyi_ctx && (process_level pyi_ctx =? PYI_PROCESS_LEVEL_PARENT))
      || (negb (is_onefile pyi_ctx)
          && (process_level pyi_ctx =? PYI_PROCESS_LEVEL_MAIN))
  | Linux | OtherUnix =>
      (process_level pyi_ctx =? PYI_PROCESS_LEVEL_PARENT_NEEDS_RESTART)
      || ((process_level pyi_ctx =? PYI_PROCESS_LEVEL_PARENT)
          && negb (parent_process_level pyi_ctx
                   =? PYI_PROCESS_LEVEL_PARENT_NEEDS_RESTART))
  end.

(** [pyi_main], line 945: whether the process restarts itself through
    [execvp] ([needs_restart]); only the builds for the other POSIX
    systems have the step. *)
Definition needs_restart (target : platform) (pyi_ctx : PYI_CONTEXT) : bool :=
  match target with
  | Linux | OtherUnix =>
      process_level pyi_ctx =? PYI_PROCESS_LEVEL_PARENT_NEEDS_RESTART
  | _ => false
  end.

(** [_pyi_main_setup_splash_screen], lines 1129-1163: whether the process
    goes on to load the splash screen. *)
Definition splash_screen_is_set_up (pyi_ctx : PYI_CONTEXT) : bool :=
  if negb (has_splash pyi_ctx) then false
  else if suppress_splash pyi_ctx then false
  else if PYI_PROCESS_LEVEL_SUBPROCESS <=? process_level pyi_ctx then false
  else
    (is_onefile pyi_ctx && (process_level pyi_ctx =? PYI_PROCESS_LEVEL_PARENT))
    || (negb (is_onefile pyi_ctx)
        && (process_level pyi_ctx =? PYI_PROCESS_LEVEL_MAIN)).

(** [pyi_main], lines 992-998: whether the process takes the code path
    of the onefile parent, which unpacks the archive and spawns the
    child, rather than the one that runs the interpreter. *)
Definition is_onefile_parent (pyi_ctx : PYI_CONTEXT) : bool :=
  is_onefile pyi_ctx && (process_level pyi_ctx =? PYI_PROCESS_LEVEL_PARENT).

End Preparation.

(** ** Importing the bootstrap modules: [pyi_python_import_modules] *)

Module Bootstrap.
Import CLib Step Target Archive Context Python.

Local Open Scope step_scope.
Local Open Scope list_scope.






(** The messages among the events, in order. *)
Definition messages (new : list event) : list string :=
  omap (fun e => match e with Message text => Some text | Called _ => None end)
       new.

Section ImportModules.

Variable target : platform.

(** Modelled from the spec: [pyi_archive_extract] of the archive client
    yields the payload of the entry, or NULL. *)
Variable pyi_archive_extract : ARCHIVE -> TOC_ENTRY -> option (list Z).

(** The Python library. Whether a payload is unmarshalled into a code
    object, whether the code object runs as a module of the given name,
    and whether an exception is pending after an entry, may all depend
    on the modules executed before. *)
Variable PyMarshal_ReadObjectFromString_ok : list string -> list Z -> Z -> bool.
Variable PyImport_ExecCodeModule_ok : list string -> string -> list Z -> bool.
Variable PyErr_Occurred : list string -> string -> bool.









End ImportModules.

End Bootstrap.


(** * Verified properties *)

Import CLib Step Target Archive Context PyTypes Spec Examples.

Local Open Scope list_scope.

(** ** Decimal numerals

    What [fmt_u] prints reads back, digit by digit in base ten, as the
    number printed; [fmt_d] adds the sign. *)

Lemma digit_char_value (r : N) :
  (r < 10)%N -> digit_in 10 (digit_char r) = Some (Z.of_N r).
Proof.
  intros Hr.
  assert (r = 0 \/ r = 1 \/ r = 2 \/ r = 3 \/ r = 4 \/ r = 5 \/ r = 6 \/ r = 7
          \/ r = 8 \/ r = 9)%N as H by lia.
  repeat (destruct H as [-> | H]; [reflexivity |]). subst r. reflexivity.
Qed.

Lemma fmt_digits_value (fuel : nat) : forall (n : N) (acc : string),
  (n < 10 ^ N.of_nat fuel)%N ->
  exists k, 0 <= k /\ forall a,
    digits_value 10 (fmt_digits fuel n acc) a
    = digits_value 10 acc (a * 10 ^ k + Z.of_N n).
Proof.
  induction fuel as [|fuel IH]; intros n acc Hn.
  - exists 0. split; [lia |]. intros a. cbn in *.
    assert (n = 0%N) as -> by lia. f_equal. lia.
  - cbn [fmt_digits].
    assert (n mod 10 < 10)%N as Hr by (apply N.mod_lt; lia).
    pose proof (N.div_mod n 10 ltac:(lia)) as Hdm.
    destruct (N.eqb_spec (n / 10) 0) as [Hq | Hq].
    + exists 1. split; [lia |]. intros a. cbn [digits_value].
      rewrite (digit_char_value _ Hr). f_equal. lia.
    + destruct (IH (n / 10)%N (String (digit_char (n mod 10)) acc)) as (k & Hk & Hv).
      { apply N.Div0.div_lt_upper_bound.
        rewrite Nat2N.inj_succ, N.pow_succ_r' in Hn. lia. }
      exists (k + 1). split; [lia |]. intros a. rewrite Hv. cbn [digits_value].
      rewrite (digit_char_value _ Hr). f_equal.
      rewrite Z.pow_add_r by lia. lia.
Qed.

Lemma fmt_u_decimal (n : N) : digits_value 10 (fmt_u n) 0 = Z.of_N n.
Proof.
  unfold fmt_u.
  destruct (fmt_digits_value (S (N.to_nat (N.log2 n))) n "") as (k & _ & Hv).
  - rewrite Nat2N.inj_succ, N2Nat.id.
    destruct (N.eq_dec n 0%N) as [-> | Hn]; [reflexivity |].
    pose proof (N.log2_spec n ltac:(lia)) as [_ Hlt].
    eapply N.lt_le_trans; [exact Hlt |].
    apply N.pow_le_mono_l. lia.
  - rewrite Hv. cbn. lia.
Qed.

Lemma fmt_d_decimal (z : Z) :
  fmt_d z
  = if z <? 0 then String "-" (fmt_u (Z.to_N (- z))) else fmt_u (Z.to_N z).
Proof. destruct z; reflexivity. Qed.

Example fmt_d_levels :
  fmt_d (-1) = "-1" /\ fmt_d 0 = "0" /\ fmt_d 1 = "1" /\ fmt_d 312 = "312".
Proof. repeat split. Qed.

(** ** Process roles *)

Section MainProperties.
Import Main Spec Examples.

Local Open Scope step_scope.

(** *** The switch over the parent level *)

(** C3. The [switch] of [pyi_main] assigns the level of the role table
    for every parent level, mode, splash eligibility and platform, and
    rejects every other parent level with an error message and -1. *)
Theorem process_level_follows_role_table :
  forall (target : platform) (ctx : PYI_CONTEXT) (w : world),
    pyi_main_process_level target ctx w =
    match role_table target (is_onefile ctx)
            (has_splash ctx && negb (suppress_splash ctx))
            (parent_process_level ctx) with
    | Some level => (Next (set_process_level level ctx), w)
    | None =>
        (Return (-1),
         {| env := env w;
            errors := errors w ++
              ["Invalid parent process level: " +:+ fmt_d (parent_process_level ctx)] |})
    end.
Proof.
  intros target ctx w.
  unfold pyi_main_process_level, role_table.
  destruct (parent_process_level ctx =? PYI_PROCESS_LEVEL_UNKNOWN) eqn:Hu.
  - destruct (is_onefile ctx), (win_mac_cygwin target),
      (has_splash ctx && negb (suppress_splash ctx)); reflexivity.
  - destruct (win_mac_cygwin target); cbn [negb andb].
    + destruct (parent_process_level ctx =? PYI_PROCESS_LEVEL_PARENT_NEEDS_RESTART) eqn:Hr.
      * apply Z.eqb_eq in Hr. rewrite Hr. reflexivity.
      * destruct (parent_process_level ctx =? PYI_PROCESS_LEVEL_PARENT); [reflexivity|].
        destruct (parent_process_level ctx =? PYI_PROCESS_LEVEL_MAIN); reflexivity.
    + destruct (parent_process_level ctx =? PYI_PROCESS_LEVEL_PARENT_NEEDS_RESTART).
      * destruct (is_onefile ctx); reflexivity.
      * destruct (parent_process_level ctx =? PYI_PROCESS_LEVEL_PARENT); [reflexivity|].
        destruct (parent_process_level ctx =? PYI_PROCESS_LEVEL_MAIN); reflexivity.
Qed.

(** *** Publishing the level *)

Lemma archive_flags_world ctx w :
  exists ctx', pyi_main_archive_flags ctx w = (Next ctx', w).
Proof.
  unfold pyi_main_archive_flags.
  match goal with |- context [if ?b then _ else _] => destruct b end.
  - unfold bind, pyi_getenv. destruct (env w !! _); eexists; reflexivity.
  - eexists; reflexivity.
Qed.

Ltac wiped ok target :=
  destruct (ok _ _); destruct (is_linux target); cbn; eexists;
  (split; [reflexivity | split; [reflexivity |]]); right; cbn;
  repeat (rewrite ?lookup_delete_eq; try (rewrite lookup_delete_ne by done));
  done.

Lemma reset_environment_level target ok ctx w :
  exists w1, pyi_main_reset_environment target ok ctx w = (Next tt, w1)
    /\ errors w1 = errors w
    /\ (env w1 !! "_PYI_PARENT_PROCESS_LEVEL" = env w !! "_PYI_PARENT_PROCESS_LEVEL" \/ env w1 !! "_PYI_PARENT_PROCESS_LEVEL" = None).
Proof.
  unfold pyi_main_reset_environment, bind, pyi_getenv, pyi_unsetenv, pyi_setenv,
    ret, with_env.
  destruct (env w !! "PYINSTALLER_RESET_ENVIRONMENT") as [v|] eqn:Hv; cbn.
  - destruct (strcmp_eq v "1"); cbn; [wiped ok target |].
    rewrite lookup_delete_ne by done.
    destruct (env w !! "_PYI_ARCHIVE_FILE") as [a|]; cbn; [| wiped ok target].
    destruct (strcmp_eq _ a); cbn; [| wiped ok target].
    eexists; split; [reflexivity | split; [reflexivity |]].
    left. cbn. by rewrite lookup_delete_ne.
  - destruct (env w !! "_PYI_ARCHIVE_FILE") as [a|]; cbn; [| wiped ok target].
    destruct (strcmp_eq _ a); cbn; [| wiped ok target].
    eexists; split; [reflexivity | split; [reflexivity |]]. by left.
Qed.

Lemma parent_level_cases LONG_MAX ctx w :
  (exists w', pyi_main_parent_process_level LONG_MAX ctx w = (Return (-1), w'))
  \/ (exists l,
        pyi_main_parent_process_level LONG_MAX ctx w
          = (Next (set_parent_process_level l ctx), w)
        /\ (env w !! "_PYI_PARENT_PROCESS_LEVEL" = None -> l = PYI_PROCESS_LEVEL_UNKNOWN)).
Proof.
  unfold pyi_main_parent_process_level, bind, pyi_getenv.
  destruct (env w !! "_PYI_PARENT_PROCESS_LEVEL") as [[|c v]|]; cbn.
  - right. eexists; split; [reflexivity | done].
  - destruct (strtol LONG_MAX (String c v)) as [value [|e endptr]]; cbn.
    + right. eexists; split; [reflexivity | done].
    + left. eexists; reflexivity.
  - right. eexists; split; [reflexivity | done].
Qed.

Lemma process_level_cases target ctx w :
  (exists w', pyi_main_process_level target ctx w = (Return (-1), w'))
  \/ (exists l,
        pyi_main_process_level target ctx w = (Next (set_process_level l ctx), w)
        /\ ((l = PYI_PROCESS_LEVEL_SUBPROCESS
               /\ parent_process_level ctx = PYI_PROCESS_LEVEL_MAIN)
            \/ l = PYI_PROCESS_LEVEL_PARENT_NEEDS_RESTART
            \/ l = PYI_PROCESS_LEVEL_PARENT
            \/ l = PYI_PROCESS_LEVEL_MAIN)).
Proof.
  unfold pyi_main_process_level.
  destruct (parent_process_level ctx =? PYI_PROCESS_LEVEL_UNKNOWN).
  { right. destruct (is_onefile ctx), (win_mac_cygwin target),
      (has_splash ctx && negb (suppress_splash ctx));
      eexists; (split; [reflexivity | tauto]). }
  destruct (negb (win_mac_cygwin target)
            && (parent_process_level ctx =? PYI_PROCESS_LEVEL_PARENT_NEEDS_RESTART)).
  { right. destruct (is_onefile ctx); eexists; (split; [reflexivity | tauto]). }
  destruct (parent_process_level ctx =? PYI_PROCESS_LEVEL_PARENT).
  { right. eexists; (split; [reflexivity | tauto]). }
  destruct (parent_process_level ctx =? PYI_PROCESS_LEVEL_MAIN) eqn:Hm.
  { right. apply Z.eqb_eq in Hm. eexists; (split; [reflexivity | tauto]). }
  left. eexists. reflexivity.
Qed.

(** Looking for the executable and the archive leaves the environment
    alone, and writes nothing when both are found. *)
Lemma resolve_realpath_world os path ctx w :
  exists rc c, resolve_realpath os path ctx w = (Next (rc, c), w)
               /\ (rc = 0 \/ rc = -1).
Proof.
  unfold resolve_realpath. destruct (realpath os path); eexists _, _;
    (split; [reflexivity | auto]).
Qed.

Lemma find_program_world target os name w :
  exists found, _pyi_find_progam_in_search_path target os name w = (Next found, w).
Proof.
  unfold _pyi_find_progam_in_search_path, bind, pyi_getenv.
  destruct (env w !! "PATH"); eexists; reflexivity.
Qed.

Ltac realpath_case :=
  match goal with
  | |- context [resolve_realpath ?os ?path ?c ?w] =>
      let rc := fresh "rc" in let c' := fresh "c" in let Hrc := fresh "Hrc" in
      destruct (resolve_realpath_world os path c w) as (rc & c' & -> & Hrc);
      split; [reflexivity |]; intros ? ? [= <- _]; destruct Hrc; auto
  end.

Lemma resolve_executable_world target PATH_MAX INT_MAX os ctx w :
  let r := _pyi_main_resolve_executable target PATH_MAX INT_MAX os ctx w in
  env r.2 = env w
  /\ forall rc c, r.1 = Next (rc, c) -> (rc = 0 /\ r.2 = w) \/ rc = -1.
Proof.
  assert (forall c0,
    let r := _pyi_resolve_executable_posix target PATH_MAX INT_MAX os c0 w in
    env r.2 = env w
    /\ forall rc c, r.1 = Next (rc, c) -> (rc = 0 /\ r.2 = w) \/ rc = -1) as Hposix.
  { intros c0. unfold _pyi_resolve_executable_posix. cbn zeta.
    destruct (if is_linux target then _ else _) as [is_loader|]; [| by split].
    destruct (negb _ && negb _).
    { split; [reflexivity |]. intros rc c [= <- _]. by left. }
    destruct (Context.argv _) as [|argv0 ?]; [by split |].
    destruct (strchr_found _ _); [realpath_case |].
    unfold bind. destruct (find_program_world target os argv0 w) as [found ->].
    destruct found as [program_path|]; realpath_case. }
  unfold _pyi_main_resolve_executable. destruct target; try apply Hposix.
  - unfold _pyi_resolve_executable_win32, bind, ret, PYI_ERROR. cbn zeta.
    destruct (GetModuleFileNameW os) as [modulename_w|];
      [| split; [reflexivity | intros rc c [= <- _]; auto]].
    destruct (pyi_win32_is_symlink os modulename_w).
    + destruct (pyi_win32_realpath os modulename_w) as [resolved|];
        [| split; [reflexivity | intros rc c [= <- _]; auto]].
      destruct (pyi_win32_wcs_to_utf8_path os _);
        (split; [reflexivity | intros rc c [= <- _]; auto]).
    + destruct (pyi_win32_wcs_to_utf8_path os _);
        (split; [reflexivity | intros rc c [= <- _]; auto]).
  - unfold _pyi_resolve_executable_macos, bind, ret, PYI_ERROR.
    destruct (_NSGetExecutablePath os) as [program_path|];
      [| split; [reflexivity | intros rc c [= <- _]; auto]].
    destruct (realpath os program_path);
      (split; [reflexivity | intros rc c [= <- _]; auto]).
Qed.

Lemma resolve_pkg_archive_world target PATH_MAX os ctx w :
  let r := _pyi_main_resolve_pkg_archive target PATH_MAX os ctx w in
  env r.2 = env w
  /\ forall rc c, r.1 = Next (rc, c) -> (rc = 0 /\ r.2 = w) \/ rc = -1.
Proof.
  unfold _pyi_main_resolve_pkg_archive, bind, ret, PYI_ERROR, undefined.
  cbn zeta.
  destruct (pyi_archive_open os (executable_filename ctx)) as [embedded|].
  { split; [reflexivity |]. intros rc c [= <- _]. by left. }
  destruct (negb (_pyi_allow_pkg_sideload os (executable_filename ctx) =? 0)).
  { split; [reflexivity |]. intros rc c [= <- _]. by right. }
  destruct (is_win32 target).
  - destruct (_ <? 3)%nat; [by split |].
    destruct (pyi_archive_open os _);
      (split; [reflexivity | intros rc c [= <- _]; auto]).
  - destruct (too_long _ _);
      [split; [reflexivity | intros rc c [= <- _]; auto] |].
    destruct (pyi_archive_open os _);
      (split; [reflexivity | intros rc c [= <- _]; auto]).
Qed.

Lemma resolve_world target PATH_MAX INT_MAX os ctx w :
  let r := pyi_main_resolve target PATH_MAX INT_MAX os ctx w in
  env r.2 = env w /\ forall c, r.1 = Next c -> r.2 = w.
Proof.
  unfold pyi_main_resolve, bind. cbn zeta.
  pose proof (resolve_executable_world target PATH_MAX INT_MAX os ctx w) as He.
  cbn zeta in He.
  destruct (_pyi_main_resolve_executable _ _ _ _ _ _) as [[[rc1 c1] | | |] w1];
    cbn in He |- *; destruct He as [Henv He]; try (split; [exact Henv | done]).
  destruct (He rc1 c1 eq_refl) as [[-> ->] | ->]; cbn; [| split; [exact Henv | done]].
  pose proof (resolve_pkg_archive_world target PATH_MAX os c1 w) as Hp.
  cbn zeta in Hp.
  destruct (_pyi_main_resolve_pkg_archive _ _ _ _ _) as [[[rc2 c2] | | |] w2];
    cbn in Hp |- *; destruct Hp as [Henv2 Hp]; try (split; [exact Henv2 | done]).
  destruct (Hp rc2 c2 eq_refl) as [[-> ->] | ->]; cbn; split; done.
Qed.

(** From the archive to the level: the messages, and what becomes of
    [_PYI_PARENT_PROCESS_LEVEL]. *)
Lemma assign_role_level target LONG_MAX ok ctx w ctx' w' :
  pyi_main_assign_role target LONG_MAX ok ctx w = (Next ctx', w') ->
  errors w' = errors w
  /\ (PYI_PROCESS_LEVEL_SUBPROCESS <= process_level ctx' ->
      env w' !! "_PYI_PARENT_PROCESS_LEVEL" = env w !! "_PYI_PARENT_PROCESS_LEVEL").
Proof.
  unfold pyi_main_assign_role, bind.
  destruct (archive_flags_world ctx w) as [c3 ->].
  destruct (reset_environment_level target ok c3 w) as (w1 & -> & Herr & Hlevel).
  destruct (parent_level_cases LONG_MAX c3 w1) as [[w2 ->] | (l & -> & Hl)];
    [discriminate |].
  destruct (process_level_cases target (set_parent_process_level l c3) w1)
    as [[w2 ->] | (l' & -> & Hl')]; [discriminate |].
  intros [= <- <-]. split; [exact Herr |]. cbn.
  destruct Hlevel as [-> | Hnone]; [done |].
  specialize (Hl Hnone). subst l. intros Hsub.
  unfold PYI_PROCESS_LEVEL_SUBPROCESS, PYI_PROCESS_LEVEL_PARENT_NEEDS_RESTART,
    PYI_PROCESS_LEVEL_PARENT, PYI_PROCESS_LEVEL_MAIN, PYI_PROCESS_LEVEL_UNKNOWN in *.
  cbn in Hl'. destruct Hl' as [[-> Hp] | [-> | [-> | ->]]]; [discriminate Hp | lia ..].
Qed.

(** C6. Once [pyi_main] has found its executable and archive and has
    assigned the level, what it does next is decided by the level: below
    [SUBPROCESS] it sets [_PYI_PARENT_PROCESS_LEVEL] to the decimal text
    of the level and goes on with the rest of its body - which holds
    every place where a child is spawned or the process restarts itself -
    or, where the system refuses the variable, returns -1 with a message
    without running that rest; at [SUBPROCESS] it goes on at once, the
    variable holding what it held when [pyi_main] was entered. *)
Theorem level_published_before_rest :
  forall (target : platform) (LONG_MAX : Z) (ok : string -> string -> bool)
         (PATH_MAX INT_MAX : Z) (os : SYSTEM)
         (pyi_ctx ctx : PYI_CONTEXT) (w w1 : world),
    (resolved <- pyi_main_resolve target PATH_MAX INT_MAX os pyi_ctx;;
     pyi_main_assign_role target LONG_MAX ok resolved) w = (Next ctx, w1) ->
    let level := process_level ctx in
    let published :=
      with_env (<["_PYI_PARENT_PROCESS_LEVEL" := fmt_d level]> (env w1)) w1 in
    (forall rest : PYI_CONTEXT -> M world Z,
        pyi_main target LONG_MAX ok PATH_MAX INT_MAX os pyi_ctx rest w
        = if level <? PYI_PROCESS_LEVEL_SUBPROCESS then
            if ok "_PYI_PARENT_PROCESS_LEVEL" (fmt_d level)
            then rest ctx published
            else (Return (-1),
                  {| env := env w1;
                     errors := errors w1 ++
                       ["Failed to set _PYI_PARENT_PROCESS_LEVEL environment variable!"] |})
          else rest ctx w1)
    /\ env published !! "_PYI_PARENT_PROCESS_LEVEL" = Some (fmt_d level)
    /\ (PYI_PROCESS_LEVEL_SUBPROCESS <= level ->
        env w1 !! "_PYI_PARENT_PROCESS_LEVEL"
        = env w !! "_PYI_PARENT_PROCESS_LEVEL").
Proof.
  intros target LONG_MAX ok PATH_MAX INT_MAX os pyi_ctx ctx w w1 Hrole level published.
  unfold bind in Hrole.
  pose proof (resolve_world target PATH_MAX INT_MAX os pyi_ctx w) as Hres.
  cbn zeta in Hres.
  destruct (pyi_main_resolve target PATH_MAX INT_MAX os pyi_ctx w)
    as [[c0 | | |] w0] eqn:E0; try discriminate.
  cbn in Hres. destruct Hres as [_ Hw0]. specialize (Hw0 c0 eq_refl). subst w0.
  split; [| split].
  - intros rest. unfold pyi_main, bind. rewrite E0, Hrole.
    unfold pyi_main_publish_process_level, bind, pyi_setenv. fold level.
    destruct (level <? PYI_PROCESS_LEVEL_SUBPROCESS); [| reflexivity].
    destruct (ok _ _); reflexivity.
  - apply lookup_insert_eq.
  - apply (assign_role_level target LONG_MAX ok c0 w ctx w1 Hrole).
Qed.

Lemma level_published_before_rest_witness :
  let start := sample_context (sample_dylib 312 false) 0 [] in
  let os := sample_system (archive start) in
  let w := {| env := {[ "_PYI_ARCHIVE_FILE" := "/opt/app/run";
                        "_PYI_PARENT_PROCESS_LEVEL" := "0" ]};
              errors := [] |} in
  exists ctx w1,
    (resolved <- pyi_main_resolve Linux 4096 2147483647 os start;;
     pyi_main_assign_role Linux 2147483647 (fun _ _ => true) resolved) w
    = (Next ctx, w1)
    /\ process_level ctx = PYI_PROCESS_LEVEL_MAIN
    /\ forall rest : PYI_CONTEXT -> M world Z,
         pyi_main Linux 2147483647 (fun _ _ => true) 4096 2147483647 os start rest w
         = rest ctx (with_env (<["_PYI_PARENT_PROCESS_LEVEL" := "1"]> (env w1)) w1).
Proof.
  intros start os w. eexists _, _. split; [vm_compute; reflexivity |].
  split; [reflexivity |]. intros rest.
  match goal with
  | |- _ = rest ?c ?v =>
      destruct (level_published_before_rest Linux 2147483647 (fun _ _ => true)
                  4096 2147483647 os start c w
                  ltac:(match type of v with world =>
                          match v with with_env _ ?w1 => exact w1 end end)
                  ltac:(vm_compute; reflexivity)) as [Hrun _]
  end.
  exact (Hrun rest).
Defined.

(** *** Reading the parent level *)

Lemma strtol_digits_stop base ds c tl acc seen :
  all_digits base ds = true -> is_digit base c = false ->
  strtol_digits base (ds +:+ String c tl) acc seen
  = (digits_value base ds acc, seen || negb (String.eqb ds ""), String c tl).
Proof.
  revert acc seen. induction ds as [|d ds IH]; intros acc seen Hds Hc.
  - change ("" +:+ String c tl) with (String c tl). cbn.
    unfold is_digit in Hc. destruct (digit_in base c); [discriminate |].
    by rewrite orb_false_r.
  - cbn in Hds. apply andb_true_iff in Hds as [Hd Hds].
    change (String d ds +:+ String c tl) with (String d (ds +:+ String c tl)).
    cbn. unfold is_digit in Hd. destruct (digit_in base d); [| discriminate].
    rewrite IH by done. cbn. by rewrite !orb_true_r.
Qed.

Lemma strtol_digits_all base ds acc seen :
  all_digits base ds = true ->
  strtol_digits base ds acc seen
  = (digits_value base ds acc, seen || negb (String.eqb ds ""), "").
Proof.
  revert acc seen. induction ds as [|d ds IH]; intros acc seen Hds.
  - cbn. by rewrite orb_false_r.
  - cbn in Hds. apply andb_true_iff in Hds as [Hd Hds].
    cbn. unfold is_digit in Hd. destruct (digit_in base d); [| discriminate].
    rewrite IH by done. cbn. by rewrite !orb_true_r.
Qed.

Lemma digit_not_space d : is_digit 10 d = true -> isspace d = false.
Proof.
  destruct d as [[] [] [] [] [] [] [] []]; vm_compute; congruence.
Qed.

Lemma digit_not_sign d s :
  is_digit 10 d = true -> strtol_sign (String d s) = (false, String d s).
Proof.
  destruct d as [[] [] [] [] [] [] [] []]; intros H; try reflexivity;
    vm_compute in H; discriminate H.
Qed.

Lemma nonzero_is_decimal d s :
  Ascii.eqb d "0" = false -> strtol_base0 (String d s) = (10, String d s).
Proof.
  destruct d as [[] [] [] [] [] [] [] []]; intros H; try reflexivity;
    vm_compute in H; discriminate H.
Qed.

Lemma strtol_decimal_prefix LONG_MAX d ds c tl :
  is_digit 10 d = true -> Ascii.eqb d "0" = false ->
  all_digits 10 ds = true -> is_digit 10 c = false ->
  strtol LONG_MAX (String d ds +:+ String c tl)
  = (clamp_long LONG_MAX (digits_value 10 (String d ds) 0), String c tl).
Proof.
  intros Hd H0 Hds Hc.
  assert (strtol_digits 10 (String d ds +:+ String c tl) 0 false
          = (digits_value 10 (String d ds) 0, true, String c tl)) as E.
  { rewrite strtol_digits_stop; cbn; rewrite ?Hd; done. }
  change (String d ds +:+ String c tl) with (String d (ds +:+ String c tl)) in *.
  unfold strtol. cbn [skip_space]. rewrite (digit_not_space d Hd).
  rewrite (digit_not_sign d _ Hd), (nonzero_is_decimal d _ H0), E. reflexivity.
Qed.

Lemma strtol_zero_start s :
  strtol_sign (skip_space (String "0" s)) = (false, String "0" s).
Proof. reflexivity. Qed.

Lemma strtol_hex LONG_MAX h hs :
  all_digits 16 (String h hs) = true ->
  strtol LONG_MAX (String "0" (String "x" (String h hs)))
  = (clamp_long LONG_MAX (digits_value 16 (String h hs) 0), "").
Proof.
  intros Hall. unfold strtol. rewrite strtol_zero_start.
  assert (is_digit 16 h = true) as Hh
    by (cbn in Hall; apply andb_true_iff in Hall; tauto).
  assert (strtol_base0 (String "0" (String "x" (String h hs))) = (16, String h hs)) as ->.
  { cbv beta iota delta [strtol_base0]. by rewrite Hh. }
  rewrite strtol_digits_all by done. reflexivity.
Qed.

Lemma octal_digit_not_x c :
  is_digit 8 c = true -> Ascii.eqb c "x" || Ascii.eqb c "X" = false.
Proof.
  destruct c as [[] [] [] [] [] [] [] []]; vm_compute; congruence.
Qed.

Lemma strtol_octal LONG_MAX os :
  all_digits 8 os = true ->
  strtol LONG_MAX (String "0" os)
  = (clamp_long LONG_MAX (digits_value 8 os 0), "").
Proof.
  intros Hall. unfold strtol. rewrite strtol_zero_start.
  assert (strtol_base0 (String "0" os) = (8, String "0" os)) as ->.
  { unfold strtol_base0. destruct os as [|x [|h s]]; try reflexivity.
    cbn in Hall. apply andb_true_iff in Hall as [Hx _].
    by rewrite (octal_digit_not_x x Hx). }
  cbn [strtol_digits]. replace (digit_in 8 "0") with (Some 0) by reflexivity.
  rewrite strtol_digits_all by done. reflexivity.
Qed.

(** C10. An unset and an empty [_PYI_PARENT_PROCESS_LEVEL] both give the
    parent level UNKNOWN; a value of which [strtol] leaves a character
    unread - such as decimal digits followed by a character that is not
    one - makes [pyi_main] return -1 at once, whatever [rest] of its body
    follows; values in hexadecimal ([0x...]) and octal ([0...]) notation
    are read in full and accepted. *)
Theorem parent_level_from_environment :
  forall (LONG_MAX : Z) (ctx : PYI_CONTEXT) (w : world),
    let unset := with_env (delete "_PYI_PARENT_PROCESS_LEVEL" (env w)) w in
    let set v := with_env (<["_PYI_PARENT_PROCESS_LEVEL" := v]> (env w)) w in
    let parsed value v :=
      (Next (set_parent_process_level (to_schar (clamp_long LONG_MAX value)) ctx),
       set v) in
    pyi_main_parent_process_level LONG_MAX ctx unset
      = (Next (set_parent_process_level PYI_PROCESS_LEVEL_UNKNOWN ctx), unset)
    /\ pyi_main_parent_process_level LONG_MAX ctx (set "")
      = (Next (set_parent_process_level PYI_PROCESS_LEVEL_UNKNOWN ctx), set "")
    /\ (forall v (A : Type) (rest : PYI_CONTEXT -> M world A),
          (strtol LONG_MAX v).2 <> "" ->
          (ctx' <- pyi_main_parent_process_level LONG_MAX ctx;; rest ctx') (set v)
          = (Return (-1),
             {| env := env (set v);
                errors := errors w ++
                  ["Invalid value in _PYI_PARENT_PROCESS_LEVEL: " +:+ v] |}))
    /\ (forall d ds c tl,
          is_digit 10 d = true -> Ascii.eqb d "0" = false ->
          all_digits 10 ds = true -> is_digit 10 c = false ->
          (strtol LONG_MAX (String d ds +:+ String c tl)).2 = String c tl)
    /\ (forall h hs,
          all_digits 16 (String h hs) = true ->
          pyi_main_parent_process_level LONG_MAX ctx (set ("0x" +:+ String h hs))
          = parsed (digits_value 16 (String h hs) 0) ("0x" +:+ String h hs))
    /\ (forall os,
          all_digits 8 os = true ->
          pyi_main_parent_process_level LONG_MAX ctx (set (String "0" os))
          = parsed (digits_value 8 os 0) (String "0" os)).
Proof.
  intros LONG_MAX ctx w unset set parsed.
  assert (forall v, env (set v) !! "_PYI_PARENT_PROCESS_LEVEL" = Some v) as Hset
    by (intros v; apply lookup_insert_eq).
  unfold pyi_main_parent_process_level, bind, pyi_getenv.
  repeat split.
  - unfold unset. cbn. by rewrite lookup_delete_eq.
  - by rewrite Hset.
  - intros v A rest Hv. unfold bind. rewrite Hset. destruct v as [|c v].
    + exfalso. apply Hv. reflexivity.
    + destruct (strtol LONG_MAX (String c v)) as [value [|e endptr]]; [done |].
      reflexivity.
  - intros d ds c tl Hd H0 Hds Hc. by rewrite strtol_decimal_prefix.
  - intros h hs Hall. rewrite Hset.
    change ("0x" +:+ String h hs) with (String "0" (String "x" (String h hs))).
    by rewrite strtol_hex.
  - intros os Hall. rewrite Hset. by rewrite strtol_octal.
Qed.

Lemma parent_level_from_environment_witness :
  let w := {| env := ∅; errors := [] |} in
  let ctx := sample_context (sample_dylib 312 false) 0 [] in
  let set v := with_env (<["_PYI_PARENT_PROCESS_LEVEL" := v]> (env w)) w in
  (ctx' <- pyi_main_parent_process_level 2147483647 ctx;;
   pyi_main_process_level Linux ctx') (set "12abc")
    = (Return (-1),
       {| env := env (set "12abc");
          errors := ["Invalid value in _PYI_PARENT_PROCESS_LEVEL: 12abc"] |})
  /\ (strtol 2147483647 "12abc").2 = "abc"
  /\ pyi_main_parent_process_level 2147483647 ctx (set "0x1f")
    = (Next (set_parent_process_level 31 ctx), set "0x1f")
  /\ pyi_main_parent_process_level 2147483647 ctx (set "017")
    = (Next (set_parent_process_level 15 ctx), set "017").
Proof.
  intros w ctx set.
  destruct (parent_level_from_environment 2147483647 ctx w)
    as (_ & _ & H3 & H4 & H5 & H6).
  split; [| split; [| split]].
  - apply (H3 "12abc" _ (pyi_main_process_level Linux)). vm_compute. discriminate.
  - apply (H4 "1"%char "2" "a"%char "bc"); reflexivity.
  - apply (H5 "1"%char "f"). reflexivity.
  - apply (H6 "17"). reflexivity.
Defined.

End MainProperties.

(** ** Run-time options *)

Section OptionsProperties.
Import RuntimeOptions Spec Examples.

(** *** X-flags and the pre-init fields *)

Lemma match_strip_prefix name flag :
  (if strncmp_eq flag name (String.length name)
   then Some (str_from (String.length name) flag) else None)
  = strip_prefix name flag.
Proof.
  revert flag. induction name as [|a name IH]; intros flag; [reflexivity |].
  destruct flag as [|b flag]; [reflexivity |]. cbn.
  destruct (Ascii.eqb b a); [apply IH | reflexivity].
Qed.

Lemma strip_prefix_self name flag :
  strip_prefix name flag = Some "" <-> flag = name.
Proof.
  revert flag. induction name as [|a name IH]; intros flag; cbn.
  - split; [by intros [= ->] | by intros ->].
  - destruct flag as [|b flag]; [split; discriminate |].
    destruct (Ascii.eqb_spec b a) as [-> | Hne].
    + rewrite IH. split; [by intros -> | by intros [= ->]].
    + split; [discriminate | intros [= -> _]; done].
Qed.

Lemma parse_xflag_toggle flag name field :
  _pyi_match_and_parse_xflag flag name field = xflag_toggle name flag field.
Proof.
  unfold _pyi_match_and_parse_xflag, _pyi_match_key_value_flag, xflag_toggle,
    xflag_value.
  pose proof (match_strip_prefix name flag) as Hm.
  pose proof (strip_prefix_self name flag) as Hs.
  destruct (strncmp_eq flag name (String.length name)); cbn [negb].
  - rewrite <- Hm in *. destruct (str_from (String.length name) flag) as [|c v].
    + rewrite (proj1 Hs eq_refl), String.eqb_refl. reflexivity.
    + destruct (String.eqb_spec flag name) as [E | _].
      { apply Hs in E. discriminate E. }
      destruct (Ascii.eqb c "=" || Ascii.eqb c " "); [| reflexivity].
      destruct v; reflexivity.
  - rewrite <- Hm in *. destruct (String.eqb_spec flag name) as [E | _]; [| reflexivity].
    apply Hs in E. discriminate E.
Qed.

Example toggle_bare_name : xflag_toggle "utf8" "utf8" (-1) = 1.
Proof. reflexivity. Qed.

Example toggle_value_zero : xflag_toggle "utf8" "utf8=0" 1 = 0.
Proof. reflexivity. Qed.

Example toggle_value_one : xflag_toggle "dev" "dev=1" 0 = 1.
Proof. reflexivity. Qed.

Example toggle_other_value : xflag_toggle "dev" "dev=yes" 0 = 1.
Proof. reflexivity. Qed.

Example toggle_longer_name : xflag_toggle "utf8" "utf8_strict" (-1) = -1.
Proof. reflexivity. Qed.

(** *** The first loop *)

Lemma flag_prefix n a b :
  strncmp_eq n (String a (String b "")) 2 = true ->
  exists r, n = String a (String b r).
Proof.
  destruct n as [|x [|y r]]; cbn; try discriminate.
  - destruct (Ascii.eqb x a); discriminate.
  - destruct (Ascii.eqb_spec x a) as [-> |]; [| discriminate].
    destruct (Ascii.eqb_spec y b) as [-> |]; [| discriminate].
    intros _. by exists r.
Qed.

Lemma scan_entry_effect U e opts cw cx :
  exists v u o uhs hs,
    scan_entry U e (opts, cw, cx)
    = (with_scalars v u o uhs hs (utf8_mode opts) (dev_mode opts) opts,
       (cw + b2n (is_flag_entry "W " e))%nat,
       (cx + b2n (is_flag_entry "X " e))%nat).
Proof.
  assert (forall c1 c2 : nat, exists v u o uhs hs,
    (opts, c1, c2)
    = (with_scalars v u o uhs hs (utf8_mode opts) (dev_mode opts) opts, c1, c2)) as Hsame.
  { intros. exists (verbose opts), (unbuffered opts), (optimize opts),
      (use_hash_seed opts), (hash_seed opts). by destruct opts. }
  destruct e as [tc n off len]. unfold scan_entry, is_flag_entry. cbn [entry_typecode name].
  destruct (typecode_eqb tc ARCHIVE_ITEM_RUNTIME_OPTION); cbn [negb andb b2n].
  2: { rewrite !Nat.add_0_r. apply Hsame. }
  destruct (strncmp_eq n "W " 2) eqn:HW.
  { apply flag_prefix in HW as [r ->]. cbn. rewrite Nat.add_0_r.
    replace (cw + 1)%nat with (S cw) by lia. apply Hsame. }
  destruct (strncmp_eq n "X " 2) eqn:HX.
  { apply flag_prefix in HX as [r ->]. cbn. rewrite Nat.add_0_r.
    replace (cx + 1)%nat with (S cx) by lia. apply Hsame. }
  cbn [b2n]. rewrite !Nat.add_0_r.
  repeat match goal with
         | |- context [if ?b then _ else _] => destruct b
         | |- context [match ?x with Some _ => _ | None => _ end] => destruct x
         | |- context [match ?x with EmptyString => _ | String _ _ => _ end] => destruct x
         end;
    try apply Hsame; unfold set_verbose, set_unbuffered, set_optimize, set_hash_seed;
    cbn; eauto 10.
Qed.

Lemma flag_arguments_cons prefix e entries :
  flag_arguments prefix (e :: entries)
  = ((if is_flag_entry prefix e then [str_from 2 (name e)] else [])
       ++ flag_arguments prefix entries)%list.
Proof.
  unfold flag_arguments. cbn [List.filter].
  destruct (is_flag_entry prefix e); reflexivity.
Qed.

Lemma scan_effect U entries : forall opts cw cx,
  exists v u o uhs hs,
    fold_left (fun st e => scan_entry U e st) entries (opts, cw, cx)
    = (with_scalars v u o uhs hs (utf8_mode opts) (dev_mode opts) opts,
       (cw + length (flag_arguments "W " entries))%nat,
       (cx + length (flag_arguments "X " entries))%nat).
Proof.
  induction entries as [|e entries IH]; intros opts cw cx.
  - exists (verbose opts), (unbuffered opts), (optimize opts),
      (use_hash_seed opts), (hash_seed opts).
    cbn. rewrite !Nat.add_0_r. by destruct opts.
  - cbn [fold_left].
    destruct (scan_entry_effect U e opts cw cx) as (v & u & o & uhs & hs & ->).
    edestruct IH as (v' & u' & o' & uhs' & hs' & ->).
    exists v', u', o', uhs', hs'. rewrite !flag_arguments_cons, !length_app.
    destruct (is_flag_entry "W " e), (is_flag_entry "X " e); cbn [b2n length app];
      rewrite <- !Nat.add_assoc; reflexivity.
Qed.

(** *** The second loop, entry by entry *)

Lemma entry_kinds e :
  (is_flag_entry "W " e = true /\ is_flag_entry "X " e = false
     /\ exists r, name e = String "W" (String " " r))
  \/ (is_flag_entry "W " e = false /\ is_flag_entry "X " e = true
     /\ exists r, name e = String "X" (String " " r))
  \/ (is_flag_entry "W " e = false /\ is_flag_entry "X " e = false).
Proof.
  unfold is_flag_entry.
  destruct (typecode_eqb (entry_typecode e) ARCHIVE_ITEM_RUNTIME_OPTION); [| tauto].
  cbn [andb].
  destruct (strncmp_eq (name e) "W " 2) eqn:HW.
  { left. destruct (flag_prefix _ _ _ HW) as [r Hr]. rewrite Hr. cbn. eauto. }
  destruct (strncmp_eq (name e) "X " 2) eqn:HX.
  { right; left. destruct (flag_prefix _ _ _ HX) as [r Hr]. rewrite Hr. cbn. eauto. }
  tauto.
Qed.

Lemma collect_entry_other mb pm un pep e st :
  is_flag_entry "W " e = false -> is_flag_entry "X " e = false ->
  collect_entry mb pm un pep e st = Going st.
Proof.
  unfold is_flag_entry, collect_entry.
  destruct (typecode_eqb (entry_typecode e) ARCHIVE_ITEM_RUNTIME_OPTION); [| reflexivity].
  cbn [andb negb]. by intros -> ->.
Qed.

Lemma collect_entry_wflag mb pm un pep e st st' :
  is_flag_entry "W " e = true ->
  collect_entry mb pm un pep e st = Going st' ->
  let o := options st in
  let flag := str_from 2 (name e) in
  options st' =
    if pep
    then set_num_wflags (S (num_wflags o))
           (set_wflags (store (wflags o) (num_wflags o) (Some flag)).1 o)
    else set_num_wflags (S (num_wflags o))
           (set_wflags_w (store (wflags_w o) (num_wflags o) (Some (flag_w mb pm un flag))).1 o).
Proof.
  unfold is_flag_entry, collect_entry.
  destruct (typecode_eqb (entry_typecode e) ARCHIVE_ITEM_RUNTIME_OPTION); [| discriminate].
  cbn [andb negb]. intros ->. unfold strdup, _pyi_copy_xwflag, wcsdup.
  destruct pep, (memory st); try discriminate; cbn [is_null].
  - destruct (store (wflags (options st)) _ _) as [arr oob]. by intros [= <-].
  - destruct (store (wflags_w (options st)) _ _) as [arr oob]. discriminate.
  - destruct (store (wflags_w (options st)) _ _) as [arr oob]. by intros [= <-].
Qed.

Lemma collect_entry_xflag mb pm un pep e st st' :
  is_flag_entry "W " e = false -> is_flag_entry "X " e = true ->
  collect_entry mb pm un pep e st = Going st' ->
  let o := options st in
  let flag := str_from 2 (name e) in
  let o1 :=
    if pep
    then set_xflags (store (xflags o) (num_wflags o) (Some flag)).1 o
    else set_xflags_w (store (xflags_w o) (num_xflags o) (Some (flag_w mb pm un flag))).1 o in
  let o2 := set_num_xflags (S (num_xflags o1)) o1 in
  let o3 := set_utf8_mode (_pyi_match_and_parse_xflag flag "utf8" (utf8_mode o2)) o2 in
  options st' = set_dev_mode (_pyi_match_and_parse_xflag flag "dev" (dev_mode o3)) o3.
Proof.
  unfold is_flag_entry, collect_entry.
  destruct (typecode_eqb (entry_typecode e) ARCHIVE_ITEM_RUNTIME_OPTION); [| discriminate].
  cbn [andb negb]. intros -> ->. unfold strdup, _pyi_copy_xwflag, wcsdup.
  destruct pep, (memory st); try discriminate; cbn [is_null].
  - destruct (store (xflags (options st)) _ _) as [arr oob]. by intros [= <-].
  - destruct (store (xflags_w (options st)) _ _) as [arr oob]. discriminate.
  - destruct (store (xflags_w (options st)) _ _) as [arr oob]. by intros [= <-].
Qed.

Lemma store_length {A} (arr : option (list (option A))) i v :
  length <$> (store arr i v).1 = length <$> arr.
Proof.
  unfold store. destruct arr as [slots|]; [| reflexivity].
  destruct (i <? length slots)%nat; cbn; [| reflexivity].
  by rewrite length_insert.
Qed.

Lemma collect_frame mb pm un pep entries : forall st st',
  collect mb pm un pep entries st = Going st' ->
  utf8_mode (options st')
    = xflag_mode "utf8" (utf8_mode (options st)) entries
  /\ dev_mode (options st')
    = xflag_mode "dev" (dev_mode (options st)) entries
  /\ num_wflags (options st')
    = (num_wflags (options st) + length (flag_arguments "W " entries))%nat
  /\ num_xflags (options st')
    = (num_xflags (options st) + length (flag_arguments "X " entries))%nat
  /\ length <$> wflags (options st') = length <$> wflags (options st)
  /\ length <$> xflags (options st') = length <$> xflags (options st)
  /\ length <$> wflags_w (options st') = length <$> wflags_w (options st)
  /\ length <$> xflags_w (options st') = length <$> xflags_w (options st)
  /\ (if pep
      then wflags_w (options st') = wflags_w (options st)
           /\ xflags_w (options st') = xflags_w (options st)
      else wflags (options st') = wflags (options st)
           /\ xflags (options st') = xflags (options st)).
Proof.
  induction entries as [|e entries IH]; intros st st' H.
  - injection H as <-. cbn.
    repeat split; try lia; destruct pep; done.
  - cbn [collect] in H.
    destruct (collect_entry mb pm un pep e st) as [st1 | log] eqn:He; [| discriminate].
    specialize (IH st1 st' H).
    destruct IH as (I1 & I2 & I3 & I4 & I5 & I6 & I7 & I8 & I9).
    rewrite I1, I2, I3, I4, I5, I6, I7, I8. clear I1 I2 I3 I4 I5 I6 I7 I8.
    unfold xflag_mode. rewrite !flag_arguments_cons.
    destruct (entry_kinds e) as [(HW & HX & _) | [(HW & HX & _) | (HW & HX)]];
      rewrite HW, HX.
    + rewrite (collect_entry_wflag mb pm un pep e st st1 HW He) in *.
      destruct pep; cbn -[store] in *; rewrite ?store_length;
        repeat split; try tauto; lia.
    + rewrite (collect_entry_xflag mb pm un pep e st st1 HW HX He) in *.
      cbn [app fold_left].
      rewrite <- !parse_xflag_toggle.
      destruct pep; cbn -[store _pyi_match_and_parse_xflag] in *;
        rewrite ?store_length; repeat split; try tauto; lia.
    + rewrite (collect_entry_other mb pm un pep e st HW HX) in He.
      injection He as <-. cbn. repeat split; try tauto; lia.
Qed.

Lemma store_next {A} (pre : list A) (x : A) (n : nat) :
  store (Some (map Some pre ++ replicate (S n) None)) (length pre) (Some x)
  = (Some (map Some (pre ++ [x]) ++ replicate n None), false).
Proof.
  unfold store. rewrite length_app, length_map, length_replicate.
  replace (length pre <? length pre + S n)%nat with true
    by (symmetry; apply Nat.ltb_lt; lia).
  f_equal. f_equal.
  rewrite insert_app_r_alt by (rewrite length_map; lia).
  rewrite length_map, Nat.sub_diag. cbn.
  by rewrite map_app, <- app_assoc.
Qed.

Lemma collect_wflags mb pm un entries : forall st st' pre,
  collect mb pm un true entries st = Going st' ->
  wflags (options st)
    = Some (map Some pre ++ replicate (length (flag_arguments "W " entries)) None) ->
  num_wflags (options st) = length pre ->
  wflags (options st') = Some (map Some (pre ++ flag_arguments "W " entries)).
Proof.
  induction entries as [|e entries IH]; intros st st' pre H Harr Hnum.
  - injection H as <-. rewrite Harr. cbn. by rewrite !app_nil_r.
  - cbn [collect] in H.
    destruct (collect_entry mb pm un true e st) as [st1 | log] eqn:He; [| discriminate].
    rewrite flag_arguments_cons in *.
    destruct (entry_kinds e) as [(HW & HX & _) | [(HW & HX & _) | (HW & HX)]];
      rewrite HW in *.
    + pose proof (collect_entry_wflag mb pm un true e st st1 HW He) as Ho. cbn zeta in Ho.
      cbn [app length] in Harr. rewrite Harr, Hnum, store_next in Ho.
      rewrite (IH st1 st' (pre ++ [str_from 2 (name e)]) H).
      * by rewrite <- app_assoc.
      * by rewrite Ho.
      * rewrite Ho. cbn. rewrite length_app. cbn. lia.
    + pose proof (collect_entry_xflag mb pm un true e st st1 HW HX He) as Ho. cbn zeta in Ho.
      apply (IH st1 st' pre H); rewrite Ho; cbn -[store]; done.
    + rewrite (collect_entry_other mb pm un true e st HW HX) in He. injection He as <-.
      by apply (IH st st' pre).
Qed.

Lemma collect_wflags_w mb pm un entries : forall st st' pre,
  collect mb pm un false entries st = Going st' ->
  wflags_w (options st)
    = Some (map Some pre ++ replicate (length (flag_arguments "W " entries)) None) ->
  num_wflags (options st) = length pre ->
  wflags_w (options st')
    = Some (map Some (pre ++ map (flag_w mb pm un) (flag_arguments "W " entries))).
Proof.
  induction entries as [|e entries IH]; intros st st' pre H Harr Hnum.
  - injection H as <-. rewrite Harr. cbn. by rewrite !app_nil_r.
  - cbn [collect] in H.
    destruct (collect_entry mb pm un false e st) as [st1 | log] eqn:He; [| discriminate].
    rewrite flag_arguments_cons in *.
    destruct (entry_kinds e) as [(HW & HX & _) | [(HW & HX & _) | (HW & HX)]];
      rewrite HW in *.
    + pose proof (collect_entry_wflag mb pm un false e st st1 HW He) as Ho. cbn zeta in Ho.
      cbn [app length] in Harr. rewrite Harr, Hnum, store_next in Ho.
      rewrite (IH st1 st' (pre ++ [flag_w mb pm un (str_from 2 (name e))]) H).
      * cbn. by rewrite <- app_assoc.
      * by rewrite Ho.
      * rewrite Ho. cbn. rewrite length_app. cbn. lia.
    + pose proof (collect_entry_xflag mb pm un false e st st1 HW HX He) as Ho. cbn zeta in Ho.
      apply (IH st1 st' pre H); rewrite Ho; cbn -[store]; done.
    + rewrite (collect_entry_other mb pm un false e st HW HX) in He. injection He as <-.
      by apply (IH st st' pre).
Qed.

Lemma collect_xflags_w mb pm un entries : forall st st' pre,
  collect mb pm un false entries st = Going st' ->
  xflags_w (options st)
    = Some (map Some pre ++ replicate (length (flag_arguments "X " entries)) None) ->
  num_xflags (options st) = length pre ->
  xflags_w (options st')
    = Some (map Some (pre ++ map (flag_w mb pm un) (flag_arguments "X " entries))).
Proof.
  induction entries as [|e entries IH]; intros st st' pre H Harr Hnum.
  - injection H as <-. rewrite Harr. cbn. by rewrite !app_nil_r.
  - cbn [collect] in H.
    destruct (collect_entry mb pm un false e st) as [st1 | log] eqn:He; [| discriminate].
    rewrite flag_arguments_cons in *.
    destruct (entry_kinds e) as [(HW & HX & _) | [(HW & HX & _) | (HW & HX)]];
      rewrite HX in *.
    + pose proof (collect_entry_wflag mb pm un false e st st1 HW He) as Ho. cbn zeta in Ho.
      apply (IH st1 st' pre H); rewrite Ho; cbn -[store]; done.
    + pose proof (collect_entry_xflag mb pm un false e st st1 HW HX He) as Ho. cbn zeta in Ho.
      cbn [app length] in Harr. rewrite Harr, Hnum, store_next in Ho.
      rewrite (IH st1 st' (pre ++ [flag_w mb pm un (str_from 2 (name e))]) H).
      * cbn. by rewrite <- app_assoc.
      * by rewrite Ho.
      * rewrite Ho. cbn. rewrite length_app. cbn. lia.
    + rewrite (collect_entry_other mb pm un false e st HW HX) in He. injection He as <-.
      by apply (IH st st' pre).
Qed.

Lemma allocate_effect c0 pep cw cx opts h opts1 h1 :
  allocate_flags c0 pep cw cx opts h = Some (opts1, h1) ->
  utf8_mode opts1 = utf8_mode opts /\ dev_mode opts1 = dev_mode opts
  /\ num_wflags opts1 = num_wflags opts /\ num_xflags opts1 = num_xflags opts
  /\ (if pep
      then wflags_w opts1 = wflags_w opts /\ xflags_w opts1 = xflags_w opts
           /\ (cw <> O -> wflags opts1 = Some (replicate cw None))
           /\ (cx <> O -> xflags opts1 = Some (replicate cx None))
      else wflags opts1 = wflags opts /\ xflags opts1 = xflags opts
           /\ (cw <> O -> wflags_w opts1 = Some (replicate cw None))
           /\ (cx <> O -> xflags_w opts1 = Some (replicate cx None))).
Proof.
  unfold allocate_flags, calloc.
  destruct pep, h as [|[|h]], cw as [|cw], cx as [|cx], c0; cbn;
    try discriminate; intros [= <- <-]; cbn; repeat split; congruence.
Qed.

Lemma read_inversion U c0 mb pm un ctx h opts log :
  pyi_runtime_options_read U c0 mb pm un ctx h = (Some opts, log) ->
  let entries := toc (archive ctx) in
  let pep := has_pep741 (dylib_python ctx) in
  exists opts0 opts1 h0 h1 st',
    utf8_mode opts0 = -1 /\ dev_mode opts0 = 0
    /\ num_wflags opts0 = O /\ num_xflags opts0 = O
    /\ wflags opts0 = None /\ xflags opts0 = None
    /\ wflags_w opts0 = None /\ xflags_w opts0 = None
    /\ allocate_flags c0 pep (length (flag_arguments "W " entries))
         (length (flag_arguments "X " entries)) opts0 h0 = Some (opts1, h1)
    /\ collect mb pm un pep entries {| options := opts1; memory := h1; stray_stores := [] |}
       = Going st'
    /\ opts = options st' /\ log = stray_stores st'.
Proof.
  unfold pyi_runtime_options_read. destruct h as [|h]; [discriminate |].
  unfold scan.
  destruct (scan_effect U (toc (archive ctx)) (set_utf8_mode (-1) options_zero) O O)
    as (v & u & o & uhs & hs & ->).
  cbn [Nat.add].
  match goal with
  | |- context [allocate_flags ?a ?b ?c ?d ?e ?f] =>
      destruct (allocate_flags a b c d e f) as [[opts1 h1]|] eqn:Ha
  end; [| discriminate].
  match goal with
  | |- context [collect ?a ?b ?c ?d ?e ?f] => destruct (collect a b c d e f) as [st'|] eqn:Hc
  end; [| discriminate].
  intros [= <- <-]. cbn zeta.
  eexists _, opts1, h, h1, st'. repeat split; [.. | exact Ha | exact Hc]; reflexivity.
Qed.

(** What a successful [pyi_runtime_options_read] leaves: the counters are
    the numbers of W- and X-flag entries, the arrays of the pair that the
    protocol does not use are NULL, the W-flags of the pair it uses are
    all stored in order, and so are the X-flags of the wide pair; of the
    narrow X-flag array only the allocation with one slot per flag is
    known. *)
Lemma flag_arrays_after_read :
  forall U c0 mb pm un (pyi_ctx : PYI_CONTEXT) (h : heap) opts log,
    pyi_runtime_options_read U c0 mb pm un pyi_ctx h = (Some opts, log) ->
    let W := flag_arguments "W " (toc (archive pyi_ctx)) in
    let X := flag_arguments "X " (toc (archive pyi_ctx)) in
    num_wflags opts = length W /\ num_xflags opts = length X
    /\ if has_pep741 (dylib_python pyi_ctx)
       then wflags_w opts = None /\ xflags_w opts = None
            /\ (W <> [] -> wflags opts = Some (map Some W))
            /\ (X <> [] ->
                exists slots, xflags opts = Some slots /\ length slots = length X)
       else wflags opts = None /\ xflags opts = None
            /\ (W <> [] -> wflags_w opts = Some (map Some (map (flag_w mb pm un) W)))
            /\ (X <> [] -> xflags_w opts = Some (map Some (map (flag_w mb pm un) X))).
Proof.
  intros U c0 mb pm un pyi_ctx h opts log Hread W X.
  destruct (read_inversion _ _ _ _ _ _ _ _ _ Hread)
    as (opts0 & opts1 & h0 & h1 & st' & _ & _ & Hnw & Hnx & Hw & Hx & Hww & Hxw
        & Ha & Hc & -> & _).
  fold W X in Ha.
  pose proof (collect_frame _ _ _ _ _ _ _ Hc) as (_ & _ & Fnw & Fnx & _ & Flx & _ & _ & Fother).
  apply allocate_effect in Ha as (_ & _ & Anw & Anx & Aarr).
  cbn [options] in *. fold W X in Fnw, Fnx.
  split; [lia |]. split; [lia |].
  destruct (has_pep741 (dylib_python pyi_ctx)).
  - destruct Aarr as (Aww & Axw & Aw & Ax), Fother as (-> & ->).
    split; [congruence |]. split; [congruence |]. split.
    + intros HW. apply (collect_wflags _ _ _ _ _ _ [] Hc); cbn [options length]; [| lia].
      apply Aw. by destruct W.
    + intros HX. rewrite Ax in Flx by (by destruct X).
      destruct (xflags (options st')) as [slots|]; [| discriminate].
      exists slots. split; [reflexivity |].
      injection Flx as ->. by rewrite length_replicate.
  - destruct Aarr as (Aww & Axw & Aw & Ax), Fother as (-> & ->).
    split; [congruence |]. split; [congruence |]. split.
    + intros HW. apply (collect_wflags_w _ _ _ _ _ _ [] Hc); cbn [options length]; [| lia].
      apply Aw. by destruct W.
    + intros HX. apply (collect_xflags_w _ _ _ _ _ _ [] Hc); cbn [options length]; [| lia].
      apply Ax. by destruct X.
Qed.

(** C5. [pyi_runtime_options_read] is to populate one pair of flag
    arrays: the narrow pair under PEP 741, the wide pair otherwise. For
    the TOC with the options [W a] and [X b] the wide pair is populated
    (PEP 587: one W-flag, one X-flag, both stored), while under PEP 741
    the one slot of [xflags] is left NULL with [num_xflags] equal to 1:
    the copy of the X-flag went to index [num_wflags], past the end of
    the array. *)
Theorem narrow_xflags_left_unpopulated :
  forall U c0 mb pm un,
    let toc := [option_entry "W a"; option_entry "X b"] in
    (exists opts,
        pyi_runtime_options_read U c0 mb pm un
          (sample_context (sample_dylib 314 true) 0 toc) 10%nat
        = (Some opts, [("xflags", 1%nat)])
        /\ num_wflags opts = 1%nat /\ num_xflags opts = 1%nat
        /\ wflags opts = Some [Some "a"]
        /\ xflags opts = Some [None]
        /\ read_array (xflags opts) (num_xflags opts) = None
        /\ wflags_w opts = None /\ xflags_w opts = None)
    /\ (exists opts,
          pyi_runtime_options_read U c0 mb pm un
            (sample_context (sample_dylib 312 false) 0 toc) 10%nat
          = (Some opts, [])
          /\ num_wflags opts = 1%nat /\ num_xflags opts = 1%nat
          /\ wflags_w opts = Some [Some (flag_w mb pm un "a")]
          /\ xflags_w opts = Some [Some (flag_w mb pm un "b")]
          /\ wflags opts = None /\ xflags opts = None).
Proof.
  intros U c0 mb pm un toc. split.
  - eexists. split; [vm_compute; reflexivity |]. repeat split.
  - eexists. split; [vm_compute; reflexivity |]. repeat split.
Qed.

(** C9. In the record that [pyi_runtime_options_read] returns,
    [utf8_mode] is what the X-flags of the TOC make of the default -1,
    and [dev_mode] what they make of 0: a flag [utf8] or [dev] without a
    value or with a value other than 0 sets the field to 1, the value 0
    sets it to 0, and a flag whose name only starts with [utf8] or [dev]
    leaves it alone. *)
Theorem xflags_set_preinit_modes :
  forall U c0 mb pm un (pyi_ctx : PYI_CONTEXT) (h : heap) opts log,
    pyi_runtime_options_read U c0 mb pm un pyi_ctx h = (Some opts, log) ->
    utf8_mode opts = xflag_mode "utf8" (-1) (toc (archive pyi_ctx))
    /\ dev_mode opts = xflag_mode "dev" 0 (toc (archive pyi_ctx)).
Proof.
  intros U c0 mb pm un pyi_ctx h opts log Hread.
  destruct (read_inversion _ _ _ _ _ _ _ _ _ Hread)
    as (opts0 & opts1 & h0 & h1 & st' & Hu & Hd & _ & _ & _ & _ & _ & _
        & Ha & Hc & -> & _).
  pose proof (collect_frame _ _ _ _ _ _ _ Hc) as (F1 & F2 & _).
  apply allocate_effect in Ha as (A1 & A2 & _).
  cbn [options] in F1, F2. by rewrite F1, F2, A1, A2, Hu, Hd.
Qed.

(** C2. Under PEP 741 the collecting loop stores every X-flag at index
    [num_wflags] of [xflags]; there is a TOC with W- and X-flags for which
    a stored X-flag is overwritten, and one for which the store lies
    outside the [num_xflags] slots of the array. *)
Theorem xflags_stored_at_wflag_count :
  (forall mb pm un e st h',
      is_flag_entry "X " e = true -> memory st = S h' ->
      let stored :=
        store (xflags (options st)) (num_wflags (options st))
          (Some (str_from 2 (name e))) in
      exists st',
        collect_entry mb pm un true e st = Going st'
        /\ xflags (options st') = stored.1
        /\ stray_stores st'
           = note_stray stored.2 "xflags" (num_wflags (options st)) (stray_stores st))
  /\ (forall U c0 mb pm un,
        exists opts,
          pyi_runtime_options_read U c0 mb pm un
            (sample_context (sample_dylib 314 true) 0
               [option_entry "X a"; option_entry "X b"; option_entry "W c"]) 10%nat
          = (Some opts, [])
          /\ num_xflags opts = 2%nat
          /\ xflags opts = Some [Some "b"; None]
          /\ wflags opts = Some [Some "c"])
  /\ (forall U c0 mb pm un,
        exists opts,
          pyi_runtime_options_read U c0 mb pm un
            (sample_context (sample_dylib 314 true) 0
               [option_entry "W a"; option_entry "X b"]) 10%nat
          = (Some opts, [("xflags", 1%nat)])
          /\ num_xflags opts = 1%nat
          /\ xflags opts = Some [None]).
Proof.
  split; [| split].
  - intros mb pm un e st h' HX Hmem stored.
    destruct (entry_kinds e) as [(_ & HX' & _) | [(HW & _ & _) | (_ & HX')]];
      try congruence.
    unfold is_flag_entry in HX, HW. unfold collect_entry.
    destruct (typecode_eqb (entry_typecode e) ARCHIVE_ITEM_RUNTIME_OPTION);
      [| discriminate].
    cbn [andb negb] in *. rewrite HW, HX. unfold strdup. rewrite Hmem.
    subst stored. destruct (store (xflags (options st)) _ _) as [arr oob].
    eexists. split; [reflexivity |]. split; reflexivity.
  - intros U c0 mb pm un. eexists. split; [vm_compute; reflexivity |].
    repeat split.
  - intros U c0 mb pm un. eexists. split; [vm_compute; reflexivity |].
    repeat split.
Qed.

Lemma xflags_stored_at_wflag_count_witness :
  exists st',
    collect_entry sample_mbstowcs 4096 empty_flag_w true (option_entry "X b")
      {| options := set_num_wflags 1%nat (set_xflags (Some [None]) default_options);
         memory := 1%nat; stray_stores := [] |} = Going st'
    /\ xflags (options st') = Some [None]
    /\ stray_stores st' = [("xflags", 1%nat)].
Proof.
  destruct xflags_stored_at_wflag_count as [H _].
  apply (H sample_mbstowcs 4096 empty_flag_w (option_entry "X b")
           {| options := set_num_wflags 1%nat (set_xflags (Some [None]) default_options);
              memory := 1%nat; stray_stores := [] |} O); reflexivity.
Defined.

Lemma xflags_set_preinit_modes_witness :
  let ctx := sample_context (sample_dylib 314 true) 0
               [option_entry "X utf8=0"; option_entry "X dev"; option_entry "X utf8x"] in
  exists opts log,
    pyi_runtime_options_read 18446744073709551615 false sample_mbstowcs 4096 empty_flag_w ctx 10%nat
    = (Some opts, log)
    /\ utf8_mode opts = 0 /\ dev_mode opts = 1.
Proof.
  intros ctx. eexists _, _. split; [vm_compute; reflexivity |].
  apply (xflags_set_preinit_modes 18446744073709551615 false sample_mbstowcs 4096 empty_flag_w ctx 10%nat _ []).
  vm_compute. reflexivity.
Defined.

End OptionsProperties.

(** ** Interpreter configuration *)

Section ConfiguratorProperties.

(** *** Module search paths *)

(** C4. Both configurators, when they succeed, set exactly three module
    search paths in this order: the application root joined with
    [base_library.zip], the root joined with [python<major>.<minor>] and
    [lib-dynload] (major and minor being [version / 100] and
    [version % 100]), and the root itself; the joining separator is
    [PYI_SEPSTR], the legacy configurator stores the paths converted to
    wide characters and sets [module_search_paths_set] to 1, and the new
    one builds them from the root converted to UTF-8. *)
Theorem module_search_paths_are_three :
  forall (target : platform) (PATH_MAX : Z) (pyi_ctx : PYI_CONTEXT),
    let dylib := dylib_python pyi_ctx in
    let sep := PYI_SEPSTR target in
    let home_dir := application_home_dir pyi_ctx in
    (forall utf8_to_wcs config config',
        Pep587.pyi_pyconfig_pep587_set_module_search_paths target PATH_MAX
          utf8_to_wcs pyi_ctx config = (Next 0, config') ->
        map Some (module_search_paths config')
        = map (Pep587.path_to_wide target utf8_to_wcs dylib)
            (search_paths sep home_dir (version dylib))
        /\ module_search_paths_set config' = 1)
    /\ (forall SIZE_MAX malloc_ok s s',
          Pep741.pyi_pyconfig_pep741_set_module_search_paths target PATH_MAX
            SIZE_MAX malloc_ok pyi_ctx s = (Next 0, s') ->
          exists home_dir_utf8,
            (if is_win32 target then home_dir_utf8 = home_dir
             else exists home_w,
                 Py_DecodeLocale dylib home_dir = Some home_w
                 /\ home_dir_utf8 = c_string (Pep741.encode_wide home_w))
            /\ Pep741.config s' !! "module_search_paths"
               = Some (PyStrList (search_paths sep home_dir_utf8 (version dylib)))).
Proof.
  intros target PATH_MAX pyi_ctx dylib sep home_dir. split.
  - intros utf8_to_wcs config config'.
    unfold Pep587.pyi_pyconfig_pep587_set_module_search_paths.
    fold dylib sep home_dir.
    destruct (too_long _ _); [discriminate |].
    destruct (too_long _ _); [discriminate |].
    unfold search_paths. cbn [map existsb].
    destruct (Pep587.path_to_wide _ _ _ _) as [w1|]; [| discriminate].
    destruct (Pep587.path_to_wide _ _ _ _) as [w2|]; [| discriminate].
    destruct (Pep587.path_to_wide _ _ _ _) as [w3|]; [| discriminate].
    cbn [is_null orb].
    unfold Pep587._pyi_pyconfig_set_module_search_paths.
    destruct (Pep587.select_layout _); [| discriminate].
    unfold bind, Pep587.PyConfig_SetWideStringList. cbn [read_array read_items].
    unfold ret. destruct (PyConfig_SetWideStringList_ok _ _); [| discriminate].
    intros [= <-]. split; reflexivity.
  - intros SIZE_MAX malloc_ok s s'.
    unfold Pep741.pyi_pyconfig_pep741_set_module_search_paths.
    fold dylib sep home_dir. unfold call, bind.
    destruct (is_win32 target).
    + destruct (too_long _ home_dir); [discriminate |]. unfold ret.
      destruct (too_long _ _); [discriminate |].
      destruct (too_long _ _); [discriminate |].
      unfold Pep741.PyInitConfig_SetStrList. cbn [read_array read_items map].
      destruct (PyInitConfig_SetStrList_ok _ _ _); [| discriminate].
      cbn. intros [= <-]. exists home_dir. split; [reflexivity |].
      cbn. by rewrite lookup_insert_eq.
    + unfold Pep741._locale_encoding_to_utf8.
      destruct (Py_DecodeLocale dylib home_dir) as [home_w|]; [| discriminate].
      unfold Pep741._wchar_to_utf8.
      destruct (_ <? _); [discriminate |].
      destruct (negb _); [discriminate |].
      unfold ret. destruct (too_long _ (c_string _)); [discriminate |].
      destruct (too_long _ _); [discriminate |].
      destruct (too_long _ _); [discriminate |].
      unfold Pep741.PyInitConfig_SetStrList. cbn [read_array read_items map].
      destruct (PyInitConfig_SetStrList_ok _ _ _); [| discriminate].
      cbn. intros [= <-]. eexists. split; [eexists; split; reflexivity |].
      cbn. by rewrite lookup_insert_eq.
Qed.

Lemma module_search_paths_are_three_witness :
  let ctx := sample_context (sample_dylib 312 false) 0 [] in
  (exists config',
      Pep587.pyi_pyconfig_pep587_set_module_search_paths Linux 4096
        (fun _ => None) ctx PyConfig_zero = (Next 0, config')
      /\ map Some (module_search_paths config')
         = map (fun p => Some (widen p))
             ["/opt/app/base_library.zip"; "/opt/app/python3.12/lib-dynload";
              "/opt/app"]
      /\ module_search_paths_set config' = 1)
  /\ (exists s',
        Pep741.pyi_pyconfig_pep741_set_module_search_paths Linux 4096
          18446744073709551615 (fun _ => true) ctx
          {| Pep741.config := ∅; Pep741.messages := [] |} = (Next 0, s')
        /\ Pep741.config s' !! "module_search_paths"
           = Some (PyStrList
                     ["/opt/app/base_library.zip";
                      "/opt/app/python3.12/lib-dynload"; "/opt/app"])).
Proof.
  intros ctx. split.
  - eexists. split; [vm_compute; reflexivity |].
    apply (proj1 (module_search_paths_are_three Linux 4096 ctx) (fun _ => None)
             PyConfig_zero).
    vm_compute. reflexivity.
  - eexists. split; [vm_compute; reflexivity |].
    destruct (proj2 (module_search_paths_are_three Linux 4096 ctx)
                18446744073709551615 (fun _ => true)
                {| Pep741.config := ∅; Pep741.messages := [] |} _
                ltac:(vm_compute; reflexivity))
      as (home_dir_utf8 & (home_w & Hw & ->) & Hpaths).
    injection Hw as <-. exact Hpaths.
Defined.

(** *** Run-time options *)

Lemma set_int_option_cases dylib name value s :
  (Pep741.set_int_option dylib name value s
   = (Next tt, Pep741.put name (PyInt value) s))
  \/ (exists s', Pep741.set_int_option dylib name value s = (Return (-1), s')).
Proof.
  unfold Pep741.set_int_option, bind, Pep741.PyInitConfig_SetInt.
  destruct (PyInitConfig_SetInt_ok dylib name value); cbn; eauto.
Qed.

Lemma set_list_option_cases dylib name n items s :
  (exists l, read_array items n = Some l
             /\ Pep741.set_list_option dylib name n items s
                = (Next tt, Pep741.put name (PyStrList l) s))
  \/ (exists s', Pep741.set_list_option dylib name n items s = (Return (-1), s'))
  \/ Pep741.set_list_option dylib name n items s = (Undefined, s).
Proof.
  unfold Pep741.set_list_option, bind, Pep741.PyInitConfig_SetStrList.
  destruct (read_array items n) as [l|]; [| by right; right].
  destruct (PyInitConfig_SetStrList_ok dylib name l); cbn; eauto.
Qed.

(** C1. The two implementations of [set_runtime_options] do not
    configure the interpreter identically. Whenever they succeed, both
    disable site import and bytecode writing, set the optimization level,
    buffered stdio (the negation of [unbuffered]), verbosity, the hash
    seed and its use, dev mode, the installation of signal handlers, and
    pass the W-flags to [warnoptions] and the X-flags to [xoptions]; but
    the PEP 741 one leaves [configure_c_stdio] at 0, where the PEP 587 one
    sets it to 1. *)
Theorem c_stdio_configured_differently :
  forall (pyi_ctx : PYI_CONTEXT) (runtime_options : RuntimeOptions.PyiRuntimeOptions),
    let ro := runtime_options in
    (forall s s',
        Pep741.pyi_pyconfig_pep741_set_runtime_options pyi_ctx runtime_options s
        = (Next 0, s') ->
        let option name := Pep741.config s' !! name in
        option "site_import" = Some (PyInt 0)
        /\ option "write_bytecode" = Some (PyInt 0)
        /\ option "configure_c_stdio" = Some (PyInt 0)
        /\ option "optimization_level" = Some (PyInt (RuntimeOptions.optimize ro))
        /\ option "buffered_stdio" = Some (PyInt (lnot (RuntimeOptions.unbuffered ro)))
        /\ option "verbose" = Some (PyInt (RuntimeOptions.verbose ro))
        /\ option "use_hash_seed" = Some (PyInt (RuntimeOptions.use_hash_seed ro))
        /\ option "hash_seed" = Some (PyInt (to_int64 (RuntimeOptions.hash_seed ro)))
        /\ option "dev_mode" = Some (PyInt (RuntimeOptions.dev_mode ro))
        /\ option "install_signal_handlers" = Some (PyInt 1)
        /\ (exists W,
              read_array (RuntimeOptions.wflags ro) (RuntimeOptions.num_wflags ro) = Some W
              /\ option "warnoptions" = Some (PyStrList W))
        /\ (exists X,
              read_array (RuntimeOptions.xflags ro) (RuntimeOptions.num_xflags ro) = Some X
              /\ option "xoptions" = Some (PyStrList X)))
    /\ (forall config config',
          Pep587.pyi_pyconfig_pep587_set_runtime_options pyi_ctx runtime_options config
          = (Next 0, config') ->
          site_import config' = 0
          /\ write_bytecode config' = 0
          /\ configure_c_stdio config' = 1
          /\ optimization_level config' = RuntimeOptions.optimize ro
          /\ buffered_stdio config' = lnot (RuntimeOptions.unbuffered ro)
          /\ verbose config' = RuntimeOptions.verbose ro
          /\ use_hash_seed config' = RuntimeOptions.use_hash_seed ro
          /\ hash_seed config' = RuntimeOptions.hash_seed ro
          /\ dev_mode config' = RuntimeOptions.dev_mode ro
          /\ install_signal_handlers config' = 1
          /\ (RuntimeOptions.num_wflags ro <> O ->
              read_array (RuntimeOptions.wflags_w ro) (RuntimeOptions.num_wflags ro)
              = Some (warnoptions config'))
          /\ (RuntimeOptions.num_xflags ro <> O ->
              read_array (RuntimeOptions.xflags_w ro) (RuntimeOptions.num_xflags ro)
              = Some (xoptions config'))).
Proof.
  intros pyi_ctx runtime_options ro. split.
  - intros s s'. unfold Pep741.pyi_pyconfig_pep741_set_runtime_options, call.
    repeat (unfold bind at 1;
            match goal with
            | |- context [Pep741.set_int_option ?d ?n ?v ?st] =>
                destruct (set_int_option_cases d n v st) as [-> | [? ->]];
                [| discriminate]
            end).
    unfold bind at 1.
    match goal with
    | |- context [Pep741.set_list_option ?d ?n ?k ?i ?st] =>
        destruct (set_list_option_cases d n k i st)
          as [(W & HW & ->) | [[? ->] | ->]]; [| discriminate | discriminate]
    end.
    unfold bind at 1.
    match goal with
    | |- context [Pep741.set_list_option ?d ?n ?k ?i ?st] =>
        destruct (set_list_option_cases d n k i st)
          as [(X & HX & ->) | [[? ->] | ->]]; [| discriminate | discriminate]
    end.
    unfold c_return. intros [= <-]. cbn.
    repeat match goal with |- _ /\ _ => split end;
      try (eexists; split; [eassumption |]);
      repeat (rewrite lookup_insert_ne by done); by rewrite lookup_insert_eq.
  - intros config config'.
    unfold Pep587.pyi_pyconfig_pep587_set_runtime_options.
    destruct (Pep587.select_layout _); [| discriminate].
    unfold call, bind, Pep587.PyConfig_SetWideStringList, ret, undefined, c_return.
    fold ro.
    destruct (RuntimeOptions.num_wflags ro =? 0)%nat eqn:Hnw;
      destruct (RuntimeOptions.num_xflags ro =? 0)%nat eqn:Hnx;
      try (destruct (read_array (RuntimeOptions.wflags_w ro) _) as [lw|] eqn:Hw;
           [| discriminate];
           destruct (PyConfig_SetWideStringList_ok _ lw); [| discriminate]);
      try (destruct (read_array (RuntimeOptions.xflags_w ro) _) as [lx|] eqn:Hx;
           [| discriminate];
           destruct (PyConfig_SetWideStringList_ok _ lx); [| discriminate]);
      intros [= <-]; cbn;
      repeat match goal with |- _ /\ _ => split end; try reflexivity;
      try (apply Nat.eqb_eq in Hnw); try (apply Nat.eqb_eq in Hnx);
      intros; congruence.
Qed.

Lemma c_stdio_configured_differently_witness :
  let ctx741 := sample_context (sample_dylib 314 true) 0 [] in
  let ctx587 := sample_context (sample_dylib 312 false) 0 [] in
  (exists s',
      Pep741.pyi_pyconfig_pep741_set_runtime_options ctx741 default_options
        {| Pep741.config := ∅; Pep741.messages := [] |} = (Next 0, s')
      /\ Pep741.config s' !! "configure_c_stdio" = Some (PyInt 0))
  /\ (exists config',
        Pep587.pyi_pyconfig_pep587_set_runtime_options ctx587 default_options
          PyConfig_zero = (Next 0, config')
        /\ configure_c_stdio config' = 1).
Proof.
  intros ctx741 ctx587. split.
  - eexists. split; [vm_compute; reflexivity |].
    apply (proj1 (c_stdio_configured_differently ctx741 default_options)
             {| Pep741.config := ∅; Pep741.messages := [] |}).
    vm_compute. reflexivity.
  - eexists. split; [vm_compute; reflexivity |].
    apply (proj2 (c_stdio_configured_differently ctx587 default_options) PyConfig_zero).
    vm_compute. reflexivity.
Defined.

End ConfiguratorProperties.

(** ** Starting the interpreter *)

Section LauncherProperties.
Import Pep587 Python.

(** *** Layouts of the legacy configuration structure *)

Lemma make_version_id version flags :
  0 <= version -> flags = 0 \/ flags = 1 ->
  _MAKE_VERSION_ID version flags = 2 * version + flags.
Proof.
  intros Hv [-> | ->]; unfold _MAKE_VERSION_ID; rewrite Z.shiftl_mul_pow2 by lia.
  - rewrite Z.lor_0_r. lia.
  - destruct version as [|p|p]; [reflexivity | | lia].
    change (Z.pos p * 2 ^ 1) with (Z.pos p * 2). rewrite Z.mul_comm. reflexivity.
Qed.

Lemma select_layout_supported version flags :
  0 <= version -> flags = 0 \/ flags = 1 ->
  select_layout (_MAKE_VERSION_ID version flags) <> None <-> supported version flags.
Proof.
  intros Hv Hf. rewrite make_version_id by done. unfold select_layout, supported.
  change (_MAKE_VERSION_ID 308 0) with 616. change (_MAKE_VERSION_ID 309 0) with 618.
  change (_MAKE_VERSION_ID 310 0) with 620. change (_MAKE_VERSION_ID 311 0) with 622.
  change (_MAKE_VERSION_ID 312 0) with 624. change (_MAKE_VERSION_ID 313 0) with 626.
  change (_MAKE_VERSION_ID 313 1) with 627.
  repeat match goal with
         | |- context [?a =? ?b] => destruct (Z.eqb_spec a b)
         end; split; intros H; try done; try lia.
Qed.

(** *** Unsupported versions *)

(** C7. Under the legacy protocol the layout is selected by
    [2 * version + gil_flag]; a layout exists exactly for versions 308 to
    313 with flag 0 and for 313 with flag 1; for every other pair
    [pyi_pyconfig_pep587_create] returns NULL and
    [pyi_python_start_interpreter] returns -1 without calling
    [Py_InitializeFromConfig], its last message - once the options are
    read and pre-initialization succeeded - being the one about the
    unsupported version. The version is a non-negative [int] whose double
    does not overflow, the flag 0 or 1. *)
Theorem unsupported_version_rejected :
  forall (target : platform) (PATH_MAX SIZE_MAX ULONG_MAX : Z)
         (calloc_zero_is_null : bool) (mbstowcs : string -> option wstring)
         (flag_w_unterminated : string -> wstring)
         (config_calloc_ok : bool) (calloc_ok : nat -> bool)
         (malloc_ok : Z -> bool)
         (pyi_win32_utf8_to_wcs : string -> option wstring)
         (pyi_win32_wcs_to_utf8 : wstring -> option string)
         (pyi_ctx : PYI_CONTEXT) (h : RuntimeOptions.heap) (s : interp),
    let v := version (dylib_python pyi_ctx) in
    let gil := nogil_enabled pyi_ctx in
    0 <= v < 2 ^ 30 -> gil = 0 \/ gil = 1 ->
    has_pep741 (dylib_python pyi_ctx) = false ->
    version_id_of pyi_ctx = 2 * v + gil
    /\ (select_layout (version_id_of pyi_ctx) <> None <-> supported v gil)
    /\ (~ supported v gil ->
        pyi_pyconfig_pep587_create config_calloc_ok pyi_ctx = None
        /\ exists new,
            pyi_python_start_interpreter target PATH_MAX SIZE_MAX ULONG_MAX
              calloc_zero_is_null mbstowcs flag_w_unterminated config_calloc_ok
              calloc_ok malloc_ok
              pyi_win32_utf8_to_wcs pyi_win32_wcs_to_utf8 pyi_ctx h s
              = (Next (-1), {| events := events s ++ new; sys := sys s |})
            /\ ~ In (Called "Py_InitializeFromConfig") new
            /\ (forall opts,
                  (RuntimeOptions.pyi_runtime_options_read ULONG_MAX
                     calloc_zero_is_null mbstowcs (PYI_PATH_MAX PATH_MAX target)
                     flag_w_unterminated pyi_ctx h).1 = Some opts ->
                  Py_PreInitialize_ok (dylib_python pyi_ctx)
                    (RuntimeOptions.utf8_mode opts) (RuntimeOptions.dev_mode opts)
                  = true ->
                  new = [Called "PyPreConfig_InitIsolatedConfig";
                         Called "Py_PreInitialize";
                         Message "Failed to allocate PyConfig structure! Unsupported python version?"])).
Proof.
  intros target PATH_MAX SIZE_MAX ULONG_MAX calloc_zero_is_null mbstowcs
    flag_w_unterminated config_calloc_ok calloc_ok malloc_ok pyi_win32_utf8_to_wcs
    pyi_win32_wcs_to_utf8 pyi_ctx h s v gil Hv Hgil Hpep.
  split; [apply make_version_id; [lia | done] |].
  split; [apply select_layout_supported; [lia | done] |].
  intros Hun.
  assert (pyi_pyconfig_pep587_create config_calloc_ok pyi_ctx = None) as Hcreate.
  { unfold pyi_pyconfig_pep587_create.
    destruct (select_layout (version_id_of pyi_ctx)) eqn:E; [| reflexivity].
    exfalso. apply Hun. apply select_layout_supported; [lia | done |].
    unfold version_id_of in E. fold v gil in E. by rewrite E. }
  split; [exact Hcreate |].
  unfold pyi_python_start_interpreter.
  destruct (RuntimeOptions.pyi_runtime_options_read _ _ _ _ _ _ _).1 as [opts|].
  - unfold bind, pyi_pyconfig_preinit_python, PYI_ERROR, emit, finish, ret.
    rewrite Hpep, Hcreate. cbn.
    destruct (Py_PreInitialize_ok _ _ _) eqn:Hpre; cbn.
    + eexists. split; [rewrite <- !app_assoc; reflexivity |].
      split; [cbn; intuition discriminate |].
      intros ? _ _. reflexivity.
    + eexists. split; [rewrite <- !app_assoc; reflexivity |].
      split; [cbn; intuition discriminate |].
      intros opts0 E Hok. injection E as E. subst opts0. congruence.
  - unfold bind, PYI_ERROR, emit, finish, ret. rewrite Hpep. cbn.
    eexists. split; [reflexivity |]. split; [cbn; intuition discriminate |].
    discriminate.
Qed.

Lemma unsupported_version_rejected_witness :
  let ctx := sample_context (sample_dylib 307 false) 0 [] in
  let s := {| events := []; sys := ∅ |} in
  version_id_of ctx = 614
  /\ pyi_pyconfig_pep587_create true ctx = None
  /\ exists new,
      pyi_python_start_interpreter Linux 4096 18446744073709551615
        18446744073709551615 false sample_mbstowcs empty_flag_w true (fun _ => true) (fun _ => true)
        (fun _ => None) (fun _ => None) ctx 10%nat s
      = (Next (-1), {| events := events s ++ new; sys := sys s |})
      /\ ~ In (Called "Py_InitializeFromConfig") new.
Proof.
  intros ctx s.
  destruct (unsupported_version_rejected Linux 4096 18446744073709551615
              18446744073709551615 false sample_mbstowcs empty_flag_w true (fun _ => true)
              (fun _ => true) (fun _ => None) (fun _ => None) ctx 10%nat s)
    as (Hid & _ & Hrej).
  - vm_compute. split; [discriminate | reflexivity].
  - left. reflexivity.
  - reflexivity.
  - split; [exact Hid |].
    destruct Hrej as (Hnull & new & Hrun & Hnot & _).
    + unfold supported. vm_compute. intros [[[H _] _] | [H _]];
        [apply H; reflexivity | discriminate H].
    + split; [exact Hnull |]. exists new. split; [exact Hrun | exact Hnot].
Defined.

(** *** The PYZ archive *)

Lemma find_pyz_none entries :
  forallb (fun e => negb (is_pyz e)) entries = true -> find_pyz entries = None.
Proof.
  induction entries as [|e entries IH]; [reflexivity |].
  cbn. unfold is_pyz at 1. destruct (typecode_eqb _ _); [discriminate | exact IH].
Qed.

Lemma find_pyz_first pre e post :
  forallb (fun e => negb (is_pyz e)) pre = true -> is_pyz e = true ->
  find_pyz (pre ++ e :: post) = Some e.
Proof.
  intros Hpre He. induction pre as [|x pre IH]; cbn.
  - unfold is_pyz in He. by rewrite He.
  - cbn in Hpre. unfold is_pyz at 1 in Hpre.
    destruct (typecode_eqb _ _); [discriminate | by apply IH].
Qed.

(** C8. [pyi_python_install_pyz] fails with an error message and leaves
    [sys] alone when the TOC has no entry of type PYZ; otherwise, for the
    first such entry, it sets the attribute [_pyinstaller_pyz] of [sys] to
    the archive path, a question mark and the decimal text of
    [pkg_offset] plus the offset of the entry (the sum being within 64
    bits, and the runtime calls succeeding). *)
Theorem pyz_location_published :
  forall (target : platform) (pyi_ctx : PYI_CONTEXT) (s : interp),
    let dylib := dylib_python pyi_ctx in
    let entries := toc (archive pyi_ctx) in
    let decode :=
      if is_win32 target then PyUnicode_Decode_utf8 dylib
      else PyUnicode_DecodeFSDefault dylib in
    (forallb (fun e => negb (is_pyz e)) entries = true ->
     pyi_python_install_pyz target pyi_ctx s
     = (Next (-1),
        {| events := events s ++ [Message "PYZ archive entry not found in the TOC!"];
           sys := sys s |}))
    /\ (forall pre e post path,
          entries = pre ++ e :: post ->
          forallb (fun e => negb (is_pyz e)) pre = true -> is_pyz e = true ->
          decode (archive_filename pyi_ctx) = Some path ->
          0 <= pkg_offset (archive pyi_ctx) + offset e < 2 ^ 64 ->
          let text :=
            path +:+ "?" +:+ fmt_u (Z.to_N (pkg_offset (archive pyi_ctx) + offset e)) in
          PyUnicode_FromFormat_ok dylib text = true ->
          PySys_SetObject_ok dylib "_pyinstaller_pyz" text = true ->
          pyi_python_install_pyz target pyi_ctx s
          = (Next 0,
             {| events := events s;
                sys := <["_pyinstaller_pyz" := text]> (sys s) |})).
Proof.
  intros target pyi_ctx s dylib entries decode. split.
  - intros Hnone. unfold pyi_python_install_pyz.
    fold entries. rewrite (find_pyz_none _ Hnone). reflexivity.
  - intros pre e post path Htoc Hpre He Hdec Hoff text Hfmt Hset.
    unfold pyi_python_install_pyz. fold entries dylib.
    rewrite Htoc, (find_pyz_first _ _ _ Hpre He).
    assert ((if is_win32 target
             then PyUnicode_Decode_utf8 dylib (archive_filename pyi_ctx)
             else PyUnicode_DecodeFSDefault dylib (archive_filename pyi_ctx))
            = Some path) as ->
      by (subst decode; destruct (is_win32 target); exact Hdec).
    rewrite Z.mod_small by exact Hoff. fold text.
    unfold call, bind, PySys_SetObject. rewrite Hfmt. cbn. rewrite Hset. reflexivity.
Qed.

Lemma pyz_location_published_witness :
  let ctx := sample_context (sample_dylib 312 false) 0
               [module_entry "pyimod01_archive"; pyz_entry 8192; pyz_entry 9000] in
  let s := {| events := []; sys := ∅ |} in
  pyi_python_install_pyz Linux ctx s
  = (Next 0, {| events := []; sys := {[ "_pyinstaller_pyz" := "/opt/app/run?12288" ]} |})
  /\ pyi_python_install_pyz Linux
       (sample_context (sample_dylib 312 false) 0 [module_entry "pyimod01_archive"]) s
     = (Next (-1),
        {| events := [Message "PYZ archive entry not found in the TOC!"]; sys := ∅ |}).
Proof.
  intros ctx s. split.
  - destruct (pyz_location_published Linux ctx s) as [_ H].
    apply (H [module_entry "pyimod01_archive"] (pyz_entry 8192) [pyz_entry 9000]
             "/opt/app/run"); try reflexivity.
    split; vm_compute; [discriminate | reflexivity].
  - destruct (pyz_location_published Linux
                (sample_context (sample_dylib 312 false) 0
                   [module_entry "pyimod01_archive"]) s) as [H _].
    apply H. reflexivity.
Defined.

End LauncherProperties.

(** ** Decimal round trip *)

Section DecimalRoundTrip.
Import Main.
Local Open Scope step_scope.

Lemma str_app_assoc (a b c : string) : a +:+ (b +:+ c) = (a +:+ b) +:+ c.
Proof.
  induction a as [|x a IH]; [reflexivity |].
  change (String x a +:+ (b +:+ c)) with (String x (a +:+ (b +:+ c))).
  by rewrite IH.
Qed.

Lemma str_app_nil_r (a : string) : a +:+ "" = a.
Proof.
  induction a as [|x a IH]; [reflexivity |].
  change (String x a +:+ "") with (String x (a +:+ "")). by rewrite IH.
Qed.

Lemma all_digits_app base a b :
  all_digits base (a +:+ b) = all_digits base a && all_digits base b.
Proof.
  induction a as [|c a IH]; [reflexivity |].
  change (String c a +:+ b) with (String c (a +:+ b)). cbn.
  by rewrite IH, andb_assoc.
Qed.

Lemma digit_char_digit (r : N) : (r < 10)%N -> is_digit 10 (digit_char r) = true.
Proof.
  intros Hr. unfold is_digit. by rewrite (digit_char_value r Hr).
Qed.

Lemma digit_char_nonzero (r : N) :
  (r < 10)%N -> r <> 0%N -> Ascii.eqb (digit_char r) "0" = false.
Proof.
  intros Hr H0.
  assert (r = 1 \/ r = 2 \/ r = 3 \/ r = 4 \/ r = 5 \/ r = 6 \/ r = 7
          \/ r = 8 \/ r = 9)%N as H by lia.
  repeat (destruct H as [-> | H]; [reflexivity |]). subst r. reflexivity.
Qed.

Lemma fmt_digits_shape (fuel : nat) : forall (n : N) (acc : string),
  (n < 10 ^ N.of_nat (S fuel))%N ->
  exists d ds,
    fmt_digits (S fuel) n acc = String d (ds +:+ acc)
    /\ is_digit 10 d = true /\ all_digits 10 ds = true
    /\ (n <> 0%N -> Ascii.eqb d "0" = false).
Proof.
  induction fuel as [|fuel IH]; intros n acc Hn.
  - exists (digit_char n), "". 
    assert (n < 10)%N as Hlt by (cbn in Hn; lia).
    cbn [fmt_digits]. rewrite (N.mod_small n 10 Hlt).
    destruct (n / 10 =? 0)%N; repeat split;
      auto using digit_char_digit, digit_char_nonzero.
  - cbn [fmt_digits].
    assert (n mod 10 < 10)%N as Hr by (apply N.mod_lt; lia).
    destruct (N.eqb_spec (n / 10) 0) as [Hq | Hq].
    + exists (digit_char (n mod 10)), "".
      assert (n < 10)%N as Hlt.
      { destruct (N.lt_ge_cases n 10) as [|Hge]; [done |].
        pose proof (N.Div0.div_le_mono 10 n 10 Hge) as Hd.
        change (10 / 10)%N with 1%N in Hd. lia. }
      rewrite (N.mod_small n 10 Hlt).
      repeat split; auto using digit_char_digit, digit_char_nonzero.
    + destruct (IH (n / 10)%N (String (digit_char (n mod 10)) acc)) as (d & ds & E & Hd & Hds & H0).
      { apply N.Div0.div_lt_upper_bound.
        rewrite Nat2N.inj_succ, N.pow_succ_r' in Hn. lia. }
      exists d, (ds +:+ String (digit_char (n mod 10)) "").
      cbn [fmt_digits] in E. rewrite E. repeat split; auto.
      * f_equal. rewrite <- str_app_assoc. reflexivity.
      * rewrite all_digits_app, Hds. cbn. by rewrite (digit_char_digit _ Hr).
Qed.

Lemma fmt_u_shape (n : N) :
  exists d ds,
    fmt_u n = String d ds /\ all_digits 10 (String d ds) = true
    /\ (n <> 0%N -> Ascii.eqb d "0" = false).
Proof.
  unfold fmt_u.
  destruct (fmt_digits_shape (N.to_nat (N.log2 n)) n "") as (d & ds & E & Hd & Hds & H0).
  - rewrite Nat2N.inj_succ, N2Nat.id.
    destruct (N.eq_dec n 0%N) as [-> | Hn]; [reflexivity |].
    pose proof (N.log2_spec n ltac:(lia)) as [_ Hlt].
    eapply N.lt_le_trans; [exact Hlt |].
    apply N.pow_le_mono_l. lia.
  - exists d, ds. rewrite E. 
    rewrite str_app_nil_r.
    repeat split; auto. cbn. by rewrite Hd, Hds.
Qed.

Lemma strtol_unsigned LONG_MAX (n : N) :
  n <> 0%N ->
  strtol LONG_MAX (fmt_u n) = (clamp_long LONG_MAX (Z.of_N n), "").
Proof.
  intros Hn. destruct (fmt_u_shape n) as (d & ds & E & Hall & H0).
  pose proof (fmt_u_decimal n) as Hv. rewrite E in *.
  assert (is_digit 10 d = true) as Hd by (cbn in Hall; apply andb_true_iff in Hall; tauto).
  unfold strtol. cbn [skip_space]. rewrite (digit_not_space d Hd).
  rewrite (digit_not_sign d _ Hd), (nonzero_is_decimal d _ (H0 Hn)).
  rewrite strtol_digits_all by done. cbn [orb negb String.eqb]. by rewrite Hv.
Qed.

Lemma strtol_negative LONG_MAX (n : N) :
  n <> 0%N ->
  strtol LONG_MAX (String "-" (fmt_u n)) = (clamp_long LONG_MAX (- Z.of_N n), "").
Proof.
  intros Hn. destruct (fmt_u_shape n) as (d & ds & E & Hall & H0).
  pose proof (fmt_u_decimal n) as Hv. rewrite E in *.
  assert (is_digit 10 d = true) as Hd by (cbn in Hall; apply andb_true_iff in Hall; tauto).
  unfold strtol.
  change (strtol_sign (skip_space (String "-" (String d ds)))) with (true, String d ds).
  cbv beta iota.
  rewrite (nonzero_is_decimal d _ (H0 Hn)).
  rewrite strtol_digits_all by done. cbn [orb negb String.eqb]. by rewrite Hv.
Qed.

Lemma strtol_fmt_d LONG_MAX (z : Z) :
  - LONG_MAX - 1 <= z <= LONG_MAX ->
  strtol LONG_MAX (fmt_d z) = (z, "").
Proof.
  intros Hz. assert (clamp_long LONG_MAX z = z) as Hc by (unfold clamp_long; lia).
  destruct z as [|p|p].
  - cbn. unfold strtol. cbn. f_equal. exact Hc.
  - change (fmt_d (Z.pos p)) with (fmt_u (N.pos p)).
    rewrite strtol_unsigned by done. cbn [Z.of_N]. by rewrite Hc.
  - change (fmt_d (Z.neg p)) with (String "-" (fmt_u (N.pos p))).
    rewrite strtol_negative by done. change (- Z.of_N (N.pos p)) with (Z.neg p). by rewrite Hc.
Qed.

End DecimalRoundTrip.

(** ** The chain of processes *)

Section ProcessChain.
Import Main Chain.
Local Open Scope step_scope.

Lemma fmt_d_nonempty (z : Z) : fmt_d z <> "".
Proof.
  destruct z as [|p|p]; [discriminate | | discriminate].
  change (fmt_d (Z.pos p)) with (fmt_u (N.pos p)).
  destruct (fmt_u_shape (N.pos p)) as (d & ds & -> & _). discriminate.
Qed.

(** X1. What a process publishes in [_PYI_PARENT_PROCESS_LEVEL] is what
    its child reads back as the level of its parent: publishing a level
    below SUBPROCESS and then reading the variable gives that level,
    without an error. *)
Theorem published_level_is_read_back :
  forall (LONG_MAX : Z) (ok : string -> string -> bool)
         (ctx : PYI_CONTEXT) (w w' : world),
    127 <= LONG_MAX ->
    -128 <= process_level ctx < PYI_PROCESS_LEVEL_SUBPROCESS ->
    pyi_main_publish_process_level ok ctx w = (Next tt, w') ->
    forall child : PYI_CONTEXT,
      pyi_main_parent_process_level LONG_MAX child w'
      = (Next (set_parent_process_level (process_level ctx) child), w').
Proof.
  intros LONG_MAX ok ctx w w' Hmax [Hlo Hhi] Hpub child.
  unfold pyi_main_publish_process_level in Hpub.
  apply Z.ltb_lt in Hhi. rewrite Hhi in Hpub.
  unfold bind, pyi_setenv in Hpub.
  destruct (ok _ _); cbn in Hpub; [| discriminate].
  unfold ret in Hpub. injection Hpub as Hpub. subst w'.
  unfold pyi_main_parent_process_level, bind, pyi_getenv. cbn.
  rewrite lookup_insert_eq.
  pose proof (fmt_d_nonempty (process_level ctx)) as Hne.
  pose proof (strtol_fmt_d LONG_MAX (process_level ctx)) as Hparse.
  apply Z.ltb_lt in Hhi. unfold PYI_PROCESS_LEVEL_SUBPROCESS in Hhi.
  destruct (fmt_d (process_level ctx)) as [|c s]; [done |].
  rewrite Hparse by lia. unfold ret.
  replace (to_schar (process_level ctx)) with (process_level ctx); [reflexivity |].
  unfold to_schar. rewrite Z.mod_small by lia. lia.
Qed.

Lemma published_level_is_read_back_witness :
  let ctx := set_process_level (-1) (sample_context (sample_dylib 312 false) 0 []) in
  let w := {| env := ∅; errors := [] |} in
  let w' := {| env := {[ "_PYI_PARENT_PROCESS_LEVEL" := "-1" ]}; errors := [] |} in
  pyi_main_publish_process_level (fun _ _ => true) ctx w = (Next tt, w')
  /\ pyi_main_parent_process_level 2147483647 ctx w'
     = (Next (set_parent_process_level (-1) ctx), w').
Proof.
  intros ctx w w'.
  assert (pyi_main_publish_process_level (fun _ _ => true) ctx w = (Next tt, w')) as H
    by reflexivity.
  split; [exact H |].
  apply (published_level_is_read_back 2147483647 (fun _ _ => true) ctx w w');
    [lia | vm_compute; split; [discriminate | reflexivity] | exact H].
Defined.

End ProcessChain.

Section EnvironmentReset.
Import Main Chain.
Local Open Scope step_scope.

(** The environment that the reset leaves, in closed form. *)
Lemma reset_environment_closed (target : platform) (ok : string -> string -> bool)
    (ctx : PYI_CONTEXT) (w : world) :
  let own := archive_filename ctx in
  let e0 : gmap string string := delete "PYINSTALLER_RESET_ENVIRONMENT" (env w) in
  let e1 : gmap string string :=
    if ok "_PYI_ARCHIVE_FILE" own then <["_PYI_ARCHIVE_FILE" := own]> e0 else e0 in
  let e2 : gmap string string := delete "_PYI_SPLASH_IPC"
              (delete "_PYI_PARENT_PROCESS_LEVEL"
                 (delete "_PYI_APPLICATION_HOME_DIR" e1)) in
  let e3 : gmap string string :=
    if is_linux target then delete "_PYI_LINUX_PROCESS_NAME" e2 else e2 in
  pyi_main_reset_environment target ok ctx w
  = (Next tt, with_env (if inherits_environment own (env w) then e0 else e3) w).
Proof.
  intros own e0 e1 e2 e3. subst e3 e2 e1 e0 own.
  unfold pyi_main_reset_environment, inherits_environment, bind, pyi_getenv,
    pyi_unsetenv, pyi_setenv, ret, with_env, strcmp_eq.
  destruct (env w !! "PYINSTALLER_RESET_ENVIRONMENT") as [v|] eqn:Hv; cbn.
  - destruct (String.eqb_spec v "1") as [-> | Hne]; cbn.
    + rewrite bool_decide_eq_true_2 by done. cbn.
      destruct (ok _ _), (is_linux target); reflexivity.
    + rewrite bool_decide_eq_false_2 by congruence. cbn.
      rewrite lookup_delete_ne by done.
      destruct (env w !! "_PYI_ARCHIVE_FILE") as [a|] eqn:Ha; cbn.
      * destruct (String.eqb_spec (archive_filename ctx) a) as [<- | Hd]; cbn.
        { by rewrite bool_decide_eq_true_2. }
        rewrite bool_decide_eq_false_2 by congruence.
        destruct (ok _ _), (is_linux target); reflexivity.
      * rewrite bool_decide_eq_false_2 by congruence.
        destruct (ok _ _), (is_linux target); reflexivity.
  - rewrite bool_decide_eq_false_2 by congruence. cbn.
    rewrite (delete_id (env w) _ Hv).
    destruct (env w !! "_PYI_ARCHIVE_FILE") as [a|] eqn:Ha; cbn.
    + destruct (String.eqb_spec (archive_filename ctx) a) as [<- | Hd]; cbn.
      { rewrite bool_decide_eq_true_2 by done. by destruct w. }
      rewrite bool_decide_eq_false_2 by congruence.
      destruct (ok _ _), (is_linux target); reflexivity.
    + rewrite bool_decide_eq_false_2 by congruence.
      destruct (ok _ _), (is_linux target); reflexivity.
Qed.

Lemma cleared_by_reset_names target name :
  cleared_by_reset target name = false ->
  name <> "_PYI_APPLICATION_HOME_DIR" /\ name <> "_PYI_PARENT_PROCESS_LEVEL"
  /\ name <> "_PYI_SPLASH_IPC"
  /\ (is_linux target = true -> name <> "_PYI_LINUX_PROCESS_NAME").
Proof.
  unfold cleared_by_reset. intros H.
  repeat (apply orb_false_iff in H as [H ?]).
  repeat split; try (by apply String.eqb_neq).
  intros Hl. rewrite Hl in *. by apply String.eqb_neq.
Qed.

(** X2. The environment check at the start of [pyi_main] always removes
    [PYINSTALLER_RESET_ENVIRONMENT] and writes no message. When no reset
    was requested (the variable is not exactly 1) and [_PYI_ARCHIVE_FILE]
    names the archive of this process, every other variable is kept;
    otherwise the home directory, parent level and splash variables (and
    on Linux the process name) are cleared, [_PYI_ARCHIVE_FILE] becomes
    the own archive name if the system accepts it, and the remaining
    variables are kept. *)
Theorem reset_environment_effect :
  forall (target : platform) (ok : string -> string -> bool)
         (ctx : PYI_CONTEXT) (w : world),
    exists w',
      pyi_main_reset_environment target ok ctx w = (Next tt, w')
      /\ errors w' = errors w
      /\ env w' !! "PYINSTALLER_RESET_ENVIRONMENT" = None
      /\ if inherits_environment (archive_filename ctx) (env w)
         then forall name, name <> "PYINSTALLER_RESET_ENVIRONMENT" ->
                env w' !! name = env w !! name
         else (forall name, cleared_by_reset target name = true ->
                 env w' !! name = None)
              /\ env w' !! "_PYI_ARCHIVE_FILE"
                 = (if ok "_PYI_ARCHIVE_FILE" (archive_filename ctx)
                    then Some (archive_filename ctx)
                    else env w !! "_PYI_ARCHIVE_FILE")
              /\ (forall name,
                    cleared_by_reset target name = false ->
                    name <> "_PYI_ARCHIVE_FILE" ->
                    name <> "PYINSTALLER_RESET_ENVIRONMENT" ->
                    env w' !! name = env w !! name).
Proof.
  intros target ok ctx w. eexists. split; [apply reset_environment_closed |].
  split; [reflexivity |]. cbn.
  destruct (inherits_environment (archive_filename ctx) (env w)).
  { split; [apply lookup_delete_eq |]. intros name Hn. by apply lookup_delete_ne. }
  assert (forall (e : gmap string string) name,
            (if is_linux target then delete "_PYI_LINUX_PROCESS_NAME" e else e) !! name
            = if is_linux target && String.eqb name "_PYI_LINUX_PROCESS_NAME"
              then None else e !! name) as Hlinux.
  { intros e name. destruct (is_linux target); [| reflexivity]. cbn.
    destruct (String.eqb_spec name "_PYI_LINUX_PROCESS_NAME") as [-> | Hne].
    - apply lookup_delete_eq.
    - by apply lookup_delete_ne. }
  split; [| split; [| split]].
  - rewrite Hlinux. destruct (is_linux target); cbn;
      repeat (rewrite lookup_delete_ne by done);
      destruct (ok _ _); rewrite ?lookup_insert_ne by done; apply lookup_delete_eq.
  - intros name Hc. rewrite Hlinux. unfold cleared_by_reset in Hc.
    destruct (is_linux target && String.eqb name "_PYI_LINUX_PROCESS_NAME"); [done |].
    rewrite orb_false_r in Hc.
    destruct (decide (name = "_PYI_SPLASH_IPC")) as [E | H1];
      [subst name; apply lookup_delete_eq | rewrite lookup_delete_ne by done].
    destruct (decide (name = "_PYI_PARENT_PROCESS_LEVEL")) as [E | H2];
      [subst name; apply lookup_delete_eq | rewrite lookup_delete_ne by done].
    destruct (decide (name = "_PYI_APPLICATION_HOME_DIR")) as [E | H3];
      [subst name; apply lookup_delete_eq |].
    apply String.eqb_neq in H1, H2, H3. rewrite H1, H2, H3 in Hc. discriminate Hc.
  - rewrite Hlinux. replace (is_linux target && _) with false
      by (by rewrite andb_false_r).
    repeat (rewrite lookup_delete_ne by done).
    destruct (ok _ _); [apply lookup_insert_eq | by rewrite lookup_delete_ne].
  - intros name Hc Ha Hr. rewrite Hlinux.
    destruct (cleared_by_reset_names _ _ Hc) as (H1 & H2 & H3 & H4).
    replace (is_linux target && _) with false.
    2: { destruct (is_linux target); [| done]. cbn. symmetry.
         apply String.eqb_neq. by apply H4. }
    repeat (rewrite lookup_delete_ne by done).
    destruct (ok _ _); rewrite ?lookup_insert_ne by done; by rewrite lookup_delete_ne.
Qed.

End EnvironmentReset.

Section EntryAndDescendants.
Import Main Chain.
Local Open Scope step_scope.

(** X3. A process that does not inherit the environment is an
    entry-point process: whatever [_PYI_PARENT_PROCESS_LEVEL] held, even
    text that is no number, the level of its parent is UNKNOWN and no
    error is reported. *)
Theorem foreign_environment_gives_entry_process :
  forall (target : platform) (LONG_MAX : Z) (ok : string -> string -> bool)
         (ctx : PYI_CONTEXT) (w : world),
    inherits_environment (archive_filename ctx) (env w) = false ->
    exists w',
      (pyi_main_reset_environment target ok ctx;;
       pyi_main_parent_process_level LONG_MAX ctx) w
      = (Next (set_parent_process_level PYI_PROCESS_LEVEL_UNKNOWN ctx), w')
      /\ errors w' = errors w
      /\ env w' !! "_PYI_PARENT_PROCESS_LEVEL" = None.
Proof.
  intros target LONG_MAX ok ctx w Hforeign.
  pose proof (reset_environment_closed target ok ctx w) as Hreset.
  cbn zeta in Hreset. rewrite Hforeign in Hreset.
  eexists. unfold bind at 1. rewrite Hreset.
  match goal with
  | |- context [with_env ?e w] =>
      assert (e !! "_PYI_PARENT_PROCESS_LEVEL" = None) as Hnone
  end.
  { destruct (is_linux target); repeat (rewrite lookup_delete_ne by done);
      apply lookup_delete_eq. }
  unfold pyi_main_parent_process_level, bind, pyi_getenv. cbn [env with_env].
  rewrite Hnone. repeat split; first [reflexivity | exact Hnone].
Qed.

Lemma foreign_environment_gives_entry_process_witness :
  let ctx := sample_context (sample_dylib 312 false) 0 [] in
  let w := {| env := {[ "_PYI_ARCHIVE_FILE" := "/usr/bin/other";
                        "_PYI_PARENT_PROCESS_LEVEL" := "7 levels" ]};
              errors := [] |} in
  exists w',
    (pyi_main_reset_environment Linux (fun _ _ => true) ctx;;
     pyi_main_parent_process_level 2147483647 ctx) w
    = (Next (set_parent_process_level PYI_PROCESS_LEVEL_UNKNOWN ctx), w')
    /\ errors w' = []
    /\ env w' !! "_PYI_PARENT_PROCESS_LEVEL" = None.
Proof.
  intros ctx w.
  apply (foreign_environment_gives_entry_process Linux 2147483647 (fun _ _ => true) ctx w).
  vm_compute. reflexivity.
Defined.

Lemma parent_level_of_bootloader target LONG_MAX ctx w :
  1 <= LONG_MAX ->
  bootloader_level target (env w !! "_PYI_PARENT_PROCESS_LEVEL") = true ->
  exists l,
    pyi_main_parent_process_level LONG_MAX ctx w
    = (Next (set_parent_process_level l ctx), w)
    /\ (l = PYI_PROCESS_LEVEL_UNKNOWN \/ l = PYI_PROCESS_LEVEL_PARENT
        \/ l = PYI_PROCESS_LEVEL_MAIN
        \/ (l = PYI_PROCESS_LEVEL_PARENT_NEEDS_RESTART /\ win_mac_cygwin target = false))
    /\ (l = PYI_PROCESS_LEVEL_MAIN ->
        env w !! "_PYI_PARENT_PROCESS_LEVEL" = Some "1").
Proof.
  intros Hmax. unfold pyi_main_parent_process_level, bind, pyi_getenv, bootloader_level.
  assert (forall z, -1 <= z <= 1 -> to_schar (clamp_long LONG_MAX z) = z) as Hval.
  { intros z Hz. unfold clamp_long, to_schar.
    replace (Z.max (- LONG_MAX - 1) (Z.min LONG_MAX z)) with z by lia.
    assert (z = -1 \/ z = 0 \/ z = 1) as [-> | [-> | ->]] by lia; reflexivity. }
  assert (strtol LONG_MAX "0" = (clamp_long LONG_MAX 0, "")) as E0 by reflexivity.
  assert (strtol LONG_MAX "1" = (clamp_long LONG_MAX 1, "")) as E1 by reflexivity.
  assert (strtol LONG_MAX "-1" = (clamp_long LONG_MAX (-1), "")) as E2 by reflexivity.
  destruct (env w !! "_PYI_PARENT_PROCESS_LEVEL") as [v|].
  2: { intros _. eexists. split; [reflexivity |]. split; [tauto | discriminate]. }
  destruct (String.eqb_spec v "0") as [-> | _].
  { intros _. exists 0. rewrite E0, (Hval 0) by lia.
    split; [reflexivity |]. split; [tauto | discriminate]. }
  destruct (String.eqb_spec v "1") as [-> | _].
  { intros _. exists 1. rewrite E1, (Hval 1) by lia.
    split; [reflexivity |]. split; [tauto | done]. }
  destruct (String.eqb_spec v "-1") as [-> | _].
  2: { cbn. rewrite andb_false_r. discriminate. }
  cbn [orb]. rewrite andb_true_r. intros Hwmc. apply negb_true_iff in Hwmc.
  exists (-1). rewrite E2, (Hval (-1)) by lia.
  split; [reflexivity |]. split; [tauto | discriminate].
Qed.

Lemma switch_follows_table target ctx w l :
  role_table target (is_onefile ctx)
    (has_splash ctx && negb (suppress_splash ctx)) (parent_process_level ctx)
  = Some l ->
  pyi_main_process_level target ctx w = (Next (set_process_level l ctx), w).
Proof.
  unfold pyi_main_process_level, role_table.
  destruct (parent_process_level ctx =? PYI_PROCESS_LEVEL_UNKNOWN).
  { destruct (is_onefile ctx), (win_mac_cygwin target),
      (has_splash ctx && negb (suppress_splash ctx)); by intros [= <-]. }
  destruct (win_mac_cygwin target); cbn [negb andb].
  - destruct (parent_process_level ctx =? PYI_PROCESS_LEVEL_PARENT_NEEDS_RESTART) eqn:Hr.
    + discriminate.
    + destruct (parent_process_level ctx =? PYI_PROCESS_LEVEL_PARENT); [by intros [= <-] |].
      destruct (parent_process_level ctx =? PYI_PROCESS_LEVEL_MAIN); [by intros [= <-] |].
      discriminate.
  - destruct (parent_process_level ctx =? PYI_PROCESS_LEVEL_PARENT_NEEDS_RESTART).
    + destruct (is_onefile ctx); by intros [= <-].
    + destruct (parent_process_level ctx =? PYI_PROCESS_LEVEL_PARENT); [by intros [= <-] |].
      destruct (parent_process_level ctx =? PYI_PROCESS_LEVEL_MAIN); [by intros [= <-] |].
      discriminate.
Qed.

End EntryAndDescendants.

Section Descendants.
Import Main Chain.
Local Open Scope step_scope.

(** X4. The values that bootloaders leave in [_PYI_PARENT_PROCESS_LEVEL]
    are closed under [pyi_main]. Started with the variable unset or
    holding 0, 1 or (where restarts exist) -1, a process that has found
    its executable and archive is never rejected for its parent level:
    the role assignment succeeds without a message and gives the level of
    the role table. What follows is decided by the level and the system
    alone: when the level is below [SUBPROCESS] and the system refuses to
    set the variable, [pyi_main] returns -1 after the message about the
    variable, without running the rest of its body; in every other case
    it runs the rest of its body with the level assigned, no message
    written, and the variable set to such a value again. *)
Theorem inherited_level_never_rejected :
  forall (target : platform) (LONG_MAX : Z) (ok : string -> string -> bool)
         (PATH_MAX INT_MAX : Z) (os : SYSTEM)
         (pyi_ctx resolved : PYI_CONTEXT) (w : world),
    1 <= LONG_MAX ->
    bootloader_level target (env w !! "_PYI_PARENT_PROCESS_LEVEL") = true ->
    (pyi_main_resolve target PATH_MAX INT_MAX os pyi_ctx w).1 = Next resolved ->
    exists ctx w1,
      pyi_main_assign_role target LONG_MAX ok resolved w = (Next ctx, w1)
      /\ errors w1 = errors w
      /\ role_table target (is_onefile ctx)
           (has_splash ctx && negb (suppress_splash ctx))
           (parent_process_level ctx)
         = Some (process_level ctx)
      /\ if (process_level ctx <? PYI_PROCESS_LEVEL_SUBPROCESS)
            && negb (ok "_PYI_PARENT_PROCESS_LEVEL" (fmt_d (process_level ctx)))
         then
           forall rest,
             pyi_main target LONG_MAX ok PATH_MAX INT_MAX os pyi_ctx rest w
             = (Return (-1),
                {| env := env w1;
                   errors := errors w ++
                     ["Failed to set _PYI_PARENT_PROCESS_LEVEL environment variable!"] |})
         else
           exists w',
             (forall rest,
                 pyi_main target LONG_MAX ok PATH_MAX INT_MAX os pyi_ctx rest w
                 = rest ctx w')
             /\ errors w' = errors w
             /\ env w' !! "_PYI_PARENT_PROCESS_LEVEL" <> None
             /\ bootloader_level target (env w' !! "_PYI_PARENT_PROCESS_LEVEL")
                = true.
Proof.
  intros target LONG_MAX ok PATH_MAX INT_MAX os pyi_ctx c2 w Hmax Hin Hres.
  assert (pyi_main_resolve target PATH_MAX INT_MAX os pyi_ctx w = (Next c2, w)) as E12.
  { pose proof (resolve_world target PATH_MAX INT_MAX os pyi_ctx w) as [_ Hw].
    cbn zeta in Hw. specialize (Hw c2 Hres).
    destruct (pyi_main_resolve _ _ _ _ _ _) as [r w0]. cbn in Hres, Hw. congruence. }
  destruct (archive_flags_world c2 w) as [c3 E3].
  destruct (reset_environment_level target ok c3 w) as (w1 & E4 & Herr & Hlevel).
  assert (bootloader_level target (env w1 !! "_PYI_PARENT_PROCESS_LEVEL") = true) as Hin1
    by (destruct Hlevel as [-> | ->]; done).
  destruct (parent_level_of_bootloader target LONG_MAX c3 w1 Hmax Hin1)
    as (l & E5 & Hl & Hmain).
  set (c4 := set_parent_process_level l c3) in *.
  assert (exists l',
            role_table target (is_onefile c4)
              (has_splash c4 && negb (suppress_splash c4)) (parent_process_level c4)
            = Some l'
            /\ ((l' = PYI_PROCESS_LEVEL_SUBPROCESS /\ l = PYI_PROCESS_LEVEL_MAIN)
                \/ l' = PYI_PROCESS_LEVEL_PARENT \/ l' = PYI_PROCESS_LEVEL_MAIN
                \/ (l' = PYI_PROCESS_LEVEL_PARENT_NEEDS_RESTART
                    /\ win_mac_cygwin target = false))) as (l' & Htable & Hl').
  { unfold role_table. change (parent_process_level c4) with l.
    destruct Hl as [-> | [-> | [-> | [-> Hw]]]]; cbn.
    - destruct (is_onefile c3), (win_mac_cygwin target) eqn:Hw,
        (has_splash c3 && negb (suppress_splash c3)); eexists; split;
        try reflexivity; auto 10.
    - eexists; split; [reflexivity | tauto].
    - eexists; split; [reflexivity | tauto].
    - rewrite Hw. destruct (is_onefile c3); eexists; split; try reflexivity; tauto. }
  pose proof (switch_follows_table target c4 w1 l' Htable) as E6.
  set (c5 := set_process_level l' c4) in *.
  assert (process_level c5 = l') as Hc5 by reflexivity.
  assert (pyi_main_assign_role target LONG_MAX ok c2 w = (Next c5, w1)) as Erole.
  { unfold pyi_main_assign_role, bind. by rewrite E3, E4, E5, E6. }
  exists c5, w1. split; [exact Erole |]. split; [exact Herr |].
  split; [exact Htable |]. rewrite Hc5.
  destruct Hl' as [[-> Hm] | Hl'].
  - change (PYI_PROCESS_LEVEL_SUBPROCESS <? PYI_PROCESS_LEVEL_SUBPROCESS) with false.
    cbn [andb]. exists w1. split.
    { intros rest. unfold pyi_main. unfold bind at 1. rewrite E12.
      unfold bind at 1. rewrite Erole. reflexivity. }
    split; [exact Herr |]. rewrite (Hmain Hm). split; done.
  - assert ((l' <? PYI_PROCESS_LEVEL_SUBPROCESS) = true) as Hlt
      by (apply Z.ltb_lt; unfold PYI_PROCESS_LEVEL_SUBPROCESS,
            PYI_PROCESS_LEVEL_PARENT_NEEDS_RESTART, PYI_PROCESS_LEVEL_PARENT,
            PYI_PROCESS_LEVEL_MAIN in *; lia).
    rewrite Hlt. cbn [andb].
    destruct (ok "_PYI_PARENT_PROCESS_LEVEL" (fmt_d l')) eqn:Hok; cbn [negb].
    + exists (with_env (<["_PYI_PARENT_PROCESS_LEVEL" := fmt_d l']> (env w1)) w1).
      split.
      { intros rest. unfold pyi_main. unfold bind at 1. rewrite E12.
        unfold bind at 1. rewrite Erole.
        unfold pyi_main_publish_process_level, bind, pyi_setenv.
        rewrite Hc5, Hlt, Hok. reflexivity. }
      split; [exact Herr |].
      cbn [env with_env]. rewrite lookup_insert_eq. split; [done |].
      destruct Hl' as [-> | [-> | [-> Hw]]]; cbn; [done | done |].
      by rewrite Hw.
    + intros rest. unfold pyi_main. unfold bind at 1. rewrite E12.
      unfold bind at 1. rewrite Erole.
      unfold pyi_main_publish_process_level, bind, pyi_setenv.
      rewrite Hc5, Hlt, Hok. cbn. by rewrite Herr.
Qed.

Lemma inherited_level_never_rejected_witness :
  let start := sample_context (sample_dylib 312 false) 0 [] in
  let os := sample_system (archive start) in
  let w := {| env := {[ "_PYI_ARCHIVE_FILE" := "/opt/app/run";
                        "_PYI_PARENT_PROCESS_LEVEL" := "-1" ]};
              errors := [] |} in
  exists ctx' w',
    (forall rest,
        pyi_main Linux 2147483647 (fun _ _ => true) 4096 2147483647 os start rest w
        = rest ctx' w')
    /\ process_level ctx' = PYI_PROCESS_LEVEL_MAIN
    /\ env w' !! "_PYI_PARENT_PROCESS_LEVEL" = Some "1".
Proof.
  intros start os w.
  destruct (inherited_level_never_rejected Linux 2147483647 (fun _ _ => true)
              4096 2147483647 os start
              (set_archive (archive start)
                 (set_archive_filename "/opt/app/run"
                    (set_executable_filename "/opt/app/run" start)))
              w ltac:(lia) ltac:(vm_compute; reflexivity)
              ltac:(vm_compute; reflexivity))
    as (ctx' & w1 & Hrole & _ & _ & Hrun).
  vm_compute in Hrole. injection Hrole as <- <-.
  destruct Hrun as (w' & Hrun & _).
  eexists _, w'. split; [exact Hrun |].
  specialize (Hrun (fun c w0 => (Next 0, w0))).
  vm_compute in Hrun. injection Hrun as <-. split; reflexivity.
Defined.

End Descendants.

Section EntryProcess.
Import Main Chain.
Local Open Scope step_scope.

Lemma archive_flags_result (c : PYI_CONTEXT) (w : world) :
  exists c',
    pyi_main_archive_flags c w = (Next c', w)
    /\ is_onefile c' = contains_extractable_entries (archive c)
    /\ has_splash c' = negb (is_null (toc_splash (archive c)))
    /\ suppress_splash c'
       = (if is_null (toc_splash (archive c)) then suppress_splash c
          else match env w !! "PYINSTALLER_SUPPRESS_SPLASH_SCREEN" with
               | Some v => String.eqb v "1"
               | None => suppress_splash c
               end)
    /\ archive_filename c' = archive_filename c.
Proof.
  unfold pyi_main_archive_flags, bind, pyi_getenv, ret, strcmp_eq.
  cbn [archive set_is_onefile set_has_splash has_splash].
  destruct (toc_splash (archive c)); cbn [is_null negb].
  - destruct (env w !! _); eexists; repeat split; reflexivity.
  - eexists; repeat split; reflexivity.
Qed.

(** X5. The level of an entry-point process (one started without
    [_PYI_PARENT_PROCESS_LEVEL]) is decided by the archive and by
    [PYINSTALLER_SUPPRESS_SPLASH_SCREEN]: with extractable entries the
    program is single-file, a splash entry in the archive makes the
    splash screen available, and only the exact value 1 of the variable
    suppresses it. Where restarts exist, a single-file process restarts
    itself exactly when the splash screen is available and not
    suppressed, and a directory-mode process always does. *)
Theorem entry_process_level :
  forall (target : platform) (LONG_MAX : Z) (ok : string -> string -> bool)
         (PATH_MAX INT_MAX : Z) (os : SYSTEM)
         (pyi_ctx c2 : PYI_CONTEXT) (w : world),
    (pyi_main_resolve target PATH_MAX INT_MAX os pyi_ctx w).1 = Next c2 ->
    suppress_splash c2 = false ->
    env w !! "_PYI_PARENT_PROCESS_LEVEL" = None ->
    (forall v, ok "_PYI_PARENT_PROCESS_LEVEL" v = true) ->
    let single_file := contains_extractable_entries (archive c2) in
    let splash := negb (is_null (toc_splash (archive c2))) in
    let suppressed :=
      bool_decide (env w !! "PYINSTALLER_SUPPRESS_SPLASH_SCREEN" = Some "1") in
    exists ctx w',
      (forall rest,
          pyi_main target LONG_MAX ok PATH_MAX INT_MAX os pyi_ctx rest w
          = rest ctx w')
      /\ is_onefile ctx = single_file
      /\ has_splash ctx = splash
      /\ suppress_splash ctx = splash && suppressed
      /\ parent_process_level ctx = PYI_PROCESS_LEVEL_UNKNOWN
      /\ process_level ctx
         = (if win_mac_cygwin target then
              if single_file then PYI_PROCESS_LEVEL_PARENT else PYI_PROCESS_LEVEL_MAIN
            else if single_file && negb (splash && negb suppressed)
                 then PYI_PROCESS_LEVEL_PARENT
                 else PYI_PROCESS_LEVEL_PARENT_NEEDS_RESTART)
      /\ env w' !! "_PYI_PARENT_PROCESS_LEVEL" = Some (fmt_d (process_level ctx)).
Proof.
  intros target LONG_MAX ok PATH_MAX INT_MAX os pyi_ctx c2 w Hres Hzero Hnone Hok
    single_file splash suppressed.
  assert (pyi_main_resolve target PATH_MAX INT_MAX os pyi_ctx w = (Next c2, w)) as E12.
  { pose proof (resolve_world target PATH_MAX INT_MAX os pyi_ctx w) as [_ Hw].
    cbn zeta in Hw. specialize (Hw c2 Hres).
    destruct (pyi_main_resolve _ _ _ _ _ _) as [r w0]. cbn in Hres, Hw. congruence. }
  destruct (archive_flags_result c2 w) as (c3 & E3 & Hone & Hsplash & Hsup & _).
  destruct (reset_environment_level target ok c3 w) as (w1 & E4 & _ & Hlevel).
  assert (env w1 !! "_PYI_PARENT_PROCESS_LEVEL" = None) as Hnone1
    by (destruct Hlevel as [-> | ->]; done).
  assert (pyi_main_parent_process_level LONG_MAX c3 w1
          = (Next (set_parent_process_level PYI_PROCESS_LEVEL_UNKNOWN c3), w1)) as E5.
  { unfold pyi_main_parent_process_level, bind, pyi_getenv. by rewrite Hnone1. }
  set (c4 := set_parent_process_level PYI_PROCESS_LEVEL_UNKNOWN c3) in *.
  assert (suppress_splash c3 = splash && suppressed) as Hsup'.
  { rewrite Hsup, Hzero. subst splash suppressed.
    destruct (toc_splash (archive c2)); cbn; [| reflexivity].
    destruct (env w !! "PYINSTALLER_SUPPRESS_SPLASH_SCREEN") as [v|]; [| reflexivity].
    destruct (String.eqb_spec v "1") as [E | Hne].
    - subst v. by rewrite bool_decide_eq_true_2.
    - rewrite bool_decide_eq_false_2; [reflexivity | congruence]. }
  set (l := if win_mac_cygwin target then
              if single_file then PYI_PROCESS_LEVEL_PARENT else PYI_PROCESS_LEVEL_MAIN
            else if single_file && negb (splash && negb suppressed)
                 then PYI_PROCESS_LEVEL_PARENT
                 else PYI_PROCESS_LEVEL_PARENT_NEEDS_RESTART).
  assert (pyi_main_process_level target c4 w1 = (Next (set_process_level l c4), w1)) as E6.
  { unfold pyi_main_process_level. change (parent_process_level c4) with (-2).
    change (-2 =? PYI_PROCESS_LEVEL_UNKNOWN) with true. cbv iota.
    change (is_onefile c4) with (is_onefile c3).
    change (has_splash c4) with (has_splash c3).
    change (suppress_splash c4) with (suppress_splash c3).
    rewrite Hone, Hsplash, Hsup'. fold single_file splash. subst l.
    destruct single_file, (win_mac_cygwin target), splash, suppressed; reflexivity. }
  set (c5 := set_process_level l c4) in *.
  assert ((l <? PYI_PROCESS_LEVEL_SUBPROCESS) = true) as Hlt.
  { subst l. destruct (win_mac_cygwin target), single_file, splash, suppressed;
      reflexivity. }
  exists c5, (with_env (<["_PYI_PARENT_PROCESS_LEVEL" := fmt_d l]> (env w1)) w1).
  split.
  { intros rest. unfold pyi_main. unfold bind at 1. rewrite E12.
    unfold pyi_main_assign_role, bind. rewrite E3, E4, E5, E6.
    unfold pyi_main_publish_process_level, bind, pyi_setenv.
    change (process_level c5) with l. rewrite Hlt, Hok. reflexivity. }
  repeat split; try assumption.
  cbn [env with_env]. by rewrite lookup_insert_eq.
Qed.

Lemma entry_process_level_witness :
  let start := sample_context (sample_dylib 312 false) 0 [] in
  let archive_with_splash :=
    {| toc := []; pkg_offset := 4096; contains_extractable_entries := true;
       toc_splash := Some (option_entry "splash") |} in
  let os := sample_system archive_with_splash in
  let w := {| env := {[ "PYINSTALLER_SUPPRESS_SPLASH_SCREEN" := "1" ]};
              errors := [] |} in
  exists ctx w',
    (forall rest,
        pyi_main Linux 2147483647 (fun _ _ => true) 4096 2147483647 os
          start rest w = rest ctx w')
    /\ suppress_splash ctx = true
    /\ process_level ctx = PYI_PROCESS_LEVEL_PARENT
    /\ env w' !! "_PYI_PARENT_PROCESS_LEVEL" = Some "0".
Proof.
  intros start archive_with_splash os w.
  destruct (entry_process_level Linux 2147483647 (fun _ _ => true)
              4096 2147483647 os start
              (set_archive archive_with_splash
                 (set_archive_filename "/opt/app/run"
                    (set_executable_filename "/opt/app/run" start)))
              w)
    as (ctx & w' & Hrun & _ & _ & Hsup & _ & Hlevel & Henv);
    try reflexivity.
  exists ctx, w'. split; [exact Hrun |]. split; [exact Hsup |].
  split; [exact Hlevel |]. rewrite Henv, Hlevel. reflexivity.
Defined.

End EntryProcess.

(** ** More on the run-time options *)

Section ScalarOptions.
Import RuntimeOptions Spec OptionWords.

Lemma pyi_prefix n :
  strncmp_eq n "pyi-" 4 = true -> exists r, n = String "p" (String "y" (String "i" (String "-" r))).
Proof.
  destruct n as [|a [|b [|c [|d r]]]]; cbn; try discriminate;
    repeat match goal with
           | |- context [Ascii.eqb ?x ?y] => destruct (Ascii.eqb_spec x y); try discriminate
           end.
  subst. intros _. by exists r.
Qed.

Lemma hash_seed_prefix n r :
  strip_prefix "hash_seed" n = Some r -> exists n', n = String "h" n'.
Proof.
  destruct n as [|a n']; cbn; [discriminate |].
  destruct (Ascii.eqb_spec a "h") as [-> |]; [| discriminate]. intros _. by exists n'.
Qed.

Lemma key_value_flag flag name :
  _pyi_match_key_value_flag flag name
  = match strip_prefix name flag with
    | Some EmptyString => Some EmptyString
    | Some (String c value) =>
        if Ascii.eqb c "=" || Ascii.eqb c " " then Some value else None
    | None => None
    end.
Proof.
  unfold _pyi_match_key_value_flag. rewrite <- match_strip_prefix.
  destruct (strncmp_eq flag name (String.length name)); reflexivity.
Qed.

(** The effect of one entry on the scalar fields in the first loop. *)
Lemma scan_entry_scalars U e opts cw cx :
  let o' := (scan_entry U e (opts, cw, cx)).1.1 in
  verbose o' = verbose opts + (if named ["v"; "verbose"] e then 1 else 0)
  /\ optimize o' = optimize opts + (if named ["O"; "optimize"] e then 1 else 0)
  /\ unbuffered o' = (if named ["u"; "unbuffered"] e then 1 else unbuffered opts)
  /\ (use_hash_seed o', hash_seed o')
     = match hash_seed_text e with
       | Some v => (1, strtoul10 U v)
       | None => (use_hash_seed opts, hash_seed opts)
       end.
Proof.
  destruct e as [tc n off len].
  unfold scan_entry, named, hash_seed_text, is_option, xflag_value, strcmp_eq.
  cbn [entry_typecode name existsb].
  destruct (typecode_eqb tc ARCHIVE_ITEM_RUNTIME_OPTION); cbn [negb andb].
  2: { cbn. repeat split; lia. }
  rewrite key_value_flag.
  destruct (strncmp_eq n "pyi-" 4) eqn:Hp.
  { apply pyi_prefix in Hp as [r ->]. cbn. repeat split; lia. }
  destruct (String.eqb_spec n "v") as [-> | Hv]; [cbn; repeat split; lia |].
  destruct (String.eqb_spec n "verbose") as [-> | Hvv]; [cbn; repeat split; lia |].
  destruct (String.eqb_spec n "u") as [-> | Hu]; [cbn; repeat split; lia |].
  destruct (String.eqb_spec n "unbuffered") as [-> | Huu]; [cbn; repeat split; lia |].
  destruct (String.eqb_spec n "O") as [-> | Ho]; [cbn; repeat split; lia |].
  destruct (String.eqb_spec n "optimize") as [-> | Hoo]; [cbn; repeat split; lia |].
  cbn [orb].
  destruct (strncmp_eq n "W " 2) eqn:HW.
  { apply flag_prefix in HW as [r ->]. cbn. repeat split; lia. }
  destruct (strncmp_eq n "X " 2) eqn:HX.
  { apply flag_prefix in HX as [r ->]. cbn. repeat split; lia. }
  destruct (strip_prefix "hash_seed" n) as [[|c v]|]; try (cbn; repeat split; lia).
  destruct (Ascii.eqb c "=" || Ascii.eqb c " "); [| cbn; repeat split; lia].
  destruct v as [|c' v]; cbn; repeat split; lia.
Qed.

End ScalarOptions.

Section ScalarOptionsOfToc.
Import RuntimeOptions Spec OptionWords.

Lemma scan_scalars U entries : forall opts cw cx,
  let o' := (fold_left (fun st e => scan_entry U e st) entries (opts, cw, cx)).1.1 in
  verbose o' = verbose opts + count_named ["v"; "verbose"] entries
  /\ optimize o' = optimize opts + count_named ["O"; "optimize"] entries
  /\ unbuffered o'
     = (if existsb (named ["u"; "unbuffered"]) entries then 1 else unbuffered opts)
  /\ (use_hash_seed o', hash_seed o')
     = match last (omap hash_seed_text entries) with
       | Some v => (1, strtoul10 U v)
       | None => (use_hash_seed opts, hash_seed opts)
       end.
Proof.
  induction entries as [|e entries IH]; intros opts cw cx.
  - cbn. unfold count_named. cbn. repeat split; lia.
  - cbn [fold_left].
    pose proof (scan_entry_scalars U e opts cw cx) as (S1 & S2 & S3 & S4).
    destruct (scan_entry U e (opts, cw, cx)) as [[o1 cw1] cx1]. cbn [fst] in *.
    specialize (IH o1 cw1 cx1). cbn zeta in IH. destruct IH as (I1 & I2 & I3 & I4).
    rewrite I1, I2, I3, I4, S1, S2, S3. unfold count_named.
    cbn [List.filter existsb].
    repeat split.
    + destruct (named ["v"; "verbose"] e); cbn [length]; lia.
    + destruct (named ["O"; "optimize"] e); cbn [length]; lia.
    + destruct (named ["u"; "unbuffered"] e), (existsb _ entries); reflexivity.
    + assert (omap hash_seed_text (e :: entries)
              = match hash_seed_text e with
                | Some y => y :: omap hash_seed_text entries
                | None => omap hash_seed_text entries
                end) as -> by reflexivity.
      destruct (hash_seed_text e) as [v|]; [| by rewrite S4].
      injection S4 as S4 S5.
      destruct (omap hash_seed_text entries) as [|v' l] eqn:El.
      * cbn. by rewrite S4, S5.
      * change (last (v :: v' :: l)) with (last (v' :: l)).
        destruct (last (v' :: l)) eqn:E; [reflexivity |].
        apply last_None in E. discriminate E.
Qed.

Lemma collect_entry_scalars mb pm un pep e st st' :
  collect_entry mb pm un pep e st = Going st' ->
  verbose (options st') = verbose (options st)
  /\ optimize (options st') = optimize (options st)
  /\ unbuffered (options st') = unbuffered (options st)
  /\ use_hash_seed (options st') = use_hash_seed (options st)
  /\ hash_seed (options st') = hash_seed (options st).
Proof.
  destruct (entry_kinds e) as [(HW & HX & _) | [(HW & HX & _) | (HW & HX)]]; intros He.
  - rewrite (collect_entry_wflag mb pm un pep e st st' HW He). by destruct pep.
  - rewrite (collect_entry_xflag mb pm un pep e st st' HW HX He). by destruct pep.
  - rewrite (collect_entry_other mb pm un pep e st HW HX) in He. by injection He as <-.
Qed.

Lemma collect_scalars mb pm un pep entries : forall st st',
  collect mb pm un pep entries st = Going st' ->
  verbose (options st') = verbose (options st)
  /\ optimize (options st') = optimize (options st)
  /\ unbuffered (options st') = unbuffered (options st)
  /\ use_hash_seed (options st') = use_hash_seed (options st)
  /\ hash_seed (options st') = hash_seed (options st).
Proof.
  induction entries as [|e entries IH]; intros st st' H.
  - by injection H as <-.
  - cbn [collect] in H.
    destruct (collect_entry mb pm un pep e st) as [st1 | log] eqn:He; [| discriminate].
    destruct (collect_entry_scalars _ _ _ _ _ _ _ He) as (E1 & E2 & E3 & E4 & E5).
    destruct (IH _ _ H) as (I1 & I2 & I3 & I4 & I5).
    repeat split; congruence.
Qed.

Lemma allocate_scalars c0 pep cw cx opts h opts1 h1 :
  allocate_flags c0 pep cw cx opts h = Some (opts1, h1) ->
  verbose opts1 = verbose opts /\ optimize opts1 = optimize opts
  /\ unbuffered opts1 = unbuffered opts
  /\ use_hash_seed opts1 = use_hash_seed opts /\ hash_seed opts1 = hash_seed opts.
Proof.
  unfold allocate_flags.
  destruct pep;
    destruct (calloc c0 cw h) as [w h'];
    destruct (calloc c0 cx h') as [x h''];
    destruct (_ || _); try discriminate; intros [= <- <-]; done.
Qed.

Lemma read_stages U c0 mb pm un ctx h opts log :
  pyi_runtime_options_read U c0 mb pm un ctx h = (Some opts, log) ->
  let entries := toc (archive ctx) in
  let pep := has_pep741 (dylib_python ctx) in
  exists h0 opts0 cw cx opts1 h1 st',
    h = S h0
    /\ scan U entries (set_utf8_mode (-1) options_zero) = (opts0, cw, cx)
    /\ allocate_flags c0 pep cw cx opts0 h0 = Some (opts1, h1)
    /\ collect mb pm un pep entries {| options := opts1; memory := h1; stray_stores := [] |}
       = Going st'
    /\ opts = options st' /\ log = stray_stores st'.
Proof.
  unfold pyi_runtime_options_read. destruct h as [|h0]; [discriminate |].
  destruct (scan U _ _) as [[opts0 cw] cx] eqn:Hs.
  destruct (allocate_flags _ _ _ _ _ _) as [[opts1 h1]|] eqn:Ha; [| discriminate].
  destruct (collect _ _ _ _ _ _) as [st'|] eqn:Hc; [| discriminate].
  intros [= <- <-]. cbn zeta. eexists h0, opts0, cw, cx, opts1, h1, st'. done.
Qed.

(** X6. The scalar options of the record that [pyi_runtime_options_read]
    returns: [verbose] and [optimize] count the option entries named
    [v]/[verbose] and [O]/[optimize], [unbuffered] is 1 exactly when an
    entry named [u] or [unbuffered] exists, and the hash seed is taken
    from the last entry [hash_seed=<text>] with a text that is not empty,
    read as an unsigned decimal; without such an entry no seed is used. *)
Theorem scalar_options_of_toc :
  forall U c0 mb pm un (pyi_ctx : PYI_CONTEXT) (h : heap) opts log,
    pyi_runtime_options_read U c0 mb pm un pyi_ctx h = (Some opts, log) ->
    let entries := toc (archive pyi_ctx) in
    verbose opts = count_named ["v"; "verbose"] entries
    /\ optimize opts = count_named ["O"; "optimize"] entries
    /\ unbuffered opts
       = (if existsb (named ["u"; "unbuffered"]) entries then 1 else 0)
    /\ match last (omap hash_seed_text entries) with
       | Some text => use_hash_seed opts = 1 /\ hash_seed opts = strtoul10 U text
       | None => use_hash_seed opts = 0 /\ hash_seed opts = 0
       end.
Proof.
  intros U c0 mb pm un pyi_ctx h opts log Hread entries.
  destruct (read_stages _ _ _ _ _ _ _ _ _ Hread)
    as (h0 & opts0 & cw & cx & opts1 & h1 & st' & _ & Hs & Ha & Hc & -> & _).
  destruct (collect_scalars _ _ _ _ _ _ _ Hc) as (C1 & C2 & C3 & C4 & C5).
  destruct (allocate_scalars _ _ _ _ _ _ _ _ Ha) as (A1 & A2 & A3 & A4 & A5).
  cbn [options] in *.
  pose proof (scan_scalars U entries (set_utf8_mode (-1) options_zero) O O)
    as (S1 & S2 & S3 & S4).
  unfold scan in Hs. fold entries in Hs. rewrite Hs in S1, S2, S3, S4. cbn [fst] in *.
  rewrite C1, C2, C3, C4, C5, A1, A2, A3, A4, A5, S1, S2, S3.
  repeat split; try reflexivity.
  destruct (last (omap hash_seed_text entries)); injection S4 as -> ->; done.
Qed.

Lemma scalar_options_of_toc_witness :
  let ctx := sample_context (sample_dylib 312 false) 0
               [option_entry "v"; option_entry "hash_seed=7"; option_entry "verbose";
                option_entry "pyi-runtime-tmpdir /tmp"; option_entry "u";
                option_entry "hash_seed"; option_entry "hash_seed 42";
                module_entry "v"; option_entry "O"] in
  exists opts log,
    pyi_runtime_options_read 18446744073709551615 false sample_mbstowcs 4096 empty_flag_w ctx 10%nat
    = (Some opts, log)
    /\ verbose opts = 2 /\ optimize opts = 1 /\ unbuffered opts = 1
    /\ use_hash_seed opts = 1 /\ hash_seed opts = 42.
Proof.
  intros ctx. eexists _, _. split; [vm_compute; reflexivity |].
  destruct (scalar_options_of_toc 18446744073709551615 false sample_mbstowcs 4096 empty_flag_w ctx 10%nat _ []
              ltac:(vm_compute; reflexivity)) as (H1 & H2 & H3 & H4 & H5).
  split; [exact H1 |]. split; [exact H2 |]. split; [exact H3 |].
  split; [exact H4 | exact H5].
Defined.

End ScalarOptionsOfToc.

Section OptionsMemory.
Import RuntimeOptions Spec OptionWords.

Lemma flag_count_cons e entries :
  flag_count (e :: entries)
  = (b2n (is_flag_entry "W " e) + b2n (is_flag_entry "X " e) + flag_count entries)%nat.
Proof.
  unfold flag_count. rewrite !flag_arguments_cons, !length_app.
  destruct (is_flag_entry "W " e), (is_flag_entry "X " e); cbn; lia.
Qed.

Lemma collect_entry_memory mb pm un pep e st :
  (is_flag_entry "W " e || is_flag_entry "X " e = true) ->
  match memory st with
  | O => exists log, collect_entry mb pm un pep e st = Failed log
  | S h => exists st', collect_entry mb pm un pep e st = Going st' /\ memory st' = h
  end.
Proof.
  unfold is_flag_entry, collect_entry, strdup, _pyi_copy_xwflag, wcsdup.
  destruct (typecode_eqb (entry_typecode e) ARCHIVE_ITEM_RUNTIME_OPTION); [| discriminate].
  cbn [andb negb].
  destruct (strncmp_eq (name e) "W " 2); cbn [orb].
  - intros _. destruct pep, (memory st); cbn [is_null];
      repeat match goal with
             | |- context [store ?a ?i ?v] => destruct (store a i v) as [? ?]
             end; eauto.
  - intros ->. destruct pep, (memory st); cbn [is_null];
      repeat match goal with
             | |- context [store ?a ?i ?v] => destruct (store a i v) as [? ?]
             end; eauto.
Qed.

Lemma collect_memory mb pm un pep entries : forall st,
  if (flag_count entries <=? memory st)%nat
  then exists st', collect mb pm un pep entries st = Going st'
                   /\ memory st' = (memory st - flag_count entries)%nat
  else exists log, collect mb pm un pep entries st = Failed log.
Proof.
  induction entries as [|e entries IH]; intros st.
  - cbn. exists st. split; [reflexivity | lia].
  - rewrite flag_count_cons. cbn [collect].
    destruct (entry_kinds e) as [(HW & HX & _) | [(HW & HX & _) | (HW & HX)]];
      rewrite HW, HX; cbn [b2n Nat.add].
    1, 2: pose proof (collect_entry_memory mb pm un pep e st ltac:(by rewrite HW, HX)) as Hm;
          destruct (memory st) as [|h] eqn:Hh;
          [ destruct Hm as [log ->]; cbn; eauto
          | destruct Hm as (st1 & -> & Hm1); specialize (IH st1); rewrite Hm1 in IH;
            change (S (flag_count entries) <=? S h)%nat with (flag_count entries <=? h)%nat;
            destruct (flag_count entries <=? h)%nat; [| exact IH];
            destruct IH as (st' & Hc & Hm'); exists st'; split; [exact Hc | lia] ].
    rewrite (collect_entry_other mb pm un pep e st HW HX). apply IH.
Qed.

Lemma allocate_memory c0 pep cw cx opts h :
  match allocate_flags c0 pep cw cx opts h with
  | Some (_, h') =>
      (cw = O \/ 1 <= h)%nat /\ (cx = O \/ 2 <= h)%nat /\ h' = (h - 2)%nat
  | None => (cw <> O /\ h = O) \/ (cx <> O /\ h <= 1)%nat
  end.
Proof.
  unfold allocate_flags, calloc.
  destruct pep, h as [|[|h]], cw as [|cw], cx as [|cx], c0; cbn; lia.
Qed.

(** X7. [pyi_runtime_options_read] returns NULL only when memory runs
    out, and returns the record whenever it does not: with no W- or
    X-flag in the archive one allocation (the structure) is enough, and
    with [n] of them it needs the structure, the two arrays and one copy
    per flag. *)
Theorem read_fails_only_without_memory :
  forall U c0 mb pm un (pyi_ctx : PYI_CONTEXT) (h : heap),
    let n := flag_count (toc (archive pyi_ctx)) in
    (pyi_runtime_options_read U c0 mb pm un pyi_ctx h).1 <> None
    <-> (if (n =? 0)%nat then 1 <= h else 3 + n <= h)%nat.
Proof.
  intros U c0 mb pm un pyi_ctx h n. unfold pyi_runtime_options_read.
  destruct h as [|h]; [cbn; destruct (n =? 0)%nat; split; [done | lia | done | lia] |].
  unfold scan.
  destruct (scan_effect U (toc (archive pyi_ctx)) (set_utf8_mode (-1) options_zero) O O)
    as (v & u & o & uhs & hs & ->). cbn [Nat.add].
  set (cw := length (flag_arguments "W " (toc (archive pyi_ctx)))) in *.
  set (cx := length (flag_arguments "X " (toc (archive pyi_ctx)))) in *.
  assert (n = cw + cx)%nat as Hn by reflexivity.
  match goal with
  | |- context [allocate_flags ?a ?b ?c ?d ?e ?f] =>
      pose proof (allocate_memory a b c d e f) as Ha;
      destruct (allocate_flags a b c d e f) as [[opts1 h1]|]
  end.
  2: { cbn. destruct (Nat.eqb_spec n 0); split; try done; lia. }
  destruct Ha as (Hw & Hx & ->).
  match goal with
  | |- context [collect ?a ?b ?c ?d ?e ?f] =>
      pose proof (collect_memory a b c d e f) as Hc
  end.
  cbn [memory] in Hc. fold n in Hc.
  destruct (Nat.leb_spec n (h - 2)) as [Hle | Hgt].
  - destruct Hc as (st' & -> & _). cbn.
    destruct (Nat.eqb_spec n 0); split; try done; lia.
  - destruct Hc as (log & ->). cbn.
    destruct (Nat.eqb_spec n 0); split; try done; lia.
Qed.

End OptionsMemory.

Section OptionsBounds.
Import RuntimeOptions Spec OptionWords.


Lemma store_fits {A} (array : option (list (option A))) used remaining v :
  fits array used (S remaining) ->
  (store array used v).2 = false
  /\ fits (store array used v).1 (S used) remaining.
Proof.
  intros [Hz | (slots & -> & Hlen)]; [discriminate |].
  unfold store. replace (used <? length slots)%nat with true
    by (symmetry; apply Nat.ltb_lt; lia).
  split; [reflexivity |]. right. eexists. split; [reflexivity |].
  rewrite length_insert. lia.
Qed.


Lemma only_xflags_refl pep log : only_xflags pep log log.
Proof. intros a i H. by left. Qed.

Lemma only_xflags_trans pep l1 l2 l3 :
  only_xflags pep l1 l2 -> only_xflags pep l2 l3 -> only_xflags pep l1 l3.
Proof.
  intros H12 H23 a i H. destruct (H23 a i H) as [H2 | H2]; [by apply H12 | by right].
Qed.

Lemma only_xflags_note log i : only_xflags true log (note_stray true "xflags" i log).
Proof.
  intros a j H. unfold note_stray in H. apply in_app_iff in H as [H | [H | []]].
  - by left.
  - injection H as <- <-. by right.
Qed.



Lemma collect_entry_bounds mb pm un pep e entries st :
  roomy pep (e :: entries) (options st) ->
  only_xflags pep (stray_stores st) (log_of (collect_entry mb pm un pep e st))
  /\ forall st', collect_entry mb pm un pep e st = Going st' -> roomy pep entries (options st').
Proof.
  unfold roomy. rewrite !flag_arguments_cons, !length_app.
  destruct (entry_kinds e) as [(HW & HX & _) | [(HW & HX & _) | (HW & HX)]];
    rewrite HW, HX; cbn [length Nat.add app].
  3: { rewrite (collect_entry_other mb pm un pep e st HW HX). cbn.
       intros H. split; [apply only_xflags_refl |]. by intros st' [= <-]. }
  - (* a W-flag *)
    unfold is_flag_entry in HW, HX. unfold collect_entry, strdup, _pyi_copy_xwflag, wcsdup.
    destruct (typecode_eqb (entry_typecode e) ARCHIVE_ITEM_RUNTIME_OPTION);
      [| discriminate]. cbn [andb negb] in *. rewrite HW.
    destruct pep.
    + intros Hfit.
      destruct (memory st) as [|h]; [cbn; split; [apply only_xflags_refl | discriminate] |].
      destruct (store_fits _ _ _ (Some (str_from 2 (name e))) Hfit) as [Hin Hnext].
      destruct (store (wflags (options st)) _ _) as [arr oob]. cbn [fst snd] in *.
      subst oob. cbn. split; [apply only_xflags_refl |].
      intros st' [= <-]. exact Hnext.
    + intros [Hfit Hx].
      destruct (memory st) as [|h].
      * destruct (store_fits _ _ _ (@None wstring) Hfit) as [Hin _].
        destruct (store (wflags_w (options st)) _ _) as [arr oob]. cbn [fst snd] in *.
        subst oob. cbn. split; [apply only_xflags_refl | discriminate].
      * destruct (store_fits _ _ _ (Some (flag_w mb pm un (str_from 2 (name e)))) Hfit) as [Hin Hnext].
        destruct (store (wflags_w (options st)) _ _) as [arr oob]. cbn [fst snd] in *.
        subst oob. cbn. split; [apply only_xflags_refl |].
        intros st' [= <-]. split; [exact Hnext | exact Hx].
  - (* an X-flag *)
    unfold is_flag_entry in HW, HX. unfold collect_entry, strdup, _pyi_copy_xwflag, wcsdup.
    destruct (typecode_eqb (entry_typecode e) ARCHIVE_ITEM_RUNTIME_OPTION);
      [| discriminate]. cbn [andb negb] in *. rewrite HW, HX.
    destruct pep.
    + intros Hfit.
      destruct (memory st) as [|h]; [cbn; split; [apply only_xflags_refl | discriminate] |].
      destruct (store (xflags (options st)) _ _) as [arr oob]. cbn.
      split.
      * destruct oob; [apply only_xflags_note | apply only_xflags_refl].
      * intros st' [= <-]. exact Hfit.
    + intros [Hw Hfit].
      destruct (memory st) as [|h].
      * destruct (store_fits _ _ _ (@None wstring) Hfit) as [Hin _].
        destruct (store (xflags_w (options st)) _ _) as [arr oob]. cbn [fst snd] in *.
        subst oob. cbn. split; [apply only_xflags_refl | discriminate].
      * destruct (store_fits _ _ _ (Some (flag_w mb pm un (str_from 2 (name e)))) Hfit) as [Hin Hnext].
        destruct (store (xflags_w (options st)) _ _) as [arr oob]. cbn [fst snd] in *.
        subst oob. cbn. split; [apply only_xflags_refl |].
        intros st' [= <-]. split; [exact Hw | exact Hnext].
Qed.

Lemma collect_bounds mb pm un pep entries : forall st,
  roomy pep entries (options st) ->
  only_xflags pep (stray_stores st) (log_of (collect mb pm un pep entries st)).
Proof.
  induction entries as [|e entries IH]; intros st Hroom.
  - apply only_xflags_refl.
  - cbn [collect].
    destruct (collect_entry_bounds mb pm un pep e entries st Hroom) as [Hlog Hnext].
    destruct (collect_entry mb pm un pep e st) as [st1 | log]; [| exact Hlog].
    eapply only_xflags_trans; [exact Hlog |]. apply IH. by apply Hnext.
Qed.

(** X8. Every store of the collecting loop lies inside its array, except
    the stores of X-flags under PEP 741: whatever the archive holds and
    however much memory there is, the only stores past the end of an
    array (or through a NULL array) are those into [xflags] with the new
    protocol; the W-flag arrays and the wide X-flag array are never
    overrun. *)
Theorem only_xflags_stores_stray :
  forall U c0 mb pm un (pyi_ctx : PYI_CONTEXT) (h : heap) (array : string) (index : nat),
    In (array, index) (pyi_runtime_options_read U c0 mb pm un pyi_ctx h).2 ->
    array = "xflags" /\ has_pep741 (dylib_python pyi_ctx) = true.
Proof.
  intros U c0 mb pm un pyi_ctx h array index. unfold pyi_runtime_options_read.
  destruct h as [|h]; [intros [] |].
  unfold scan.
  destruct (scan_effect U (toc (archive pyi_ctx)) (set_utf8_mode (-1) options_zero) O O)
    as (v & u & o & uhs & hs & ->). cbn [Nat.add].
  match goal with
  | |- context [allocate_flags ?a ?b ?c ?d ?e ?f] =>
      destruct (allocate_flags a b c d e f) as [[opts1 h1]|] eqn:Ha
  end; [| intros []].
  apply allocate_effect in Ha as (_ & _ & Anw & Anx & Aarr). cbn in Anw, Anx.
  match goal with
  | |- context [collect ?a ?b ?c ?d ?e ?f] =>
      pose proof (collect_bounds a b c d e f) as Hc;
      destruct (collect a b c d e f) as [st'|log]
  end; cbn [log_of options stray_stores] in Hc; intros Hin; cbn [snd] in Hin.
  all: destruct (Hc) with (a := array) (i := index) as [[] | Hx]; try exact Hx;
    try exact Hin.
  all: unfold roomy; rewrite Anw, Anx;
    destruct (has_pep741 (dylib_python pyi_ctx));
    destruct Aarr as (_ & _ & Aw & Ax);
    repeat split;
    match goal with
    | |- fits _ _ ?n =>
        destruct n eqn:E; [by left | right; eexists; split;
                                     [first [apply Aw | apply Ax]; done
                                     | by rewrite length_replicate]]
    end.
Qed.

Lemma only_xflags_stores_stray_witness :
  let ctx := sample_context (sample_dylib 314 true) 0
               [option_entry "W a"; option_entry "X b"] in
  (pyi_runtime_options_read 18446744073709551615 false sample_mbstowcs 4096 empty_flag_w ctx 10%nat).2
  = [("xflags", 1%nat)]
  /\ has_pep741 (dylib_python ctx) = true.
Proof.
  intros ctx. split; [vm_compute; reflexivity |].
  apply (only_xflags_stores_stray 18446744073709551615 false sample_mbstowcs 4096 empty_flag_w ctx 10%nat
           "xflags" 1%nat).
  vm_compute. left. reflexivity.
Defined.

End OptionsBounds.

(** ** Conversion to UTF-8 *)

Section Utf8.
Import Pep741 Unicode.

Lemma land_disjoint (a b k : Z) :
  0 <= k -> 0 <= b < 2 ^ k -> Z.land (a * 2 ^ k) b = 0.
Proof.
  intros Hk Hb. apply Z.bits_inj'. intros n Hn.
  rewrite Z.land_spec, Z.bits_0.
  destruct (Z.lt_ge_cases n k) as [Hlt | Hge].
  - by rewrite Z.mul_pow2_bits_low.
  - destruct (Z.eq_dec b 0) as [-> | Hb0]; [by rewrite Z.bits_0, andb_false_r |].
    rewrite (Z.bits_above_log2 b n), andb_false_r; [done | lia |].
    apply Z.lt_le_trans with k; [| exact Hge].
    apply Z.log2_lt_pow2; lia.
Qed.

Lemma lor_disjoint (a b k : Z) :
  0 <= k -> 0 <= b < 2 ^ k -> Z.lor (a * 2 ^ k) b = a * 2 ^ k + b.
Proof.
  intros Hk Hb. symmetry. apply Z.add_nocarry_lor. by apply land_disjoint.
Qed.

Lemma low_six (x : Z) : Z.lor 128 (Z.land x 63) = 128 + x mod 64.
Proof.
  change 63 with (Z.ones 6). rewrite Z.land_ones by lia.
  change 128 with (2 * 2 ^ 6) at 1. rewrite lor_disjoint; [reflexivity | lia |].
  apply Z.mod_pos_bound. lia.
Qed.

(** The bytes written for one code point are those of RFC 3629. *)
Lemma utf8_bytes_encoding (cp : Z) :
  0 <= cp < 2 ^ 21 -> utf8_bytes cp = utf8_encoding cp.
Proof.
  intros Hcp. unfold utf8_bytes, utf8_encoding.
  destruct (Z.ltb_spec cp 128); [reflexivity |].
  rewrite !low_six, !Z.shiftr_div_pow2 by lia.
  change (2 ^ 6) with 64. change (2 ^ 12) with 4096. change (2 ^ 18) with 262144.
  destruct (Z.ltb_spec cp 2048).
  { f_equal. change 192 with (3 * 2 ^ 6). rewrite lor_disjoint; [reflexivity | lia |].
    split; [apply Z.div_pos; lia | apply Z.div_lt_upper_bound; lia]. }
  destruct (Z.ltb_spec cp 65536).
  { f_equal. change 224 with (14 * 2 ^ 4). rewrite lor_disjoint; [reflexivity | lia |].
    split; [apply Z.div_pos; lia | apply Z.div_lt_upper_bound; lia]. }
  f_equal. change 240 with (15 * 2 ^ 4). rewrite lor_disjoint; [reflexivity | lia |].
  split; [apply Z.div_pos; lia | apply Z.div_lt_upper_bound; lia].
Qed.

Lemma surrogate_pair (hi lo : Z) :
  is_high_surrogate hi = true -> is_low_surrogate lo = true ->
  65536 + Z.lor (Z.shiftl (Z.land hi 1023) 10) (Z.land lo 1023)
  = 65536 + (hi - 55296) * 1024 + (lo - 56320)
  /\ 65536 <= 65536 + (hi - 55296) * 1024 + (lo - 56320) < 2 ^ 21.
Proof.
  unfold is_high_surrogate, is_low_surrogate. intros Hh Hl.
  apply andb_true_iff in Hh as [Hh1 Hh2]. apply andb_true_iff in Hl as [Hl1 Hl2].
  apply Z.leb_le in Hh1, Hh2, Hl1, Hl2.
  change 1023 with (Z.ones 10). rewrite !Z.land_ones, Z.shiftl_mul_pow2 by lia.
  rewrite lor_disjoint by (try apply Z.mod_pos_bound; lia).
  change (2 ^ 10) with 1024.
  assert (hi mod 1024 = hi - 55296) as ->.
  { symmetry. apply (Z.mod_unique _ _ 54); lia. }
  assert (lo mod 1024 = lo - 56320) as ->.
  { symmetry. apply (Z.mod_unique _ _ 55); lia. }
  split; [lia |]. change (2 ^ 21) with 2097152. lia.
Qed.

Lemma encode_wide_pair (ch next : Z) (rest : list Z) :
  encode_wide (ch :: next :: rest)
  = if is_high_surrogate ch && is_low_surrogate next
    then utf8_bytes (65536 + Z.lor (Z.shiftl (Z.land ch 1023) 10) (Z.land next 1023))
           ++ encode_wide rest
    else utf8_bytes ch ++ encode_wide (next :: rest).
Proof.
  unfold is_high_surrogate, is_low_surrogate. rewrite andb_assoc. reflexivity.
Qed.

Lemma code_points_pair (u next : Z) (rest : list Z) :
  code_points (u :: next :: rest)
  = if is_high_surrogate u && is_low_surrogate next
    then (65536 + (u - 55296) * 1024 + (next - 56320)) :: code_points rest
    else u :: code_points (next :: rest).
Proof. reflexivity. Qed.

Lemma encode_wide_by_length (n : nat) : forall string_w : wstring,
  (length string_w <= n)%nat ->
  (forall u, In u string_w -> 0 <= u < 2 ^ 21) ->
  encode_wide string_w = flat_map utf8_encoding (code_points string_w)
  /\ (length (encode_wide string_w) <= 4 * length string_w)%nat.
Proof.
  induction n as [|n IH]; intros string_w Hlen Hrange.
  { destruct string_w; [split; [reflexivity | cbn; lia] | cbn in Hlen; lia]. }
  destruct string_w as [|ch [|next rest]].
  - split; [reflexivity | cbn; lia].
  - cbn [encode_wide code_points flat_map]. rewrite app_nil_r.
    rewrite utf8_bytes_encoding by (apply Hrange; by left).
    split; [reflexivity |]. unfold utf8_encoding.
    repeat match goal with |- context [if ?b then _ else _] => destruct b end; cbn; lia.
  - assert (forall cp, (length (utf8_bytes cp) <= 4)%nat) as Hfour.
    { intros cp. unfold utf8_bytes.
      repeat match goal with |- context [if ?b then _ else _] => destruct b end;
        cbn; lia. }
    rewrite encode_wide_pair, code_points_pair.
    destruct (is_high_surrogate ch) eqn:Hh, (is_low_surrogate next) eqn:Hl; cbn [andb].
    + destruct (surrogate_pair ch next Hh Hl) as [-> Hcp].
      destruct (IH rest) as [-> Hb].
      { cbn in Hlen. lia. }
      { intros u Hu. apply Hrange. right. by right. }
      cbn [flat_map]. rewrite utf8_bytes_encoding by lia.
      split; [reflexivity |]. rewrite length_app.
      pose proof (Hfour (65536 + (ch - 55296) * 1024 + (next - 56320))) as H4.
      rewrite utf8_bytes_encoding in H4 by lia. cbn [length]. lia.
    + destruct (IH (next :: rest)) as [-> Hb].
      { cbn in Hlen |- *. lia. }
      { intros u Hu. apply Hrange. by right. }
      cbn [flat_map]. rewrite utf8_bytes_encoding by (apply Hrange; by left).
      split; [reflexivity |]. rewrite length_app.
      pose proof (Hfour ch) as H4.
      rewrite utf8_bytes_encoding in H4 by (apply Hrange; by left).
      cbn [length] in *. lia.
    + destruct (IH (next :: rest)) as [-> Hb].
      { cbn in Hlen |- *. lia. }
      { intros u Hu. apply Hrange. by right. }
      cbn [flat_map]. rewrite utf8_bytes_encoding by (apply Hrange; by left).
      split; [reflexivity |]. rewrite length_app.
      pose proof (Hfour ch) as H4.
      rewrite utf8_bytes_encoding in H4 by (apply Hrange; by left).
      cbn [length] in *. lia.
    + destruct (IH (next :: rest)) as [-> Hb].
      { cbn in Hlen |- *. lia. }
      { intros u Hu. apply Hrange. by right. }
      cbn [flat_map]. rewrite utf8_bytes_encoding by (apply Hrange; by left).
      split; [reflexivity |]. rewrite length_app.
      pose proof (Hfour ch) as H4.
      rewrite utf8_bytes_encoding in H4 by (apply Hrange; by left).
      cbn [length] in *. lia.
Qed.

End Utf8.

Section Utf8Conversion.
Import Pep741 Unicode.

Lemma encode_wide_length (n : nat) : forall string_w : wstring,
  (length string_w <= n)%nat ->
  (length (encode_wide string_w) <= 4 * length string_w)%nat.
Proof.
  assert (forall cp, (length (utf8_bytes cp) <= 4)%nat) as Hfour.
  { intros cp. unfold utf8_bytes.
    repeat match goal with |- context [if ?b then _ else _] => destruct b end;
      cbn; lia. }
  induction n as [|n IH]; intros string_w Hlen.
  { destruct string_w; [cbn; lia | cbn in Hlen; lia]. }
  destruct string_w as [|ch [|next rest]].
  - cbn; lia.
  - cbn [encode_wide]. specialize (Hfour ch). cbn [length]. lia.
  - rewrite encode_wide_pair.
    destruct (is_high_surrogate ch && is_low_surrogate next);
      rewrite length_app;
      match goal with |- context [utf8_bytes ?cp] => specialize (Hfour cp) end.
    + specialize (IH rest). cbn [length] in *. lia.
    + specialize (IH (next :: rest)). cbn [length] in *. lia.
Qed.

(** X9. What [_wchar_to_utf8] returns is the UTF-8 encoding (RFC 3629)
    of the code points of its argument, a high surrogate followed by a
    low one counting as the one code point it stands for; the elements
    are taken below 2^21, which covers all of Unicode. *)
Theorem wide_string_encoded_as_utf8 :
  forall (SIZE_MAX : Z) (malloc_ok : Z -> bool) (string_w : wstring) (text : string),
    (forall u, In u string_w -> 0 <= u < 2 ^ 21) ->
    _wchar_to_utf8 SIZE_MAX malloc_ok string_w = Some text ->
    text = c_string (flat_map utf8_encoding (code_points string_w)).
Proof.
  intros SIZE_MAX malloc_ok string_w text Hrange. unfold _wchar_to_utf8.
  destruct (_ <? _); [discriminate |]. destruct (negb _); [discriminate |].
  intros [= <-].
  by rewrite (proj1 (encode_wide_by_length _ string_w (le_n _) Hrange)).
Qed.

Lemma wide_string_encoded_as_utf8_witness :
  _wchar_to_utf8 18446744073709551615 (fun _ => true)
    [72; 233; 8364; 55357; 56832]
  = Some (c_string [72; 195; 169; 226; 130; 172; 240; 159; 152; 128])
  /\ c_string [72; 195; 169; 226; 130; 172; 240; 159; 152; 128]
     = c_string (flat_map utf8_encoding [72; 233; 8364; 128512]).
Proof.
  split; [vm_compute; reflexivity |].
  apply (wide_string_encoded_as_utf8 18446744073709551615 (fun _ => true)
           [72; 233; 8364; 55357; 56832]).
  - intros u Hu. cbn in Hu. change (2 ^ 21) with 2097152.
    repeat (destruct Hu as [<- | Hu]; [lia |]). destruct Hu.
  - vm_compute. reflexivity.
Defined.

(** X10. [_wchar_to_utf8] never writes past its buffer: when it returns
    a string, the size it asked [malloc] for - four bytes for every wide
    character and for the terminator - did not overflow [size_t], was
    granted, and covers every byte the loop wrote and the terminator. *)
Theorem utf8_buffer_is_large_enough :
  forall (SIZE_MAX : Z) (malloc_ok : Z -> bool) (string_w : wstring) (text : string),
    0 <= SIZE_MAX ->
    _wchar_to_utf8 SIZE_MAX malloc_ok string_w = Some text ->
    let allocated := (Z.of_nat (length string_w) + 1) * 4 in
    allocated <= SIZE_MAX
    /\ malloc_ok allocated = true
    /\ Z.of_nat (length (encode_wide string_w)) + 1 <= allocated.
Proof.
  intros SIZE_MAX malloc_ok string_w text Hmax H allocated.
  unfold _wchar_to_utf8 in H. fold allocated in H.
  destruct (Z.ltb_spec (SIZE_MAX / 4) (Z.of_nat (length string_w) + 1)) as [| Hfit];
    [discriminate |].
  destruct (malloc_ok allocated) eqn:Hok; [| discriminate].
  split; [| split; [reflexivity |]].
  - subst allocated. pose proof (Z.mul_div_le SIZE_MAX 4 ltac:(lia)). lia.
  - pose proof (encode_wide_length _ string_w (le_n _)). subst allocated. lia.
Qed.

Lemma utf8_buffer_is_large_enough_witness :
  _wchar_to_utf8 18446744073709551615 (fun _ => true) [8364; 8364]
  = Some (c_string [226; 130; 172; 226; 130; 172])
  /\ Z.of_nat (length (encode_wide [8364; 8364])) + 1 <= 12.
Proof.
  split; [vm_compute; reflexivity |].
  apply (utf8_buffer_is_large_enough 18446744073709551615 (fun _ => true)
           [8364; 8364] (c_string [226; 130; 172; 226; 130; 172]));
    [lia | vm_compute; reflexivity].
Defined.

End Utf8Conversion.
(** ** More on the configurators *)

Section Arguments.
Import Pep587.

Lemma decode_arguments_all dylib args l :
  decode_arguments dylib args = Some l
  <-> Forall2 (fun a w => Py_DecodeLocale dylib a = Some w) args l.
Proof.
  revert l. induction args as [|a args IH]; intros l; cbn.
  - split; [intros [= <-]; constructor | by intros ->%Forall2_nil_inv_l].
  - destruct (Py_DecodeLocale dylib a) as [w|] eqn:Ea.
    + destruct (decode_arguments dylib args) as [l'|].
      * split.
        -- intros [= <-]. constructor; [done | by apply IH].
        -- intros (w' & l'' & Hw & Hl & ->)%Forall2_cons_inv_l.
           apply IH in Hl. congruence.
      * split; [discriminate |].
        intros (w' & l'' & Hw & Hl & ->)%Forall2_cons_inv_l.
        apply IH in Hl. discriminate.
    + split; [discriminate |].
      intros (w' & l'' & Hw & Hl & ->)%Forall2_cons_inv_l. congruence.
Qed.

Lemma convert_arguments_all {A} (convert : A -> M Pep741.state (option string))
    (f : A -> option string) (args : list A) (s : Pep741.state) :
  (forall a s, convert a s = (Next (f a), s)) ->
  exists r,
    Pep741.convert_arguments convert args s = (Next r, s)
    /\ forall l, r = Some l <-> Forall2 (fun a t => f a = Some t) args l.
Proof.
  intros Hf. induction args as [|a args IH]; cbn.
  - eexists. split; [reflexivity |]. intros l.
    split; [intros [= <-]; constructor | by intros ->%Forall2_nil_inv_l].
  - destruct IH as (r & Hr & Hall). unfold bind, ret in *. rewrite Hf.
    destruct (f a) as [t|] eqn:Ea.
    + rewrite Hr. eexists. split; [reflexivity |]. intros l.
      destruct r as [l'|].
      * split.
        -- intros [= <-]. constructor; [done | by apply Hall].
        -- intros (t' & l'' & Ht & Hl & ->)%Forall2_cons_inv_l.
           apply Hall in Hl. congruence.
      * split; [discriminate |].
        intros (t' & l'' & Ht & Hl & ->)%Forall2_cons_inv_l.
        apply Hall in Hl. discriminate.
    + eexists. split; [reflexivity |]. intros l. split; [discriminate |].
      intros (t' & l'' & Ht & Hl & ->)%Forall2_cons_inv_l. congruence.
Qed.

Lemma read_items_all {A} (l : list A) : read_items (map Some l) (length l) = Some l.
Proof. induction l as [|x l IH]; [reflexivity |]. cbn. by rewrite IH. Qed.

Lemma read_array_all {A} (l : list A) : read_array (Some (map Some l)) (length l) = Some l.
Proof. destruct l; [reflexivity |]. apply (read_items_all (a :: l)). Qed.

(** X11. [sys.argv] receives every argument, in order: when a
    configurator sets the arguments successfully, the list it stores has
    one element per argument - of [pyi_argv] when the arguments were
    rewritten, of [argv] otherwise, of [argv_w] on Windows - each being
    the conversion of the argument at its place; no argument is dropped,
    repeated or reordered. *)
Theorem every_argument_reaches_sys_argv :
  forall (target : platform) (SIZE_MAX : Z) (malloc_ok : Z -> bool)
         (calloc_ok : nat -> bool) (wcs_to_utf8 : wstring -> option string)
         (pyi_ctx : PYI_CONTEXT),
    let dylib := dylib_python pyi_ctx in
    let args :=
      match pyi_argv pyi_ctx with
      | Some modified => modified
      | None => Context.argv pyi_ctx
      end in
    (forall config config',
        pyi_pyconfig_pep587_set_argv target calloc_ok pyi_ctx config
        = (Next 0, config') ->
        if is_win32 target then PyTypes.argv config' = argv_w pyi_ctx
        else Forall2 (fun a w => Py_DecodeLocale dylib a = Some w)
               args (PyTypes.argv config'))
    /\ (forall s s',
          Pep741.pyi_pyconfig_pep741_set_argv target SIZE_MAX malloc_ok calloc_ok
            wcs_to_utf8 pyi_ctx s = (Next 0, s') ->
          exists l,
            Pep741.config s' !! "argv" = Some (PyStrList l)
            /\ if is_win32 target
               then Forall2 (fun a t => wcs_to_utf8 a = Some t) (argv_w pyi_ctx) l
               else Forall2
                      (fun a t => exists w,
                           Py_DecodeLocale dylib a = Some w
                           /\ Pep741._wchar_to_utf8 SIZE_MAX malloc_ok w = Some t)
                      args l).
Proof.
  intros target SIZE_MAX malloc_ok calloc_ok wcs_to_utf8 pyi_ctx dylib args. split.
  - intros config config'. unfold pyi_pyconfig_pep587_set_argv.
    fold args dylib.
    assert (forall l config0,
              _pyi_pyconfig_set_argv pyi_ctx (length l) (Some (map Some l)) config0
              = (Next 0, config') -> PyTypes.argv config' = l) as Hset.
    { intros l config0. unfold _pyi_pyconfig_set_argv.
      destruct (select_layout _); [| discriminate].
      unfold bind, PyConfig_SetWideStringList. rewrite read_array_all. unfold ret.
      destruct (PyConfig_SetWideStringList_ok _ l); [| discriminate].
      by intros [= <-]. }
    destruct (is_win32 target).
    + exact (Hset _ _).
    + destruct (negb (calloc_ok (length args))); [discriminate |].
      destruct (decode_arguments dylib args) as [l|] eqn:Hl; [| discriminate].
      apply decode_arguments_all in Hl.
      rewrite (Forall2_length _ _ _ Hl).
      intros H. apply Hset in H. by rewrite H.
  - intros s s'. unfold Pep741.pyi_pyconfig_pep741_set_argv.
    fold args dylib. unfold call, bind.
    set (f := fun a : string =>
                match Py_DecodeLocale dylib a with
                | Some w => Pep741._wchar_to_utf8 SIZE_MAX malloc_ok w
                | None => None
                end).
    assert (forall l0 (st : Pep741.state) (argc : nat),
              argc = length l0 ->
              Pep741.PyInitConfig_SetStrList dylib "argv" argc (Some (map Some l0)) st
              = (Next 0, Pep741.put "argv" (PyStrList l0) st)
              \/ Pep741.PyInitConfig_SetStrList dylib "argv" argc (Some (map Some l0)) st
                 = (Next (-1), st)) as Hset.
    { intros l0 st argc ->. unfold Pep741.PyInitConfig_SetStrList.
      rewrite read_array_all.
      destruct (PyInitConfig_SetStrList_ok _ _ _); auto. }
    destruct (is_win32 target).
    + destruct (negb (calloc_ok (length (argv_w pyi_ctx)))); [discriminate |].
      destruct (convert_arguments_all (fun a => ret (wcs_to_utf8 a)) wcs_to_utf8
                  (argv_w pyi_ctx) s ltac:(reflexivity)) as (r & -> & Hall).
      destruct r as [l|]; [| discriminate].
      pose proof (proj1 (Hall l) eq_refl) as Hl.
      destruct (Hset l s (length (argv_w pyi_ctx)) (Forall2_length _ _ _ Hl))
        as [-> | ->]; cbn; [| intros H; discriminate H].
      intros [= <-]. exists l. split; [apply lookup_insert_eq | exact Hl].
    + replace (match pyi_argv pyi_ctx with
               | Some modified => length modified
               | None => length (Context.argv pyi_ctx)
               end) with (length args)
        by (subst args; by destruct (pyi_argv pyi_ctx)).
      destruct (negb (calloc_ok (length args))); [discriminate |].
      destruct (convert_arguments_all
                  (fun a => Pep741._locale_encoding_to_utf8 SIZE_MAX malloc_ok dylib a None)
                  f args s) as (r & -> & Hall).
      { intros a st. unfold Pep741._locale_encoding_to_utf8, f.
        destruct (Py_DecodeLocale dylib a); reflexivity. }
      destruct r as [l|]; [| discriminate].
      pose proof (proj1 (Hall l) eq_refl) as Hl.
      destruct (Hset l s (length args) (Forall2_length _ _ _ Hl))
        as [-> | ->]; cbn; [| intros H; discriminate H].
      intros [= <-]. exists l. split; [apply lookup_insert_eq |].
      eapply Forall2_impl; [exact Hl |]. intros a t. unfold f.
      destruct (Py_DecodeLocale dylib a) as [w|]; [| discriminate]. eauto.
Qed.

Lemma every_argument_reaches_sys_argv_witness :
  let start := sample_context (sample_dylib 312 false) 0 [] in
  let ctx :=
    {| Context.argv := ["/opt/app/run"; "--verbose"; "input.txt"];
       argv_w := []; pyi_argv := None;
       executable_filename := "/opt/app/run"; archive_filename := "/opt/app/run";
       archive := archive start; has_splash := false; suppress_splash := false;
       is_onefile := false; process_level := 1; parent_process_level := -1;
       application_home_dir := "/opt/app"; dylib_python := dylib_python start;
       nogil_enabled := 0; dynamic_loader_filename := "" |} in
  exists config',
    pyi_pyconfig_pep587_set_argv Linux (fun _ => true) ctx PyConfig_zero
    = (Next 0, config')
    /\ Forall2 (fun a w => widen a = w)
         ["/opt/app/run"; "--verbose"; "input.txt"] (PyTypes.argv config').
Proof.
  intros start ctx. eexists. split; [vm_compute; reflexivity |].
  pose proof (proj1 (every_argument_reaches_sys_argv Linux 18446744073709551615
                       (fun _ => true) (fun _ => true) (fun _ => None) ctx)
                PyConfig_zero _ ltac:(vm_compute; reflexivity)) as H.
  eapply Forall2_impl; [exact H |]. intros a w [= <-]. reflexivity.
Defined.

End Arguments.

Section Layouts.
Import Pep587.

(** X12. Under PEP 587 every helper looks the layout up by itself, and
    all of them agree with [pyi_pyconfig_pep587_create]: for a version
    and GIL flag without a layout no structure is allocated, and each of
    the five setters returns -1 and leaves the structure it was given
    untouched. *)
Theorem helpers_reject_unknown_layout :
  forall (target : platform) (PATH_MAX : Z) (config_calloc_ok : bool)
         (calloc_ok : nat -> bool) (utf8_to_wcs : string -> option wstring)
         (pyi_ctx : PYI_CONTEXT) (runtime_options : RuntimeOptions.PyiRuntimeOptions)
         (config : PyConfig),
    select_layout (version_id_of pyi_ctx) = None ->
    pyi_pyconfig_pep587_create config_calloc_ok pyi_ctx = None
    /\ pyi_pyconfig_pep587_set_program_name target utf8_to_wcs pyi_ctx config
       = (Next (-1), config)
    /\ pyi_pyconfig_pep587_set_python_home target utf8_to_wcs pyi_ctx config
       = (Next (-1), config)
    /\ pyi_pyconfig_pep587_set_module_search_paths target PATH_MAX utf8_to_wcs
         pyi_ctx config = (Next (-1), config)
    /\ pyi_pyconfig_pep587_set_argv target calloc_ok pyi_ctx config
       = (Next (-1), config)
    /\ pyi_pyconfig_pep587_set_runtime_options pyi_ctx runtime_options config
       = (Next (-1), config).
Proof.
  intros target PATH_MAX config_calloc_ok calloc_ok utf8_to_wcs pyi_ctx
    runtime_options config Hnone.
  unfold pyi_pyconfig_pep587_create, pyi_pyconfig_pep587_set_program_name,
    pyi_pyconfig_pep587_set_python_home, pyi_pyconfig_pep587_set_module_search_paths,
    pyi_pyconfig_pep587_set_argv, pyi_pyconfig_pep587_set_runtime_options,
    _pyi_pyconfig_set_module_search_paths, _pyi_pyconfig_set_argv.
  rewrite Hnone. repeat split.
  - repeat match goal with |- context [if ?b then _ else _] => destruct b end;
      reflexivity.
  - repeat match goal with
           | |- context [if ?b then _ else _] => destruct b
           | |- context [match decode_arguments ?d ?a with _ => _ end] =>
               destruct (decode_arguments d a)
           end; reflexivity.
Qed.

Lemma helpers_reject_unknown_layout_witness :
  let ctx := sample_context (sample_dylib 307 false) 0 [] in
  pyi_pyconfig_pep587_create true ctx = None
  /\ pyi_pyconfig_pep587_set_argv Linux (fun _ => true) ctx PyConfig_zero
     = (Next (-1), PyConfig_zero).
Proof.
  intros ctx.
  destruct (helpers_reject_unknown_layout Linux 4096 true (fun _ => true)
              (fun _ => None) ctx default_options PyConfig_zero)
    as (H1 & _ & _ & _ & H5 & _); [reflexivity |].
  split; [exact H1 | exact H5].
Defined.

End Layouts.

(** ** Starting the interpreter: every failure is reported *)

Section NoExit.
Import Outcomes.

Lemma no_exit_ret {S A} (a : A) : no_exit (S := S) (ret a).
Proof. intros s. discriminate. Qed.

Lemma no_exit_c_return {S A} (c : Z) : no_exit (S := S) (A := A) (c_return c).
Proof. intros s. discriminate. Qed.

Lemma no_exit_undefined {S A} : no_exit (S := S) (A := A) undefined.
Proof. intros s. discriminate. Qed.

Lemma no_exit_bind {S A B} (m : M S A) (k : A -> M S B) :
  no_exit m -> (forall a, no_exit (k a)) -> no_exit (bind m k).
Proof.
  intros Hm Hk s. unfold bind. specialize (Hm s).
  destruct (m s) as [[a| c | |] s']; cbn in *; try done. apply Hk.
Qed.

Lemma no_exit_call {S} (m : M S Z) : no_exit m -> no_exit (call m).
Proof.
  intros Hm s. unfold call. specialize (Hm s).
  destruct (m s) as [[a| c | |] s']; cbn in *; done.
Qed.

End NoExit.

Ltac no_exit_step :=
  first
    [ apply no_exit_call
    | apply no_exit_bind; [| intros ?]
    | apply no_exit_ret
    | apply no_exit_c_return
    | apply no_exit_undefined
    | match goal with
      | |- Outcomes.no_exit (if ?b then _ else _) => destruct b
      | |- Outcomes.no_exit (match ?x with _ => _ end) => destruct x
      | |- Outcomes.no_exit (let '(_, _) := ?x in _) => destruct x
      end
    | (intros ?s; cbv beta; repeat match goal with
                        | |- context [if ?b then _ else _] => destruct b
                        | |- context [match ?x with _ => _ end] => destruct x
                        end; discriminate) ].

Section HelpersNeverExit.
Import Outcomes.

Lemma PyInitConfig_SetInt_no_exit dylib name value :
  no_exit (Pep741.PyInitConfig_SetInt dylib name value).
Proof. intros s. unfold Pep741.PyInitConfig_SetInt. by destruct (PyInitConfig_SetInt_ok _ _ _). Qed.

Lemma PyInitConfig_SetStr_no_exit dylib name value :
  no_exit (Pep741.PyInitConfig_SetStr dylib name value).
Proof. intros s. unfold Pep741.PyInitConfig_SetStr. by destruct (PyInitConfig_SetStr_ok _ _ _). Qed.

Lemma PyInitConfig_SetStrList_no_exit dylib name n items :
  no_exit (Pep741.PyInitConfig_SetStrList dylib name n items).
Proof.
  intros s. unfold Pep741.PyInitConfig_SetStrList.
  destruct (read_array items n); [| discriminate].
  by destruct (PyInitConfig_SetStrList_ok _ _ _).
Qed.

Lemma PYI_ERROR_no_exit msg : no_exit (Pep741.PYI_ERROR msg).
Proof. intros s. discriminate. Qed.

Lemma locale_to_utf8_no_exit S M dylib str size :
  no_exit (Pep741._locale_encoding_to_utf8 S M dylib str size).
Proof.
  unfold Pep741._locale_encoding_to_utf8. repeat no_exit_step.
Qed.

Lemma convert_arguments_no_exit {A} (convert : A -> M Pep741.state (option string)) args :
  (forall a, no_exit (convert a)) -> no_exit (Pep741.convert_arguments convert args).
Proof.
  intros Hc. induction args as [|a args IH]; cbn; [apply no_exit_ret |].
  apply no_exit_bind; [apply Hc |]. intros [t|]; [| apply no_exit_ret].
  apply no_exit_bind; [exact IH |]. intros ?. apply no_exit_ret.
Qed.

End HelpersNeverExit.

Create HintDb no_exit.

#[local] Hint Resolve PyInitConfig_SetInt_no_exit PyInitConfig_SetStr_no_exit
  PyInitConfig_SetStrList_no_exit PYI_ERROR_no_exit locale_to_utf8_no_exit
  : no_exit.

Ltac no_exit := repeat first [ solve [auto with no_exit] | no_exit_step ].

Section ConfiguratorsNeverExit.
Import Outcomes.

Lemma pep741_set_program_name_no_exit t P S M ctx :
  no_exit (Pep741.pyi_pyconfig_pep741_set_program_name t P S M ctx).
Proof. unfold Pep741.pyi_pyconfig_pep741_set_program_name. no_exit. Qed.

Lemma pep741_set_python_home_no_exit t P S M ctx :
  no_exit (Pep741.pyi_pyconfig_pep741_set_python_home t P S M ctx).
Proof. unfold Pep741.pyi_pyconfig_pep741_set_python_home. no_exit. Qed.

Lemma pep741_set_module_search_paths_no_exit t P S M ctx :
  no_exit (Pep741.pyi_pyconfig_pep741_set_module_search_paths t P S M ctx).
Proof. unfold Pep741.pyi_pyconfig_pep741_set_module_search_paths. no_exit. Qed.

Lemma pep741_set_argv_no_exit t S M C W ctx :
  no_exit (Pep741.pyi_pyconfig_pep741_set_argv t S M C W ctx).
Proof.
  unfold Pep741.pyi_pyconfig_pep741_set_argv. 
  apply no_exit_call. destruct (negb _); [apply no_exit_c_return |].
  apply no_exit_bind.
  - destruct (is_win32 t); apply convert_arguments_no_exit; intros a;
      [apply no_exit_ret | apply locale_to_utf8_no_exit].
  - intros [l|]; no_exit.
Qed.

Lemma pep741_set_runtime_options_no_exit ctx ro :
  no_exit (Pep741.pyi_pyconfig_pep741_set_runtime_options ctx ro).
Proof.
  unfold Pep741.pyi_pyconfig_pep741_set_runtime_options,
    Pep741.set_int_option, Pep741.set_list_option. no_exit.
Qed.

End ConfiguratorsNeverExit.

Section LegacyConfiguratorsNeverExit.
Import Outcomes Pep587.

Lemma PyConfig_SetWideStringList_no_exit dylib n items :
  no_exit (Pep587.PyConfig_SetWideStringList dylib n items).
Proof.
  unfold Pep587.PyConfig_SetWideStringList. destruct (read_array items n);
    [apply no_exit_ret | apply no_exit_undefined].
Qed.

Lemma pep587_set_program_name_no_exit t U ctx :
  no_exit (Pep587.pyi_pyconfig_pep587_set_program_name t U ctx).
Proof.
  intros s. unfold Pep587.pyi_pyconfig_pep587_set_program_name.
  destruct (select_layout _); [| discriminate].
  destruct (Pep587._pyi_pyconfig_set_string _ _ _ _); discriminate.
Qed.

Lemma pep587_set_python_home_no_exit t U ctx :
  no_exit (Pep587.pyi_pyconfig_pep587_set_python_home t U ctx).
Proof.
  intros s. unfold Pep587.pyi_pyconfig_pep587_set_python_home.
  destruct (select_layout _); [| discriminate].
  destruct (Pep587._pyi_pyconfig_set_string _ _ _ _); discriminate.
Qed.

Lemma pep587_store_paths_no_exit ctx n items :
  no_exit (Pep587._pyi_pyconfig_set_module_search_paths ctx n items).
Proof.
  unfold Pep587._pyi_pyconfig_set_module_search_paths.
  destruct (select_layout _); [| apply no_exit_ret].
  apply no_exit_bind; [apply PyConfig_SetWideStringList_no_exit |].
  intros [l|] s; discriminate.
Qed.

Lemma pep587_set_module_search_paths_no_exit t P U ctx :
  no_exit (Pep587.pyi_pyconfig_pep587_set_module_search_paths t P U ctx).
Proof.
  unfold Pep587.pyi_pyconfig_pep587_set_module_search_paths. cbv zeta.
  repeat (match goal with |- no_exit (if ?b then _ else _) => destruct b end;
          [apply no_exit_ret |]).
  apply pep587_store_paths_no_exit.
Qed.

Lemma pep587_store_argv_no_exit ctx n items :
  no_exit (Pep587._pyi_pyconfig_set_argv ctx n items).
Proof.
  unfold Pep587._pyi_pyconfig_set_argv.
  destruct (select_layout _); [| apply no_exit_ret].
  apply no_exit_bind; [apply PyConfig_SetWideStringList_no_exit |].
  intros [l|] s; discriminate.
Qed.

Lemma pep587_set_argv_no_exit t C ctx :
  no_exit (Pep587.pyi_pyconfig_pep587_set_argv t C ctx).
Proof.
  unfold Pep587.pyi_pyconfig_pep587_set_argv.
  destruct (is_win32 t); [apply pep587_store_argv_no_exit |]. cbv zeta.
  destruct (negb _); [apply no_exit_ret |].
  destruct (Pep587.decode_arguments _ _);
    [apply pep587_store_argv_no_exit | apply no_exit_ret].
Qed.

Lemma pep587_set_runtime_options_no_exit ctx ro :
  no_exit (Pep587.pyi_pyconfig_pep587_set_runtime_options ctx ro).
Proof.
  unfold Pep587.pyi_pyconfig_pep587_set_runtime_options. cbv zeta.
  destruct (select_layout _); [| apply no_exit_ret].
  apply no_exit_call.
  apply no_exit_bind; [intros s; discriminate | intros _].
  apply no_exit_bind.
  { destruct (_ =? _)%nat; [apply no_exit_ret |].
    apply no_exit_bind; [apply PyConfig_SetWideStringList_no_exit |].
    intros [l|] s; discriminate. }
  intros _. apply no_exit_bind.
  { destruct (_ =? _)%nat; [apply no_exit_ret |].
    apply no_exit_bind; [apply PyConfig_SetWideStringList_no_exit |].
    intros [l|] s; discriminate. }
  intros _. apply no_exit_bind; [intros s; discriminate | intros _].
  apply no_exit_c_return.
Qed.

End LegacyConfiguratorsNeverExit.

Section Definedness.
Import Outcomes.

Lemma defined_ret {S A} (P : Prop) (a : A) : defined_unless (S := S) P (ret a).
Proof. intros s H. discriminate H. Qed.

Lemma defined_c_return {S A} (P : Prop) (c : Z) :
  defined_unless (S := S) (A := A) P (c_return c).
Proof. intros s H. discriminate H. Qed.

Lemma defined_bind {S A B} (P : Prop) (m : M S A) (k : A -> M S B) :
  defined_unless P m -> (forall a, defined_unless P (k a)) ->
  defined_unless P (bind m k).
Proof.
  intros Hm Hk s. unfold bind. specialize (Hm s).
  destruct (m s) as [[a| c | |] s']; cbn in *;
    [apply Hk | intros H; discriminate H | intros H; discriminate H
    | intros _; by apply Hm].
Qed.

Lemma defined_call {S} (P : Prop) (m : M S Z) :
  defined_unless P m -> defined_unless P (call m).
Proof.
  intros Hm s. unfold call. specialize (Hm s).
  destruct (m s) as [[a| c | |] s']; cbn in *;
    [intros H; discriminate H | intros H; discriminate H
    | intros H; discriminate H | intros _; by apply Hm].
Qed.

Lemma defined_weaken {S A} (P Q : Prop) (m : M S A) :
  (P -> Q) -> defined_unless P m -> defined_unless Q m.
Proof. intros HPQ Hm s H. apply HPQ, (Hm s H). Qed.

End Definedness.

Ltac defined_step :=
  first
    [ apply defined_call
    | apply defined_bind; [| intros ?]
    | apply defined_ret
    | apply defined_c_return
    | match goal with
      | |- Outcomes.defined_unless _ (if ?b then _ else _) => destruct b
      | |- Outcomes.defined_unless _ (match ?x with _ => _ end) => destruct x
      end ].

Section HelpersDefined.
Import Outcomes Reports.

Lemma PyInitConfig_SetInt_defined (P : Prop) dylib name value :
  defined_unless P (Pep741.PyInitConfig_SetInt dylib name value).
Proof.
  intros s. unfold Pep741.PyInitConfig_SetInt.
  by destruct (PyInitConfig_SetInt_ok _ _ _).
Qed.

Lemma PyInitConfig_SetStr_defined (P : Prop) dylib name value :
  defined_unless P (Pep741.PyInitConfig_SetStr dylib name value).
Proof.
  intros s. unfold Pep741.PyInitConfig_SetStr.
  by destruct (PyInitConfig_SetStr_ok _ _ _).
Qed.

Lemma PyInitConfig_SetStrList_defined dylib name n items :
  defined_unless (read_array items n = None)
    (Pep741.PyInitConfig_SetStrList dylib name n items).
Proof.
  intros s. unfold Pep741.PyInitConfig_SetStrList.
  destruct (read_array items n); [| done].
  by destruct (PyInitConfig_SetStrList_ok _ _ _).
Qed.

Lemma PYI_ERROR_defined (P : Prop) msg : defined_unless P (Pep741.PYI_ERROR msg).
Proof. intros s H. discriminate H. Qed.

Lemma reported_defined {A} (P : Prop) msg :
  defined_unless (A := A) P (bind (Pep741.PYI_ERROR msg) (fun _ => c_return (-1))).
Proof. intros s H. discriminate H. Qed.

Lemma locale_to_utf8_defined S M dylib str size :
  defined_unless (unconverted S M dylib str)
    (Pep741._locale_encoding_to_utf8 S M dylib str size).
Proof.
  intros s. unfold Pep741._locale_encoding_to_utf8, unconverted.
  destruct (Py_DecodeLocale dylib str) as [w|]; [| done].
  destruct size; [| done].
  destruct (Pep741._wchar_to_utf8 S M w) eqn:E; [done |]. eauto.
Qed.

Lemma converted_path_defined (P : Prop) t S M dylib path size msg :
  (is_win32 t = false -> unconverted S M dylib path -> P) ->
  defined_unless P
    (if is_win32 t then ret path
     else
       bind (Pep741._locale_encoding_to_utf8 S M dylib path size)
         (fun converted =>
            match converted with
            | Some text => ret text
            | None => bind (Pep741.PYI_ERROR msg) (fun _ => c_return (-1))
            end)).
Proof.
  intros HP. destruct (is_win32 t); [apply defined_ret |].
  apply defined_bind.
  - eapply defined_weaken; [| apply locale_to_utf8_defined]. by apply HP.
  - intros [text|]; [apply defined_ret | apply reported_defined].
Qed.

Lemma set_str_defined (P : Prop) dylib name value msg :
  defined_unless (A := Z) P
    (bind (Pep741.PyInitConfig_SetStr dylib name value)
       (fun rc =>
          if rc <? 0
          then bind (Pep741.PYI_ERROR msg) (fun _ => c_return (-1))
          else c_return 0)).
Proof.
  apply defined_bind; [apply PyInitConfig_SetStr_defined |].
  intros rc. destruct (rc <? 0); [apply reported_defined | apply defined_c_return].
Qed.

Lemma pep741_set_program_name_defined t P S M ctx :
  defined_unless
    (is_win32 t = false
     /\ unconverted S M (dylib_python ctx) (executable_filename ctx))
    (Pep741.pyi_pyconfig_pep741_set_program_name t P S M ctx).
Proof.
  unfold Pep741.pyi_pyconfig_pep741_set_program_name. cbv zeta.
  apply defined_call. apply defined_bind.
  - apply converted_path_defined. tauto.
  - intros name. apply set_str_defined.
Qed.

Lemma pep741_set_python_home_defined t P S M ctx :
  defined_unless
    (is_win32 t = false
     /\ unconverted S M (dylib_python ctx) (application_home_dir ctx))
    (Pep741.pyi_pyconfig_pep741_set_python_home t P S M ctx).
Proof.
  unfold Pep741.pyi_pyconfig_pep741_set_python_home. cbv zeta.
  apply defined_call. apply defined_bind.
  - apply converted_path_defined. tauto.
  - intros name. apply set_str_defined.
Qed.

Lemma pep741_set_module_search_paths_defined t P S M ctx :
  defined_unless
    (is_win32 t = false
     /\ unconverted S M (dylib_python ctx) (application_home_dir ctx))
    (Pep741.pyi_pyconfig_pep741_set_module_search_paths t P S M ctx).
Proof.
  unfold Pep741.pyi_pyconfig_pep741_set_module_search_paths. cbv zeta.
  apply defined_call. apply defined_bind.
  - destruct (is_win32 t) eqn:Hw.
    + destruct (too_long _ _); [apply reported_defined | apply defined_ret].
    + apply defined_bind.
      * eapply defined_weaken; [| apply locale_to_utf8_defined]. tauto.
      * intros [text|]; [apply defined_ret | apply reported_defined].
  - intros home. destruct (too_long _ _); [apply reported_defined |].
    destruct (too_long _ _); [apply reported_defined |].
    apply defined_bind.
    + eapply defined_weaken; [| apply PyInitConfig_SetStrList_defined].
      intros H. discriminate H.
    + intros rc. destruct (rc <? 0); [apply reported_defined | apply defined_c_return].
Qed.

Lemma convert_arguments_length {A} (convert : A -> M Pep741.state (option string))
    (f : A -> option string) (args : list A) (s : Pep741.state) :
  (forall a s, convert a s = (Next (f a), s)) ->
  exists r,
    Pep741.convert_arguments convert args s = (Next r, s)
    /\ forall l, r = Some l -> length l = length args.
Proof.
  intros Hf.
  destruct (convert_arguments_all convert f args s Hf) as (r & Hr & Hall).
  exists r. split; [exact Hr |]. intros l Hl. apply Hall in Hl.
  symmetry. by eapply Forall2_length.
Qed.

Lemma pep741_set_argv_defined (P : Prop) t S M C W ctx :
  defined_unless P (Pep741.pyi_pyconfig_pep741_set_argv t S M C W ctx).
Proof.
  intros s. unfold Pep741.pyi_pyconfig_pep741_set_argv. cbv zeta.
  unfold call. destruct (negb _); [done |].
  unfold bind at 1.
  destruct (is_win32 t).
  - destruct (convert_arguments_length (fun a => ret (W a)) W (argv_w ctx) s)
      as (r & -> & Hlen); [done |].
    destruct r as [l|]; [| done].
    rewrite <- (Hlen l eq_refl). unfold bind, Pep741.PyInitConfig_SetStrList.
    rewrite read_array_all.
    destruct (PyInitConfig_SetStrList_ok _ _ _); cbn; done.
  - set (f := fun a : string =>
                match Py_DecodeLocale (dylib_python ctx) a with
                | Some w => Pep741._wchar_to_utf8 S M w
                | None => None
                end).
    set (args := match pyi_argv ctx with
                 | Some modified => modified
                 | None => Context.argv ctx
                 end).
    destruct (convert_arguments_length
                (fun a => Pep741._locale_encoding_to_utf8 S M (dylib_python ctx) a None)
                f args s) as (r & -> & Hlen).
    { intros a s0. unfold Pep741._locale_encoding_to_utf8, f.
      by destruct (Py_DecodeLocale _ a). }
    destruct r as [l|]; [| done].
    assert (match pyi_argv ctx with
            | Some modified => length modified
            | None => length (Context.argv ctx)
            end = length l) as ->.
    { rewrite (Hlen l eq_refl). subst args. by destruct (pyi_argv ctx). }
    unfold bind, Pep741.PyInitConfig_SetStrList.
    rewrite read_array_all.
    destruct (PyInitConfig_SetStrList_ok _ _ _); cbn; done.
Qed.

Lemma set_int_option_defined (P : Prop) dylib name value :
  defined_unless P (Pep741.set_int_option dylib name value).
Proof.
  unfold Pep741.set_int_option.
  apply defined_bind; [apply PyInitConfig_SetInt_defined |].
  intros rc. destruct (rc <? 0); [| apply defined_ret].
  intros s H. discriminate H.
Qed.

Lemma set_list_option_defined dylib name n items :
  defined_unless (read_array items n = None)
    (Pep741.set_list_option dylib name n items).
Proof.
  unfold Pep741.set_list_option.
  apply defined_bind; [apply PyInitConfig_SetStrList_defined |].
  intros rc. destruct (rc <? 0); [| apply defined_ret].
  intros s H. discriminate H.
Qed.

Lemma pep741_set_runtime_options_defined ctx ro :
  defined_unless
    (read_array (RuntimeOptions.wflags ro) (RuntimeOptions.num_wflags ro) = None
     \/ read_array (RuntimeOptions.xflags ro) (RuntimeOptions.num_xflags ro) = None)
    (Pep741.pyi_pyconfig_pep741_set_runtime_options ctx ro).
Proof.
  unfold Pep741.pyi_pyconfig_pep741_set_runtime_options. cbv zeta.
  apply defined_call.
  repeat (apply defined_bind; [apply set_int_option_defined | intros _]).
  apply defined_bind.
  { eapply defined_weaken; [| apply set_list_option_defined]. tauto. }
  intros _. apply defined_bind.
  { eapply defined_weaken; [| apply set_list_option_defined]. tauto. }
  intros _. apply defined_c_return.
Qed.

End HelpersDefined.

Section LegacyHelpersDefined.
Import Outcomes Pep587.

Lemma PyConfig_SetWideStringList_defined dylib n items :
  defined_unless (read_array items n = None)
    (Pep587.PyConfig_SetWideStringList dylib n items).
Proof.
  unfold Pep587.PyConfig_SetWideStringList.
  destruct (read_array items n); [apply defined_ret | done].
Qed.

Lemma pep587_set_program_name_defined (P : Prop) t U ctx :
  defined_unless P (Pep587.pyi_pyconfig_pep587_set_program_name t U ctx).
Proof.
  intros s. unfold Pep587.pyi_pyconfig_pep587_set_program_name.
  destruct (select_layout _); [| done].
  by destruct (Pep587._pyi_pyconfig_set_string _ _ _ _).
Qed.

Lemma pep587_set_python_home_defined (P : Prop) t U ctx :
  defined_unless P (Pep587.pyi_pyconfig_pep587_set_python_home t U ctx).
Proof.
  intros s. unfold Pep587.pyi_pyconfig_pep587_set_python_home.
  destruct (select_layout _); [| done].
  by destruct (Pep587._pyi_pyconfig_set_string _ _ _ _).
Qed.

Lemma read_items_present {A} (slots : list (option A)) :
  existsb is_null slots = false -> read_items slots (length slots) <> None.
Proof.
  induction slots as [|[x|] slots IH]; cbn; [done | | done].
  intros H. specialize (IH H). by destruct (read_items slots (length slots)).
Qed.

Lemma read_array_present {A} (slots : list (option A)) :
  existsb is_null slots = false -> read_array (Some slots) (length slots) <> None.
Proof.
  intros H. destruct slots as [|x slots]; [done |].
  by apply (read_items_present (x :: slots)).
Qed.

Lemma pep587_store_paths_defined ctx n items :
  defined_unless (read_array items n = None)
    (Pep587._pyi_pyconfig_set_module_search_paths ctx n items).
Proof.
  unfold Pep587._pyi_pyconfig_set_module_search_paths.
  destruct (select_layout _); [| apply defined_ret].
  apply defined_bind; [apply PyConfig_SetWideStringList_defined |].
  intros [l|] s H; discriminate H.
Qed.

Lemma pep587_set_module_search_paths_defined (P : Prop) t PM U ctx :
  defined_unless P (Pep587.pyi_pyconfig_pep587_set_module_search_paths t PM U ctx).
Proof.
  unfold Pep587.pyi_pyconfig_pep587_set_module_search_paths. cbv zeta.
  repeat (match goal with |- defined_unless _ (if ?b then _ else _) => destruct b eqn:? end;
          [apply defined_ret |]).
  eapply defined_weaken; [| apply pep587_store_paths_defined].
  intros H. exfalso. revert H.
  match goal with
  | Hn : existsb is_null ?l = false |- _ => apply (read_array_present l Hn)
  end.
Qed.

Lemma pep587_store_argv_defined ctx n items :
  defined_unless (read_array items n = None)
    (Pep587._pyi_pyconfig_set_argv ctx n items).
Proof.
  unfold Pep587._pyi_pyconfig_set_argv.
  destruct (select_layout _); [| apply defined_ret].
  apply defined_bind; [apply PyConfig_SetWideStringList_defined |].
  intros [l|] s H; discriminate H.
Qed.

Lemma pep587_set_argv_defined (P : Prop) t C ctx :
  defined_unless P (Pep587.pyi_pyconfig_pep587_set_argv t C ctx).
Proof.
  unfold Pep587.pyi_pyconfig_pep587_set_argv.
  destruct (is_win32 t).
  { eapply defined_weaken; [| apply pep587_store_argv_defined].
    intros H. by rewrite read_array_all in H. }
  cbv zeta. destruct (negb _); [apply defined_ret |].
  destruct (Pep587.decode_arguments _ _) as [l|] eqn:Hl; [| apply defined_ret].
  apply decode_arguments_all, Forall2_length in Hl.
  eapply defined_weaken; [| apply pep587_store_argv_defined].
  intros H. by rewrite Hl, read_array_all in H.
Qed.

Lemma pep587_set_runtime_options_defined ctx ro :
  defined_unless
    (read_array (RuntimeOptions.wflags_w ro) (RuntimeOptions.num_wflags ro) = None
     \/ read_array (RuntimeOptions.xflags_w ro) (RuntimeOptions.num_xflags ro) = None)
    (Pep587.pyi_pyconfig_pep587_set_runtime_options ctx ro).
Proof.
  unfold Pep587.pyi_pyconfig_pep587_set_runtime_options. cbv zeta.
  destruct (select_layout _); [| apply defined_ret].
  apply defined_call.
  apply defined_bind; [intros s H; discriminate H | intros _].
  apply defined_bind.
  { destruct (_ =? _)%nat; [apply defined_ret |].
    apply defined_bind.
    - eapply defined_weaken; [| apply PyConfig_SetWideStringList_defined]. tauto.
    - intros [l|] s H; discriminate H. }
  intros _. apply defined_bind.
  { destruct (_ =? _)%nat; [apply defined_ret |].
    apply defined_bind.
    - eapply defined_weaken; [| apply PyConfig_SetWideStringList_defined]. tauto.
    - intros [l|] s H; discriminate H. }
  intros _. apply defined_bind; [intros s H; discriminate H | intros _].
  apply defined_c_return.
Qed.

End LegacyHelpersDefined.

Section FlagsReadable.
Import RuntimeOptions.

(** After a successful read the list of W-flags of the protocol can be
    read in full, and so can the wide list of X-flags. *)
Lemma flags_readable U c0 mb pm un ctx h ro log :
  pyi_runtime_options_read U c0 mb pm un ctx h = (Some ro, log) ->
  if has_pep741 (dylib_python ctx)
  then read_array (wflags ro) (num_wflags ro) <> None
  else read_array (wflags_w ro) (num_wflags ro) <> None
       /\ read_array (xflags_w ro) (num_xflags ro) <> None.
Proof.
  intros Hread.
  destruct (flag_arrays_after_read U c0 mb pm un ctx h ro log Hread)
    as (Hnw & Hnx & Harr).
  rewrite Hnw, Hnx.
  destruct (has_pep741 (dylib_python ctx)).
  - destruct Harr as (_ & _ & Hw & _).
    destruct (flag_arguments "W " (toc (archive ctx))) as [|a W] eqn:E; [done |].
    rewrite Hw by done. by rewrite read_array_all.
  - destruct Harr as (_ & _ & Hw & Hx). split.
    + destruct (flag_arguments "W " (toc (archive ctx))) as [|a W] eqn:E; [done |].
      rewrite Hw by done.
      rewrite <- (length_map (flag_w mb pm un) (a :: W)). by rewrite read_array_all.
    + destruct (flag_arguments "X " (toc (archive ctx))) as [|a X] eqn:E; [done |].
      rewrite Hx by done.
      rewrite <- (length_map (flag_w mb pm un) (a :: X)). by rewrite read_array_all.
Qed.

End FlagsReadable.

Section StartOutcome.
Import Outcomes Reports Python.

Lemma bind_assoc {S A B C} (m : M S A) (f : A -> M S B) (g : B -> M S C) s :
  bind (bind m f) g s = bind m (fun x => bind (f x) g) s.
Proof. unfold bind. by destruct (m s) as [[a | c | |] s']. Qed.

Lemma bind_ret {S A B} (a : A) (k : A -> M S B) s : bind (ret a) k s = k a s.
Proof. reflexivity. Qed.

Variable cause : Prop.

Lemma start_outcome_extend ctx s0 s1 pre r :
  continues s0 s1 pre -> start_outcome cause ctx s1 r -> start_outcome cause ctx s0 r.
Proof.
  intros [Hsys Hev]. destruct r as [[rc | c | |] s']; cbn; try done.
  - intros (new & [Hs He] & H). exists (pre ++ new). split.
    + split; [congruence |]. rewrite He, Hev. by rewrite <- app_assoc.
    + destruct H as [[-> Hin] | [-> [m Hin]]]; [left | right]; split; try done.
      * apply in_or_app. by right.
      * exists m. apply in_or_app. by right.
  - intros (Hp & new & [Hs He]). split; [done |]. exists (pre ++ new). split.
    + congruence.
    + rewrite He, Hev. by rewrite <- !app_assoc.
Qed.

Lemma after_emit ctx e (m : M interp Z) s :
  start_outcome cause ctx {| events := events s ++ [e]; sys := sys s |}
    (m {| events := events s ++ [e]; sys := sys s |}) ->
  start_outcome cause ctx s ((emit e;; m)%step s).
Proof.
  intros H. change ((emit e;; m)%step s)
    with (m {| events := events s ++ [e]; sys := sys s |}).
  eapply start_outcome_extend; [| exact H]. by split.
Qed.

Lemma failure_reported ctx allocated msg s :
  start_outcome cause ctx s ((PYI_ERROR msg;; finish ctx allocated (-1))%step s).
Proof.
  unfold finish, PYI_ERROR.
  destruct (has_pep741 (dylib_python ctx)) eqn:Hp; [| destruct allocated].
  - exists [Message msg; Called "PyInitConfig_Free"]. cbn. split.
    + split; [done |]. cbn. by rewrite <- app_assoc.
    + right. split; [done |]. exists msg. by left.
  - exists [Message msg; Called "PyConfig_Clear"]. cbn. split.
    + split; [done |]. cbn. by rewrite <- app_assoc.
    + right. split; [done |]. exists msg. by left.
  - exists [Message msg]. cbn. split; [by split |].
    right. split; [done |]. exists msg. by left.
Qed.

Lemma step_pep741_outcome ctx helper failure config next :
  no_exit helper -> defined_unless cause helper ->
  (forall config' s', start_outcome cause ctx s' (next config' s')) ->
  forall s, start_outcome cause ctx s (step_pep741 ctx helper failure config next s).
Proof.
  intros Hh Hd Hn s. unfold step_pep741, on_pep741, bind.
  specialize (Hh {| Pep741.config := config; Pep741.messages := [] |}).
  specialize (Hd {| Pep741.config := config; Pep741.messages := [] |}).
  destruct (helper _) as [[rc | rc | |] st]; cbn in Hh, Hd |- *; try done;
    try (by apply Hd).
  all: destruct (rc <? 0);
    (eapply start_outcome_extend;
     [| first [apply failure_reported | apply Hn]]); by split.
Qed.

Lemma step_pep587_outcome ctx helper failure config next :
  no_exit helper -> defined_unless cause helper ->
  (forall config' s', start_outcome cause ctx s' (next config' s')) ->
  forall s, start_outcome cause ctx s (step_pep587 ctx helper failure config next s).
Proof.
  intros Hh Hd Hn s. unfold step_pep587, on_pep587, bind.
  specialize (Hh config). specialize (Hd config).
  destruct (helper _) as [[rc | rc | |] st]; cbn in Hh, Hd |- *; try done;
    try (by apply Hd).
  all: destruct (rc <? 0); first [apply failure_reported | apply Hn].
Qed.

End StartOutcome.

Section StartReports.
Import Outcomes Reports Python.

(** X13. [pyi_python_start_interpreter] never fails silently, wherever
    what it does is defined: it returns 0 only after calling the
    initializer of the Python library, it returns -1 only after writing a
    message, it leaves the attributes of [sys] alone, and it ends the
    process only on the PEP 587 path, after the message of the failed
    start and the call of [Py_ExitStatusException]. What it does is
    defined under PEP 587 (a wide flag that [mbstowcs] left without
    terminator being copied as [flag_w_unterminated] gives it), and under
    PEP 741 with two exceptions, where no result and no message can be
    relied on: the options that were read
    hold a NULL among the [num_xflags] slots of [xflags], which
    [PyInitConfig_SetStrList] then reads; or, off Windows, the name of the
    executable or the home directory is decoded but its conversion to
    UTF-8 yields NULL, which is then formatted with [%s]. *)
Theorem start_reports_every_failure :
  forall (target : platform) (PATH_MAX SIZE_MAX ULONG_MAX : Z)
         (calloc_zero_is_null : bool) (mbstowcs : string -> option wstring)
         (flag_w_unterminated : string -> wstring)
         (config_calloc_ok : bool) (calloc_ok : nat -> bool)
         (malloc_ok : Z -> bool)
         (pyi_win32_utf8_to_wcs : string -> option wstring)
         (pyi_win32_wcs_to_utf8 : wstring -> option string)
         (pyi_ctx : PYI_CONTEXT) (h : RuntimeOptions.heap) (s : interp),
    let dylib := dylib_python pyi_ctx in
    match pyi_python_start_interpreter target PATH_MAX SIZE_MAX ULONG_MAX
            calloc_zero_is_null mbstowcs flag_w_unterminated config_calloc_ok
            calloc_ok malloc_ok pyi_win32_utf8_to_wcs pyi_win32_wcs_to_utf8
            pyi_ctx h s with
    | (Next rc, s') =>
        exists new, sys s' = sys s /\ events s' = events s ++ new
          /\ ((rc = 0 /\ In (Called (initializer pyi_ctx)) new)
              \/ (rc = -1 /\ exists text, In (Message text) new))
    | (Exit, s') =>
        has_pep741 dylib = false
        /\ exists new, sys s' = sys s
             /\ events s' = events s ++ new
                  ++ [Message "Failed to start embedded python interpreter!";
                      Called "Py_ExitStatusException"]
    | (Return _, _) => False
    | (Undefined, _) =>
        has_pep741 dylib = true
        /\ ((exists runtime_options,
               (RuntimeOptions.pyi_runtime_options_read ULONG_MAX
                  calloc_zero_is_null mbstowcs (PYI_PATH_MAX PATH_MAX target)
                  flag_w_unterminated pyi_ctx h).1 = Some runtime_options
               /\ read_array (RuntimeOptions.xflags runtime_options)
                    (RuntimeOptions.num_xflags runtime_options) = None)
            \/ (is_win32 target = false
                /\ (unconverted SIZE_MAX malloc_ok dylib
                      (executable_filename pyi_ctx)
                    \/ unconverted SIZE_MAX malloc_ok dylib
                         (application_home_dir pyi_ctx))))
    end.
Proof.
  intros. subst dylib.
  enough (start_outcome
            (undefined_start target SIZE_MAX malloc_ok pyi_ctx
               (RuntimeOptions.pyi_runtime_options_read ULONG_MAX
                  calloc_zero_is_null mbstowcs (PYI_PATH_MAX PATH_MAX target)
                  flag_w_unterminated pyi_ctx h).1)
            pyi_ctx s
            (pyi_python_start_interpreter target PATH_MAX SIZE_MAX ULONG_MAX
               calloc_zero_is_null mbstowcs flag_w_unterminated config_calloc_ok
               calloc_ok malloc_ok pyi_win32_utf8_to_wcs pyi_win32_wcs_to_utf8
               pyi_ctx h s)) as H.
  { destruct (pyi_python_start_interpreter _ _ _ _ _ _ _ _ _ _ _ _ _ _ _)
      as [[rc | c | |] s']; cbn in H; try done.
    destruct H as (new & [Hs He] & H). by exists new. }
  unfold pyi_python_start_interpreter. cbv zeta.
  destruct (RuntimeOptions.pyi_runtime_options_read _ _ _ _ _ _ _)
    as [[ro|] log] eqn:Hread; cbn [fst];
    [| apply failure_reported].
  apply flags_readable in Hread.
  set (cause := undefined_start target SIZE_MAX malloc_ok pyi_ctx (Some ro)).
  unfold pyi_pyconfig_preinit_python.
  rewrite bind_assoc. apply after_emit.
  rewrite bind_assoc. apply after_emit. rewrite bind_ret.
  destruct (_ <? 0); [apply failure_reported |].
  destruct (has_pep741 (dylib_python pyi_ctx)) eqn:Hp.
  - apply after_emit. destruct (PyInitConfig_Create _) as [config|];
      [| apply failure_reported].
    apply step_pep741_outcome; [apply pep741_set_program_name_no_exit | |].
    { eapply defined_weaken; [| apply pep741_set_program_name_defined].
      intros [Hw Hu]. split; [exact Hp |]. right. split; [exact Hw | by left]. }
    intros c1 s1.
    apply step_pep741_outcome; [apply pep741_set_python_home_no_exit | |].
    { eapply defined_weaken; [| apply pep741_set_python_home_defined].
      intros [Hw Hu]. split; [exact Hp |]. right. split; [exact Hw | by right]. }
    intros c2 s2.
    apply step_pep741_outcome; [apply pep741_set_module_search_paths_no_exit | |].
    { eapply defined_weaken; [| apply pep741_set_module_search_paths_defined].
      intros [Hw Hu]. split; [exact Hp |]. right. split; [exact Hw | by right]. }
    intros c3 s3.
    apply step_pep741_outcome;
      [apply pep741_set_argv_no_exit | apply pep741_set_argv_defined |].
    intros c4 s4.
    apply step_pep741_outcome; [apply pep741_set_runtime_options_no_exit | |].
    { eapply defined_weaken; [| apply pep741_set_runtime_options_defined].
      intros [Hw | Hx]; [done |]. split; [exact Hp |]. left. by exists ro. }
    intros c5 s5.
    destruct (Py_InitializeFromInitConfig_ok _ _).
    + unfold finish. rewrite Hp.
      exists [Called "Py_InitializeFromInitConfig"; Called "PyInitConfig_Free"].
      split; [split; [done | cbn; by rewrite <- app_assoc] |].
      left. split; [done |]. unfold initializer. rewrite Hp. by left.
    + apply after_emit. apply failure_reported.
  - destruct Hread as [Hw Hx].
    destruct (Pep587.pyi_pyconfig_pep587_create _ _) as [config|];
      [| apply failure_reported].
    apply after_emit.
    apply step_pep587_outcome;
      [apply pep587_set_program_name_no_exit
      | apply pep587_set_program_name_defined |].
    intros c1 s1.
    apply step_pep587_outcome;
      [apply pep587_set_python_home_no_exit
      | apply pep587_set_python_home_defined |].
    intros c2 s2.
    apply step_pep587_outcome;
      [apply pep587_set_module_search_paths_no_exit
      | apply pep587_set_module_search_paths_defined |].
    intros c3 s3.
    apply step_pep587_outcome;
      [apply pep587_set_argv_no_exit | apply pep587_set_argv_defined |].
    intros c4 s4.
    apply step_pep587_outcome; [apply pep587_set_runtime_options_no_exit | |].
    { eapply defined_weaken; [| apply pep587_set_runtime_options_defined].
      intros [H | H]; done. }
    intros c5 s5.
    destruct (Py_InitializeFromConfig_ok _ _).
    + unfold finish. rewrite Hp.
      exists [Called "Py_InitializeFromConfig"; Called "PyConfig_Clear"].
      split; [split; [done | cbn; by rewrite <- app_assoc] |].
      left. split; [done |]. unfold initializer. rewrite Hp. by left.
    + split; [done |]. exists [Called "Py_InitializeFromConfig"].
      split; [done |]. cbn. by rewrite <- !app_assoc.
Qed.

End StartReports.
(** ** The options of the bootloader, read off the TOC *)

Section OptionNames.
Import BootloaderOptions BootloaderOptionWords.

Lemma prefix_character (a p : string) (n k : nat) (c : ascii) :
  strncmp_eq a p n = true -> (k < n)%nat -> String.get k p = Some c ->
  String.get k a = Some c.
Proof.
  revert a p k. induction n as [|n IH]; intros a p k Heq Hk Hc; [lia |].
  destruct a as [|x a], p as [|y p]; cbn in Heq; try discriminate.
  destruct (Ascii.eqb_spec x y) as [-> | Hne]; [| discriminate].
  destruct k as [|k]; cbn in Hc |- *; [done |].
  apply (IH a p k); [done | lia | done].
Qed.

(** The names of the options differ in their fifth character. *)
Lemma fifth_character (a p : string) (n : nat) (c : ascii) :
  strncmp_eq a p n = true -> (4 < n)%nat -> String.get 4 p = Some c ->
  String.get 4 a = Some c.
Proof. apply prefix_character. Qed.

End OptionNames.

Section BootloaderOptionsStep.
Import BootloaderOptions BootloaderOptionWords.

Variable target : platform.
Variable WINDOWED : bool.
Variable after_name : TOC_ENTRY -> string.

Ltac clash :=
  match goal with
  | H1 : strncmp_eq ?a ?p ?n = true, H2 : strncmp_eq ?a ?q ?m = true |- _ =>
      let E1 := fresh in let E2 := fresh in
      pose proof (fifth_character a p n _ H1 ltac:(lia) eq_refl) as E1;
      pose proof (fifth_character a q m _ H2 ltac:(lia) eq_refl) as E2;
      rewrite E1 in E2; discriminate E2
  end.

Ltac others :=
  repeat match goal with
  | |- context [strncmp_eq (name ?e) ?p ?n] =>
      destruct (strncmp_eq (name e) p n) eqn:?; [clash |]
  end.

Lemma read_entry_effect e ctx o :
  let r := read_entry target WINDOWED after_name e (ctx, o) in
  r.1 = (if names_gil_flag after_name e then set_nogil_enabled 1 ctx else ctx)
  /\ runtime_tmpdir r.2
     = (if names_option "pyi-runtime-tmpdir" 18 e
        then Some (name_from after_name 19 e) else runtime_tmpdir o)
  /\ contents_subdirectory r.2
     = (if names_option "pyi-contents-directory" 22 e
        then Some (name_from after_name 23 e) else contents_subdirectory o)
  /\ macos_argv_emulation r.2
     = (if is_darwin target && WINDOWED
           && names_option "pyi-macos-argv-emulation" 24 e
        then 1 else macos_argv_emulation o)
  /\ hide_console r.2
     = (if is_win32 target && negb WINDOWED
           && names_option "pyi-hide-console" 16 e
        then hide_console_value (name_from after_name 17 e) else hide_console o)
  /\ disable_windowed_traceback r.2
     = (if WINDOWED && names_option "pyi-disable-windowed-traceback" 30 e
        then 1 else disable_windowed_traceback o)
  /\ ignore_signals r.2
     = (if negb (is_win32 target)
           && names_option "pyi-bootloader-ignore-signals" 29 e
        then 1 else ignore_signals o).
Proof.
  cbv zeta. unfold read_entry, names_gil_flag, names_option.
  destruct (typecode_eqb _ _); cbn [negb andb];
    [| rewrite !andb_false_r; done].
  destruct (strncmp_eq (name e) "pyi-python-flag" 15) eqn:Hflag.
  { cbn [andb].
    assert (forall b : bool,
               (if b then (set_nogil_enabled 1 ctx, o) else (ctx, o))
               = (if b then set_nogil_enabled 1 ctx else ctx, o)) as ->
      by (by intros []).
    cbn [fst snd]. split; [done |].
    repeat match goal with
    | |- context [strncmp_eq (name e) ?p ?n] =>
        lazymatch p with
        | "pyi-python-flag" => fail
        | _ => destruct (strncmp_eq (name e) p n) eqn:?; [clash |]
        end
    end.
    rewrite !andb_false_r. done. }
  cbn [andb].
  destruct (strncmp_eq (name e) "pyi-runtime-tmpdir" 18) eqn:Htmp.
  { others. rewrite !andb_false_r. done. }
  destruct (strncmp_eq (name e) "pyi-contents-directory" 22) eqn:Hdir.
  { others. rewrite !andb_false_r. done. }
  destruct (strncmp_eq (name e) "pyi-macos-argv-emulation" 24) eqn:Hmac.
  { others. rewrite !andb_false_r, !andb_true_r.
    destruct (is_darwin target && WINDOWED); done. }
  rewrite !andb_false_r.
  destruct (strncmp_eq (name e) "pyi-hide-console" 16) eqn:Hhide.
  { others. rewrite !andb_false_r, !andb_true_r.
    destruct (is_win32 target && negb WINDOWED); done. }
  rewrite !andb_false_r.
  destruct (strncmp_eq (name e) "pyi-disable-windowed-traceback" 30) eqn:Htb.
  { others. rewrite !andb_false_r, !andb_true_r. destruct WINDOWED; done. }
  rewrite !andb_false_r.
  destruct (strncmp_eq (name e) "pyi-bootloader-ignore-signals" 29) eqn:Hsig.
  { rewrite !andb_true_r. destruct (negb (is_win32 target)); done. }
  rewrite !andb_false_r. done.
Qed.

Lemma last_filter_cons {A} (f : A -> bool) (x : A) (l : list A) :
  last (List.filter f (x :: l))
  = match last (List.filter f l) with
    | Some y => Some y
    | None => if f x then Some x else None
    end.
Proof.
  cbn [List.filter]. destruct (f x); [| by destruct (last _)].
  destruct (List.filter f l) as [|y l'] eqn:E; [done |].
  change (last (x :: y :: l')) with (last (y :: l')).
  destruct (last (y :: l')) eqn:El; [done |].
  by apply last_None in El.
Qed.

End BootloaderOptionsStep.

Section BootloaderOptionsOfToc.
Import BootloaderOptions BootloaderOptionWords.

Ltac by_cases :=
  repeat match goal with
         | |- context [last ?l] => destruct (last l)
         | |- context [names_option ?p ?n ?e] => destruct (names_option p n e)
         | |- context [existsb ?f ?l] => destruct (existsb f l)
         end;
  reflexivity.

(** X14. What [_pyi_main_read_runtime_options] leaves in the context is
    decided option by option, for every TOC: the GIL flag is raised when
    the TOC has an entry [pyi-python-flag Py_GIL_DISABLED] and nothing
    else of the context changes; the temporary directory, the contents
    directory and the console mode are those of the last entry that names
    them, the value being the name from the character behind the
    separator on - for an entry that is only the option name, the string
    behind the terminator of the name; the three other flags are raised
    when an entry names them on a build that knows them. An option that
    is absent, or unknown to the build, leaves its field as it was. *)
Theorem bootloader_options_of_toc :
  forall (target : platform) (WINDOWED : bool)
         (after_name : TOC_ENTRY -> string) (pyi_ctx : PYI_CONTEXT)
         (o : BOOTLOADER_OPTIONS),
    let entries := toc (archive pyi_ctx) in
    let r := _pyi_main_read_runtime_options target WINDOWED after_name pyi_ctx o in
    r.1 = (if existsb (names_gil_flag after_name) entries
           then set_nogil_enabled 1 pyi_ctx else pyi_ctx)
    /\ runtime_tmpdir r.2
       = match last_option "pyi-runtime-tmpdir" 18 entries with
         | Some e => Some (name_from after_name 19 e)
         | None => runtime_tmpdir o
         end
    /\ contents_subdirectory r.2
       = match last_option "pyi-contents-directory" 22 entries with
         | Some e => Some (name_from after_name 23 e)
         | None => contents_subdirectory o
         end
    /\ hide_console r.2
       = match last_option "pyi-hide-console" 16 entries with
         | Some e =>
             if is_win32 target && negb WINDOWED
             then hide_console_value (name_from after_name 17 e)
             else hide_console o
         | None => hide_console o
         end
    /\ macos_argv_emulation r.2
       = (if is_darwin target && WINDOWED
             && existsb (names_option "pyi-macos-argv-emulation" 24) entries
          then 1 else macos_argv_emulation o)
    /\ disable_windowed_traceback r.2
       = (if WINDOWED
             && existsb (names_option "pyi-disable-windowed-traceback" 30) entries
          then 1 else disable_windowed_traceback o)
    /\ ignore_signals r.2
       = (if negb (is_win32 target)
             && existsb (names_option "pyi-bootloader-ignore-signals" 29) entries
          then 1 else ignore_signals o).
Proof.
  intros target WINDOWED after_name pyi_ctx o.
  unfold _pyi_main_read_runtime_options.
  generalize (toc (archive pyi_ctx)) as entries. intros entries.
  cbv zeta. unfold last_option. revert pyi_ctx o.
  induction entries as [|e entries IH]; intros ctx o.
  - cbn. rewrite !andb_false_r. done.
  - cbn [read_entries].
    pose proof (read_entry_effect target WINDOWED after_name e ctx o) as He.
    cbv zeta in He.
    destruct (read_entry target WINDOWED after_name e (ctx, o)) as [ctx1 o1].
    cbn [fst snd] in He.
    destruct He as (Hc & Htmp & Hdir & Hmac & Hhide & Htb & Hsig).
    destruct (IH ctx1 o1) as (Ic & Itmp & Idir & Ihide & Imac & Itb & Isig).
    rewrite !last_filter_cons. cbn [existsb].
    repeat split.
    + rewrite Ic, Hc. destruct (existsb (names_gil_flag after_name) entries);
        destruct (names_gil_flag after_name e); reflexivity.
    + rewrite Itmp, Htmp. by_cases.
    + rewrite Idir, Hdir. by_cases.
    + rewrite Ihide, Hhide. destruct (is_win32 target && negb WINDOWED); by_cases.
    + rewrite Imac, Hmac.
      destruct (is_darwin target && WINDOWED); cbn [andb]; by_cases.
    + rewrite Itb, Htb. destruct WINDOWED; cbn [andb]; by_cases.
    + rewrite Isig, Hsig. destruct (negb (is_win32 target)); cbn [andb]; by_cases.
Qed.

Lemma bootloader_options_of_toc_witness :
  let ctx := sample_context (sample_dylib 313 false) 0
               [option_entry "pyi-runtime-tmpdir /tmp";
                option_entry "pyi-python-flag Py_GIL_DISABLED";
                module_entry "pyi-contents-directory lib";
                option_entry "pyi-runtime-tmpdir";
                option_entry "pyi-contents-directory";
                option_entry "pyi-contents-directory ";
                option_entry "pyi-hide-console hide-early";
                option_entry "pyi-bootloader-ignore-signals"; option_entry "u"] in
  let r := _pyi_main_read_runtime_options Linux false (fun _ => "behind") ctx
             BOOTLOADER_OPTIONS_zero in
  nogil_enabled r.1 = 1
  /\ runtime_tmpdir r.2 = Some "behind"
  /\ contents_subdirectory r.2 = Some ""
  /\ hide_console r.2 = 0
  /\ ignore_signals r.2 = 1.
Proof.
  intros ctx r.
  destruct (bootloader_options_of_toc Linux false (fun _ => "behind") ctx
              BOOTLOADER_OPTIONS_zero)
    as (H1 & H2 & H3 & H4 & _ & _ & H7).
  split; [exact (f_equal nogil_enabled H1) |].
  split; [exact H2 |]. split; [exact H3 |]. split; [exact H4 | exact H7].
Defined.

End BootloaderOptionsOfToc.

(** ** Once per start of the application *)

Section OncePerApplication.
Import Main Preparation.

(** X15. What has to happen once per start of the application is done by
    the entry-point process and by none of its descendants. With the level
    that the [switch] assigns, a onefile process creates the temporary
    directory exactly when the level of its parent is UNKNOWN; a process
    restarts itself only then, having modified the library search path
    and without a splash screen; on the POSIX systems with restarts the
    search path is modified exactly then, and on Cygwin at least then;
    and the code path of the onefile parent is taken only by an
    entry-point process or by its restarted self. *)
Theorem entry_process_prepares_application :
  forall (target : platform) (ctx ctx' : PYI_CONTEXT) (w w' : world),
    pyi_main_process_level target ctx w = (Next ctx', w') ->
    let parent := parent_process_level ctx' in
    (is_onefile ctx' = true ->
     (create_temp_dir ctx' = true <-> parent = PYI_PROCESS_LEVEL_UNKNOWN))
    /\ (needs_restart target ctx' = true ->
        parent = PYI_PROCESS_LEVEL_UNKNOWN
        /\ modify_ld_library_path target ctx' = true
        /\ splash_screen_is_set_up ctx' = false)
    /\ (win_mac_cygwin target = false ->
        (modify_ld_library_path target ctx' = true
         <-> parent = PYI_PROCESS_LEVEL_UNKNOWN))
    /\ (target = Cygwin -> parent = PYI_PROCESS_LEVEL_UNKNOWN ->
        modify_ld_library_path target ctx' = true)
    /\ (is_onefile_parent ctx' = true ->
        parent = PYI_PROCESS_LEVEL_UNKNOWN
        \/ parent = PYI_PROCESS_LEVEL_PARENT_NEEDS_RESTART).
Proof.
  intros target ctx ctx' w w'.
  unfold pyi_main_process_level, create_temp_dir, modify_ld_library_path,
    needs_restart, splash_screen_is_set_up, is_onefile_parent.
  unfold PYI_PROCESS_LEVEL_UNKNOWN, PYI_PROCESS_LEVEL_PARENT_NEEDS_RESTART,
    PYI_PROCESS_LEVEL_PARENT, PYI_PROCESS_LEVEL_MAIN, PYI_PROCESS_LEVEL_SUBPROCESS.
  cbv zeta.
  destruct (Z.eqb_spec (parent_process_level ctx) (-2)) as [Hp | Hu].
  { destruct (is_onefile ctx) eqn:Hone, target, (has_splash ctx) eqn:Hs,
      (suppress_splash ctx) eqn:Hq; cbn [win_mac_cygwin negb andb];
      intros [= <- _]; cbn; rewrite ?Hone, ?Hp, ?Hs, ?Hq; cbn;
      repeat split; intros; try done; auto. }
  destruct (Z.eqb_spec (parent_process_level ctx) (-1)) as [Hp | Hr].
  { destruct target; cbn [win_mac_cygwin negb andb];
      rewrite ?Hp; cbn; try discriminate;
      destruct (is_onefile ctx) eqn:Hone; intros [= <- _]; cbn;
      rewrite ?Hone, ?Hp; cbn; repeat split; intros; try done; auto. }
  rewrite andb_false_r.
  destruct (Z.eqb_spec (parent_process_level ctx) 0) as [Hp | Hp0].
  { intros [= <- _]; cbn. rewrite ?Hp.
    destruct target, (is_onefile ctx), (has_splash ctx), (suppress_splash ctx);
      cbn; repeat split; intros; try done; auto. }
  destruct (Z.eqb_spec (parent_process_level ctx) 1) as [Hp | Hm].
  { intros [= <- _]; cbn. rewrite ?Hp.
    destruct target, (is_onefile ctx), (has_splash ctx), (suppress_splash ctx);
      cbn; repeat split; intros; try done; auto. }
  discriminate.
Qed.

Lemma entry_process_prepares_application_witness :
  let ctx := set_parent_process_level PYI_PROCESS_LEVEL_UNKNOWN
               (set_is_onefile true
                  (sample_context (sample_dylib 312 false) 0 [])) in
  let w := {| env := ∅; errors := [] |} in
  exists ctx',
    pyi_main_process_level Linux ctx w = (Next ctx', w)
    /\ create_temp_dir ctx' = true
    /\ modify_ld_library_path Linux ctx' = true
    /\ needs_restart Linux ctx' = false.
Proof.
  intros ctx w. eexists. split; [reflexivity |].
  destruct (entry_process_prepares_application Linux ctx _ w w eq_refl)
    as (H1 & _ & H3 & _).
  split; [apply H1; reflexivity |]. split; [apply H3; reflexivity | reflexivity].
Defined.

End OncePerApplication.

(** ** The import loop stops at the first failure *)

Section ImportLoop.
Import Python Bootstrap.

Variable extract : ARCHIVE -> TOC_ENTRY -> option (list Z).
Variable unmarshal_ok : list string -> list Z -> Z -> bool.
Variable exec_ok : list string -> string -> list Z -> bool.
Variable pending : list string -> string -> bool.






End ImportLoop.

Section ImportModulesTheorem.
Import Python Bootstrap.


End ImportModulesTheorem.
